(** * AI Image Variations: the multi-backend transformation dispatch layer

    A shallow embedding of the six backend adapters
    ([utils/*_handler.py], function [transform_image] of each) and of the
    variation loop of [app.py] ([render_transform], [render_results]),
    together with the functions around them: [transform_with_style] of each
    adapter, [unload_pipeline], [init_session_state], [validate_image] and
    the two layout functions of [utils/image_processor.py].

    Conventions of the embedding.
    - Python values that the code inspects dynamically (decoded JSON, the
      output of [replicate.run], the second component of the result tuple)
      are values of one type [pyval].
    - [float] is the kernel's binary64 type; [1.0 - strength] and
      [strength < 0.5] are IEEE operations, as in CPython.
    - Code runs in a monad [M S] threading a state [S] (the outside world
      and the module globals), an exception result, and the list of the
      external calls made, in the order they were made.
    - Every call into a library that talks to the outside (requests,
      replicate, huggingface_hub, torch, diffusers, streamlit, time, random)
      is answered by an oracle of the record [Ext]; pure library functions
      (PIL decoding, base64, [str()]) are fields of the record [Lib].  Both
      are universally quantified: oracles may return any response and raise
      any exception of class [Exception].
    - [print] is diagnostic output and is not modelled, except where the
      printed expression can itself raise on a dynamically typed value
      ([output_url[:50]], [result_image.size]); those are kept as checks.
      The device queries inside the banner of the local handler are
      diagnostics too.  Importing a handler module, the layout calls of
      streamlit and the [torch.inference_mode()] context are taken to
      succeed without effect.
    - Exceptions are those of class [Exception]; [KeyboardInterrupt] and
      [SystemExit] are outside the model.
    - Strings are byte strings: [s[:n]] takes [n] bytes and [lower] maps
      ASCII letters. *)

From Stdlib Require Import Floats ZArith String Ascii List Bool Lia.
From stdpp Require Import base option list strings gmap pretty.

Set Default Proof Using "Type".
Set Warnings "-register-all,-inexact-float".
Open Scope string_scope.
Open Scope list_scope.
Open Scope Z_scope.

(** ** Python values *)

Definition bytes := list Byte.byte.

(** A decoded PIL image. *)
Record Image := mkImage {
  width : Z;
  height : Z;
  mode : string;
  pixels : bytes
}.

Inductive pyval :=
  | VNone
  | VBool (b : bool)
  | VInt (z : Z)
  | VFloat (f : float)
  | VStr (s : string)
  | VList (l : list pyval)
  | VDict (kv : list (string * pyval))
  | VImage (i : Image)
  | VFile (b : bytes)        (* a file-like object: has [read], nothing else used here *)
  | VObject (cls : string).  (* any other object *)

(** Exceptions: the classes the handlers distinguish, and [str(e)]. *)
Inductive exn_class :=
  | RequestsTimeout      (* requests.exceptions.Timeout, a RequestException *)
  | RequestException     (* requests.exceptions.RequestException *)
  | RuntimeError         (* RuntimeError, incl. torch.cuda.OutOfMemoryError *)
  | OtherException.      (* any other subclass of Exception *)

Record exn := Exn { exn_cls : exn_class; exn_str : string }.

Inductive res (A : Type) :=
  | Ok (a : A)
  | Raise (e : exn).
Arguments Ok {A} a.
Arguments Raise {A} e.

(** The classes named in [except] clauses. *)
Inductive except_clause := ExceptTimeout | ExceptRequestException | ExceptRuntimeError | ExceptException.

Definition isinstance_exn (e : exn) (c : except_clause) : bool :=
  match c, exn_cls e with
  | ExceptTimeout, RequestsTimeout => true
  | ExceptTimeout, _ => false
  | ExceptRequestException, (RequestsTimeout | RequestException) => true
  | ExceptRequestException, _ => false
  | ExceptRuntimeError, RuntimeError => true
  | ExceptRuntimeError, _ => false
  | ExceptException, _ => true
  end.

(** ** Strings *)

(** [needle in hay] *)
Fixpoint str_in (needle hay : string) : bool :=
  String.prefix needle hay ||
  match hay with
  | EmptyString => false
  | String _ rest => str_in needle rest
  end.

(** [s[:n]] *)
Definition str_take (n : nat) (s : string) : string := String.substring 0 n s.

Definition lower_ascii (c : ascii) : ascii :=
  let n := nat_of_ascii c in
  if (65 <=? n)%nat && (n <=? 90)%nat then ascii_of_nat (n + 32) else c.

(** [s.lower()] *)
Fixpoint lower (s : string) : string :=
  match s with
  | EmptyString => EmptyString
  | String c rest => String (lower_ascii c) (lower rest)
  end.

Definition is_space (c : ascii) : bool :=
  let n := nat_of_ascii c in
  (n =? 32)%nat || ((9 <=? n)%nat && (n <=? 13)%nat).

Fixpoint lstrip (s : string) : string :=
  match s with
  | String c rest => if is_space c then lstrip rest else s
  | EmptyString => EmptyString
  end.

Fixpoint rstrip (s : string) : string :=
  match s with
  | EmptyString => EmptyString
  | String c rest =>
      match rstrip rest with
      | EmptyString => if is_space c then EmptyString else String c EmptyString
      | r => String c r
      end
  end.

(** [s.strip()] *)
Definition strip (s : string) : string := rstrip (lstrip s).

(** ** Dynamic operations on values *)

(** [bool(v)] *)
Definition truthy (v : pyval) : bool :=
  match v with
  | VNone => false
  | VBool b => b
  | VInt z => negb (Z.eqb z 0)
  | VFloat f => negb (PrimFloat.eqb f 0%float)
  | VStr s => negb (String.eqb s "")
  | VList l => match l with [] => false | _ => true end
  | VDict kv => match kv with [] => false | _ => true end
  | VImage _ | VFile _ | VObject _ => true
  end.

(** The name [type(v)] prints as. *)
Definition type_name (v : pyval) : string :=
  match v with
  | VNone => "NoneType"
  | VBool _ => "bool"
  | VInt _ => "int"
  | VFloat _ => "float"
  | VStr _ => "str"
  | VList _ => "list"
  | VDict _ => "dict"
  | VImage _ => "PIL.Image.Image"
  | VFile _ => "_io.BytesIO"
  | VObject cls => cls
  end.

(** [str(type(v))] *)
Definition str_type (v : pyval) : string := "<class '" +:+ type_name v +:+ "'>".

Definition AttributeError (v : pyval) (attr : string) : exn :=
  Exn OtherException ("'" +:+ type_name v +:+ "' object has no attribute '" +:+ attr +:+ "'").
Definition TypeError (msg : string) : exn := Exn OtherException msg.
Definition IndexError (msg : string) : exn := Exn OtherException msg.
Definition KeyError (k : string) : exn := Exn OtherException ("'" +:+ k +:+ "'").
Definition ZeroDivisionError : exn := Exn OtherException "division by zero".

Fixpoint assoc (k : string) (kv : list (string * pyval)) : option pyval :=
  match kv with
  | [] => None
  | (k', v) :: rest => if String.eqb k k' then Some v else assoc k rest
  end.

(** [d.get(k, default)] *)
Definition py_get (d : pyval) (k : string) (default : pyval) : res pyval :=
  match d with
  | VDict kv => Ok (match assoc k kv with Some v => v | None => default end)
  | _ => Raise (AttributeError d "get")
  end.

(** [v[0]] *)
Definition py_index0 (v : pyval) : res pyval :=
  match v with
  | VList (x :: _) => Ok x
  | VList [] => Raise (IndexError "list index out of range")
  | VStr (String c _) => Ok (VStr (String c EmptyString))
  | VStr EmptyString => Raise (IndexError "string index out of range")
  | VDict _ => Raise (Exn OtherException "0")
  | _ => Raise (TypeError ("'" +:+ type_name v +:+ "' object is not subscriptable"))
  end.

(** [v[k]] for a string key [k] *)
Definition py_getitem (v : pyval) (k : string) : res pyval :=
  match v with
  | VDict kv => match assoc k kv with Some x => Ok x | None => Raise (KeyError k) end
  | VList _ => Raise (TypeError "list indices must be integers or slices, not str")
  | VStr _ => Raise (TypeError "string indices must be integers, not 'str'")
  | _ => Raise (TypeError ("'" +:+ type_name v +:+ "' object is not subscriptable"))
  end.

Definition is_str (v : pyval) (s : string) : bool :=
  match v with VStr s' => String.eqb s' s | _ => false end.

(** [k in v] for a string [k] *)
Definition py_contains (v : pyval) (k : string) : res bool :=
  match v with
  | VDict kv => Ok (match assoc k kv with Some _ => true | None => false end)
  | VList l => Ok (existsb (fun x => is_str x k) l)
  | VStr s => Ok (str_in k s)
  | _ => Raise (TypeError ("argument of type '" +:+ type_name v +:+ "' is not iterable"))
  end.

(** [len(v)] *)
Definition py_len (v : pyval) : res Z :=
  match v with
  | VStr s => Ok (Z.of_nat (String.length s))
  | VList l => Ok (Z.of_nat (length l))
  | VDict kv => Ok (Z.of_nat (length kv))
  | _ => Raise (TypeError ("object of type '" +:+ type_name v +:+ "' has no len()"))
  end.

(** [v[:n]] evaluated for printing: defined on sequences only. *)
Definition py_slice_check (v : pyval) : res unit :=
  match v with
  | VStr _ | VList _ => Ok tt
  | VDict _ => Raise (Exn OtherException "unhashable type: 'slice'")
  | _ => Raise (TypeError ("'" +:+ type_name v +:+ "' object is not subscriptable"))
  end.

(** [v.size] and [v.mode] evaluated for printing: only images have them. *)
Definition py_size_mode_check (v : pyval) : res unit :=
  match v with
  | VImage _ => Ok tt
  | _ => Raise (AttributeError v "size")
  end.

(** ** HTTP messages *)

(** The arguments of a [requests.post] / [requests.get] call. *)
Record http_request := mkRequest {
  req_url : pyval;
  req_headers : gmap string string;
  req_json : option (gmap string pyval);                 (* json=  *)
  req_files : gmap string (string * bytes * string);     (* files= *)
  req_data : gmap string pyval;                          (* data=  *)
  req_timeout : option Z                                 (* timeout= *)
}.

(** A [requests.Response]; [json_body] is what [response.json()] does. *)
Record response := mkResponse {
  status_code : Z;
  text : string;
  content : bytes;
  content_type : option string;     (* response.headers.get('content-type') *)
  json_body : res pyval
}.

(** Keyword arguments of [InferenceClient.image_to_image]. *)
Record hf_call := mkHfCall {
  hf_image : bytes;
  hf_prompt : string;
  hf_negative_prompt : option (option string);   (* absent / None / text *)
  hf_model : string;
  hf_strength : float;
  hf_guidance_scale : float
}.

(** Keyword arguments of the diffusion pipeline call. *)
Record pipeline_call := mkPipelineCall {
  pc_prompt : string;
  pc_image : Image;
  pc_strength : float;
  pc_negative_prompt : option string;
  pc_num_inference_steps : Z;
  pc_guidance_scale : float;
  pc_num_images_per_prompt : Z
}.

(** A loaded diffusion pipeline (an opaque handle). *)
Record Pipeline := mkPipeline { pipeline_id : nat }.

(** What the streamlit layer is asked to show. *)
Inductive ui_event :=
  | UiProgressNew (pct : Z) (txt : string)      (* st.progress(...) *)
  | UiProgress (pct : Z) (txt : string)         (* progress_bar.progress(...) *)
  | UiProgressEmpty                             (* progress_bar.empty() *)
  | UiError (msg : string)                      (* st.error(...) *)
  | UiSuccess (msg : string)                    (* st.success(...) *)
  | UiMarkdown (txt : string)                   (* st.markdown(...) *)
  | UiShowSettings (prompt strength platform_name duration timestamp negative_prompt : pyval)
  | UiBeforeAfter (original : option Image) (transformed : pyval)
  | UiSliderComparison (original : option Image) (transformed : pyval)
  | UiImage (image : pyval) (caption : option string)     (* st.image(...) *)
  | UiDownload (image : pyval) (filename : string)        (* create_download_button *)
  | UiSideBySide (original : option Image) (transformed : pyval).
                        (* create_side_by_side, shown and offered as comparison.png *)

(** ** External calls, in the order made *)

Inductive event :=
  | EvHttpPost (r : http_request)
  | EvHttpGet (r : http_request)
  | EvSleep (secs : Z)
  | EvReplicateRun (model : string) (input : gmap string pyval)
  | EvInferenceClient (token : string)
  | EvImageToImage (a : hf_call)
  | EvCudaIsAvailable
  | EvFromPretrained (model_id : string) (device : string)
  | EvPipelineTo (p : Pipeline) (device : string)
  | EvEnableAttentionSlicing (p : Pipeline)
  | EvEnableVaeSlicing (p : Pipeline)
  | EvPipelineCall (p : Pipeline) (k : pipeline_call)
  | EvEmptyCache
  | EvRandint (lo hi : Z)
  | EvTime
  | EvNow
  | EvButton
  | EvUi (u : ui_event)
  | EvTransformImage (platform_name : string) (image_bytes : bytes) (prompt : string)
                     (strength : float) (negative_prompt : string)
  | EvTransformReturned (r : res (bool * pyval)).

(** Pure library functions. *)
Record Lib := mkLib {
  b64encode : bytes -> string;              (* base64.b64encode(b).decode('utf-8') *)
  b64decode : pyval -> res bytes;           (* base64.b64decode(v) *)
  Image_open : bytes -> res Image;          (* Image.open(io.BytesIO(b)) *)
  Image_convert : Image -> string -> res Image;
  Image_resize : Image -> Z * Z -> res Image;
  Image_save_png : Image -> res bytes;      (* image.save(stream, format="PNG") *)
  py_repr : pyval -> string                 (* str(v) for a v that is not a str *)
}.

(** Oracles for the outside world, whose state is [World]. *)
Record Ext (World : Type) := mkExt {
  requests_post : http_request -> World -> res response * World;
  requests_get : http_request -> World -> res response * World;
  time_sleep : Z -> World -> World;
  replicate_run : string -> gmap string pyval -> World -> res pyval * World;
  InferenceClient : string -> World -> res unit * World;
  image_to_image : hf_call -> World -> res pyval * World;
  cuda_is_available : World -> bool * World;
  from_pretrained : string -> string -> World -> res Pipeline * World;
  pipeline_to : Pipeline -> string -> World -> res Pipeline * World;
  enable_attention_slicing : Pipeline -> World -> res unit * World;
  enable_vae_slicing : Pipeline -> World -> res unit * World;
  run_pipeline : Pipeline -> pipeline_call -> World -> res (list pyval) * World;
  empty_cache : World -> res unit * World;
  random_randint : Z -> Z -> World -> Z * World;
  time_time : World -> float * World;
  now_strftime : string -> World -> string * World;
  st_button : World -> bool * World;
  st_ui : ui_event -> World -> World
}.
Arguments requests_post {World}.
Arguments requests_get {World}.
Arguments time_sleep {World}.
Arguments replicate_run {World}.
Arguments InferenceClient {World}.
Arguments image_to_image {World}.
Arguments cuda_is_available {World}.
Arguments from_pretrained {World}.
Arguments pipeline_to {World}.
Arguments enable_attention_slicing {World}.
Arguments enable_vae_slicing {World}.
Arguments run_pipeline {World}.
Arguments empty_cache {World}.
Arguments random_randint {World}.
Arguments time_time {World}.
Arguments now_strftime {World}.
Arguments st_button {World}.
Arguments st_ui {World}.

(** Credentials read from the environment when the modules are imported. *)
Record Config := mkConfig {
  DEEPAI_API_KEY : option string;
  LEONARDO_API_KEY : option string;
  REPLICATE_API_TOKEN : option string;
  STABILITY_API_KEY : option string;
  HF_API_TOKEN : option string
}.

(** [if not KEY]: the variable is unset or empty. *)
Definition key_of (k : option string) : option string :=
  match k with
  | Some s => if String.eqb s "" then None else Some s
  | None => None
  end.

(** A style dictionary as the handlers' [transform_with_style] read it: any
    of the three keys may be missing. *)
Record style_config := mkStyleConfig {
  sc_prompt : option string;
  sc_strength : option float;
  sc_negative_prompt : option string
}.

(** [style_config[k]] for a key that may be missing. *)
Definition required {A} (k : string) (v : option A) : res A :=
  match v with
  | Some x => Ok x
  | None => Raise (KeyError k)
  end.

(** ** The monad: state, exceptions and the trace of external calls *)

Definition M (S A : Type) : Type := S -> res A * S * list event.

Definition ret {S A} (a : A) : M S A := fun s => (Ok a, s, []).

Definition bind {S A B} (m : M S A) (f : A -> M S B) : M S B :=
  fun s =>
    match m s with
    | (Ok a, s1, t1) => let '(r, s2, t2) := f a s1 in (r, s2, t1 ++ t2)
    | (Raise e, s1, t1) => (Raise e, s1, t1)
    end.

Definition raise {S A} (e : exn) : M S A := fun s => (Raise e, s, []).

(** Lift a pure, possibly raising computation. *)
Definition lift_res {S A} (r : res A) : M S A := fun s => (r, s, []).

(** [try: m  except ...: h e] where [h] re-raises what no clause matches. *)
Definition try_catch {S A} (m : M S A) (h : exn -> M S A) : M S A :=
  fun s =>
    match m s with
    | (Ok a, s1, t1) => (Ok a, s1, t1)
    | (Raise e, s1, t1) => let '(r, s2, t2) := h e s1 in (r, s2, t1 ++ t2)
    end.

Declare Scope monad_scope.
Delimit Scope monad_scope with monad.
Notation "x <- c1 ;; c2" := (bind c1 (fun x => c2))
  (at level 100, c1 at next level, right associativity) : monad_scope.
Notation "c1 ;;; c2" := (bind c1 (fun _ => c2))
  (at level 100, right associativity) : monad_scope.
Open Scope monad_scope.

(** A [for] loop whose body may [return]: [Some r] leaves the function with
    [r], [None] goes on to the next element ([continue] included). *)
Fixpoint for_each {S X R} (l : list X) (body : X -> M S (option R)) : M S (option R) :=
  match l with
  | [] => ret None
  | x :: rest =>
      o <- body x ;;
      match o with
      | Some r => ret (Some r)
      | None => for_each rest body
      end
  end.

(** Outcomes of a run. *)
Definition result_of {S A} (x : res A * S * list event) : res A := x.1.1.
Definition state_of {S A} (x : res A * S * list event) : S := x.1.2.
Definition trace_of {S A} (x : res A * S * list event) : list event := x.2.

(** ** State of the handler modules *)

(** The outside world and the module globals of [local_inference_handler]. *)
Record Env (World : Type) := mkEnv {
  world : World;
  _pipeline : option Pipeline;
  _device : option string
}.
Arguments mkEnv {World}.
Arguments world {World}.
Arguments _pipeline {World}.
Arguments _device {World}.

Section Calls.
Context {World : Type}.

(** An external call that may raise. *)
Definition call {A} (ev : event) (o : World -> res A * World) : M (Env World) A :=
  fun s =>
    let '(r, w) := o (world s) in
    (r, mkEnv w (_pipeline s) (_device s), [ev]).

(** An external call that always returns. *)
Definition call_total {A} (ev : event) (o : World -> A * World) : M (Env World) A :=
  fun s =>
    let '(a, w) := o (world s) in
    (Ok a, mkEnv w (_pipeline s) (_device s), [ev]).

Definition post (ext : Ext World) (r : http_request) : M (Env World) response :=
  call (EvHttpPost r) (requests_post ext r).

Definition get (ext : Ext World) (r : http_request) : M (Env World) response :=
  call (EvHttpGet r) (requests_get ext r).

Definition sleep (ext : Ext World) (secs : Z) : M (Env World) unit :=
  call_total (EvSleep secs) (fun w => (tt, time_sleep ext secs w)).
End Calls.

(** [requests.get(url)] with no other argument. *)
Definition plain_get (url : pyval) : http_request :=
  mkRequest url ∅ None ∅ ∅ None.

(** [int / int] *)
Definition float_of_Z (z : Z) : float := PrimFloat.of_uint63 (Uint63.of_Z z).

Definition true_div (a b : Z) : res float :=
  if b =? 0 then Raise ZeroDivisionError else Ok (float_of_Z a / float_of_Z b)%float.

(** ** utils/deepai_api_handler.py *)

Module deepai_api_handler.
Section Handler.
Context {World : Type} (lib : Lib) (ext : Ext World) (cfg : Config).

Definition API_BASE_URL : string := "https://api.deepai.org/api".

(** Lines 60-74: the default prompt and the strength bands. *)
Definition final_prompt (prompt : string) (strength : float) : string :=
  let prompt :=
    if String.eqb prompt "" then "enhance, improve quality, detailed" else prompt in
  if (strength <? 0.5)%float then
    "slightly modify: " +:+ prompt +:+ ", keep original style"
  else if (strength <? 0.7)%float then
    "transform into: " +:+ prompt
  else
    "completely transform into: " +:+ prompt +:+ ", creative interpretation".

(** The request of lines 79-103. *)
Definition editor_request (key : string) (image_bytes : bytes)
    (final_prompt : string) : http_request :=
  let endpoint := API_BASE_URL +:+ "/image-editor" in
  let headers : gmap string string := {[ "api-key" := key ]} in
  let files : gmap string (string * bytes * string) :=
    {[ "image" := ("image.png", image_bytes, "image/png") ]} in
  let data : gmap string pyval := {[ "text" := VStr final_prompt ]} in
  mkRequest (VStr endpoint) headers None files data (Some 60).

Definition transform_image (image_bytes : bytes) (prompt : string)
    (strength : float) (negative_prompt : string) : M (Env World) (bool * pyval) :=
  match key_of (DEEPAI_API_KEY cfg) with
  | None => ret (false, VStr "DeepAI API key not found. Add DEEPAI_API_KEY to .env file.")
  | Some key =>
    try_catch
      (let final_prompt := final_prompt prompt strength in
       response <- post ext (editor_request key image_bytes final_prompt) ;;
       if negb (status_code response =? 200) then
         let error_msg := str_take 200 (text response) in
         if status_code response =? 401 then
           ret (false, VStr "DeepAI API key is invalid. Check your key.")
         else if status_code response =? 402 then
           ret (false, VStr "No credit in your DeepAI account. Check your subscription.")
         else if status_code response =? 429 then
           ret (false, VStr "Rate limit exceeded. Wait a few seconds and try again.")
         else if status_code response =? 500 then
           ret (false, VStr "DeepAI server error. Please try again in a few minutes.")
         else
           ret (false, VStr ("DeepAI API error (" +:+ pretty (status_code response)
                             +:+ "): " +:+ error_msg))
       else
         response_data <- lift_res (json_body response) ;;
         output_url <- lift_res (py_get response_data "output_url" VNone) ;;
         if negb (truthy output_url) then
           ret (false, VStr "Could not get image URL from DeepAI.")
         else
           lift_res (py_slice_check output_url) ;;;
           image_response <- get ext (mkRequest output_url ∅ None ∅ ∅ (Some 30)) ;;
           if negb (status_code image_response =? 200) then
             ret (false, VStr "Could not download image.")
           else
             result_image <- lift_res (Image_open lib (content image_response)) ;;
             ret (true, VImage result_image))
      (fun e =>
         if isinstance_exn e ExceptTimeout then
           ret (false, VStr "DeepAI timeout: Processing did not complete within 60 seconds.")
         else if isinstance_exn e ExceptRequestException then
           ret (false, VStr ("DeepAI connection error: " +:+ str_take 150 (exn_str e)))
         else
           ret (false, VStr ("DeepAI API error: " +:+ str_take 150 (exn_str e))))
  end.

(** [transform_with_style]: the style's prompt is required, its strength
    defaults to 0.6 and its negative prompt to the empty string. *)
Definition transform_with_style (image_bytes : bytes) (style_config : style_config)
    : M (Env World) (bool * pyval) :=
  prompt <- lift_res (required "prompt" (sc_prompt style_config)) ;;
  let strength := default 0.6%float (sc_strength style_config) in
  let negative_prompt := default "" (sc_negative_prompt style_config) in
  transform_image image_bytes prompt strength negative_prompt.
End Handler.
End deepai_api_handler.

(** ** utils/replicate_api_handler.py *)

Module replicate_api_handler.
Section Handler.
Context {World : Type} (lib : Lib) (ext : Ext World) (cfg : Config).

Definition MODEL : string :=
  "timbrooks/instruct-pix2pix:30c1d0b916a6f8efce20493f5d61ee27491ab2a60437c13c588468b9810ec23f".

(** Lines 57-74: the model input.  [strength] is in scope here, as in the
    source, where no entry of the dictionary reads it. *)
Definition input_params (image_bytes : bytes) (prompt : string) (strength : float)
    : gmap string pyval :=
  let image_base64 := b64encode lib image_bytes in
  let image_data_uri := "data:image/png;base64," +:+ image_base64 in
  {[ "image" := VStr image_data_uri;
     "prompt" := VStr (if String.eqb prompt "" then "improve the image quality" else prompt);
     "num_inference_steps" := VInt 20;
     "image_guidance_scale" := VFloat 1.5;
     "guidance_scale" := VFloat 7.5 ]}.

(** [requests.get(url)] followed by [Image.open(io.BytesIO(response.content))]. *)
Definition download (url : string) : M (Env World) pyval :=
  response <- get ext (plain_get (VStr url)) ;;
  result_image <- lift_res (Image_open lib (content response)) ;;
  ret (VImage result_image).

(** Lines 96-121: from the output of [replicate.run] to the result tuple. *)
Definition process_output (output : pyval) : M (Env World) (bool * pyval) :=
  selected <-
    match output with
    | VStr url => r <- download url ;; ret (Some r)
    | VImage _ => ret (Some output)
    | VList (first :: _) =>
        match first with
        | VStr url => r <- download url ;; ret (Some r)
        | _ => ret (Some first)
        end
    | _ => ret None
    end ;;
  match selected with
  | None => ret (false, VStr ("Unexpected output format: " +:+ str_type output))
  | Some result_image =>
      lift_res (py_size_mode_check result_image) ;;;
      ret (true, result_image)
  end.

Definition transform_image (image_bytes : bytes) (prompt : string)
    (strength : float) (negative_prompt : string) : M (Env World) (bool * pyval) :=
  match key_of (REPLICATE_API_TOKEN cfg) with
  | None =>
      ret (false, VStr "Replicate API token not found. Add REPLICATE_API_TOKEN to .env file.")
  | Some _ =>
    try_catch
      (let input_params := input_params image_bytes prompt strength in
       output <- call (EvReplicateRun MODEL input_params)
                      (replicate_run ext MODEL input_params) ;;
       process_output output)
      (fun e =>
         let error_msg := exn_str e in
         if str_in "401" error_msg || str_in "authentication" (lower error_msg) then
           ret (false, VStr "Replicate API token is invalid. Check your token.")
         else if str_in "402" error_msg || str_in "payment" (lower error_msg)
                 || str_in "credit" (lower error_msg) then
           ret (false, VStr "No credit in your Replicate account. Check your billing settings.")
         else if str_in "429" error_msg || str_in "rate limit" (lower error_msg) then
           ret (false, VStr "Too many requests. Wait a few minutes and try again.")
         else if str_in "500" error_msg || str_in "503" error_msg then
           ret (false, VStr "Replicate servers are busy. Please try again in a few minutes.")
         else
           ret (false, VStr ("Replicate API error: " +:+ str_take 150 error_msg)))
  end.

(** [transform_with_style]: the style's prompt is required, its strength
    defaults to 0.6 and its negative prompt to the empty string. *)
Definition transform_with_style (image_bytes : bytes) (style_config : style_config)
    : M (Env World) (bool * pyval) :=
  prompt <- lift_res (required "prompt" (sc_prompt style_config)) ;;
  let strength := default 0.6%float (sc_strength style_config) in
  let negative_prompt := default "" (sc_negative_prompt style_config) in
  transform_image image_bytes prompt strength negative_prompt.
End Handler.
End replicate_api_handler.

(** ** utils/stability_ai_handler.py *)

Module stability_ai_handler.
Section Handler.
Context {World : Type} (lib : Lib) (ext : Ext World) (cfg : Config).

Definition API_HOST : string := "https://api.stability.ai".

Definition SDXL_ALLOWED_DIMENSIONS : list (Z * Z) :=
  [ (1024, 1024); (1152, 896); (1216, 832); (1344, 768); (1536, 640);
    (640, 1536); (768, 1344); (832, 1216); (896, 1152) ].

(** The search loop of [resize_for_sdxl]: the closest aspect ratio so far. *)
Fixpoint closest_dimension (original_aspect : float) (dims : list (Z * Z))
    (best_match : option (Z * Z)) (best_aspect_diff : float)
    : res (option (Z * Z)) :=
  match dims with
  | [] => Ok best_match
  | (w, h) :: rest =>
      match true_div w h with
      | Raise e => Raise e
      | Ok target_aspect =>
          let aspect_diff := PrimFloat.abs (target_aspect - original_aspect)%float in
          if (aspect_diff <? best_aspect_diff)%float then
            closest_dimension original_aspect rest (Some (w, h)) aspect_diff
          else
            closest_dimension original_aspect rest best_match best_aspect_diff
      end
  end.

Definition resize_for_sdxl (image : Image) : res Image :=
  match true_div (width image) (height image) with
  | Raise e => Raise e
  | Ok original_aspect =>
      match closest_dimension original_aspect SDXL_ALLOWED_DIMENSIONS None infinity with
      | Raise e => Raise e
      | Ok None => Raise (TypeError "'NoneType' object is not subscriptable")
      | Ok (Some best_match) => Image_resize lib image best_match
      end
  end.

(** Lines 125-144: the weighted text entries. *)
Definition text_prompts (prompt negative_prompt : string) : list (string * float) :=
  [ (if String.eqb prompt "" then "high quality, detailed, improved" else prompt, 1.0%float) ]
  ++ (if String.eqb negative_prompt "" then [] else [ (negative_prompt, (-1.0)%float) ]).

(** Lines 157-174: the form fields of the request. *)
Definition form_data (text_prompts : list (string * float)) (strength : float)
    : gmap string pyval :=
  let image_strength := (1.0 - strength)%float in
  let first := nth 0 text_prompts ("", 0%float) in
  let data : gmap string pyval :=
    {[ "text_prompts[0][text]" := VStr first.1;
       "text_prompts[0][weight]" := VFloat first.2;
       "image_strength" := VFloat image_strength;
       "cfg_scale" := VFloat 12.0;
       "samples" := VInt 1;
       "steps" := VInt 50 ]} in
  if (1 <? length text_prompts)%nat then
    let second := nth 1 text_prompts ("", 0%float) in
    <[ "text_prompts[1][weight]" := VFloat second.2 ]>
      (<[ "text_prompts[1][text]" := VStr second.1 ]> data)
  else data.

Definition ENGINE_ID : string := "stable-diffusion-xl-1024-v1-0".

(** The request of lines 115-190. *)
Definition generation_request (key : string) (image_bytes : bytes)
    (prompt : string) (strength : float) (negative_prompt : string) : http_request :=
  let url := API_HOST +:+ "/v1/generation/" +:+ ENGINE_ID +:+ "/image-to-image" in
  let headers : gmap string string :=
    {[ "Accept" := "application/json"; "Authorization" := "Bearer " +:+ key ]} in
  let files : gmap string (string * bytes * string) :=
    {[ "init_image" := ("image.png", image_bytes, "image/png") ]} in
  let data := form_data (text_prompts prompt negative_prompt) strength in
  mkRequest (VStr url) headers None files data None.

Definition py_str (v : pyval) : string :=
  match v with VStr s => s | _ => py_repr lib v end.

Definition transform_image (image_bytes : bytes) (prompt : string)
    (strength : float) (negative_prompt : string) : M (Env World) (bool * pyval) :=
  match key_of (STABILITY_API_KEY cfg) with
  | None =>
      ret (false, VStr "Stability AI API key not found. Add STABILITY_API_KEY to .env file.")
  | Some key =>
    try_catch
      (image <- lift_res (Image_open lib image_bytes) ;;
       image <- lift_res (resize_for_sdxl image) ;;
       image_bytes <- lift_res (Image_save_png lib image) ;;
       response <- post ext (generation_request key image_bytes prompt strength negative_prompt) ;;
       if negb (status_code response =? 200) then
         error_data <-
           (if bool_decide (content_type response = Some "application/json")
            then lift_res (json_body response) else ret (VDict [])) ;;
         error_message <- lift_res (py_get error_data "message" (VStr (str_take 200 (text response)))) ;;
         if status_code response =? 401 then
           ret (false, VStr "Stability AI API key is invalid. Check your key.")
         else if status_code response =? 402 then
           ret (false, VStr "No credit in your Stability AI account. Check your billing settings.")
         else if status_code response =? 403 then
           ret (false, VStr "You don't have permission for this operation. Check your subscription plan.")
         else if status_code response =? 404 then
           ret (false, VStr ("Engine not found: " +:+ ENGINE_ID))
         else if status_code response =? 429 then
           ret (false, VStr "Rate limit exceeded. Wait a few seconds and try again.")
         else
           ret (false, VStr ("Stability AI API error: " +:+ py_str error_message))
       else
         response_data <- lift_res (json_body response) ;;
         has_artifacts <- lift_res (py_contains response_data "artifacts") ;;
         empty <-
           (if negb has_artifacts then ret true
            else artifacts <- lift_res (py_getitem response_data "artifacts") ;;
                 n <- lift_res (py_len artifacts) ;;
                 ret (n =? 0)) ;;
         if (empty : bool) then ret (false, VStr "No image returned from API.")
         else
           artifacts <- lift_res (py_getitem response_data "artifacts") ;;
           artifact <- lift_res (py_index0 artifacts) ;;
           finish_reason <- lift_res (py_get artifact "finishReason" VNone) ;;
           if is_str finish_reason "CONTENT_FILTERED" then
             ret (false, VStr "Caught by content filter. Please change your prompt.")
           else
             image_base64 <- lift_res (py_get artifact "base64" VNone) ;;
             if negb (truthy image_base64) then
               ret (false, VStr "Could not get base64 image from API.")
             else
               lift_res (py_len image_base64) ;;;
               image_data <- lift_res (b64decode lib image_base64) ;;
               result_image <- lift_res (Image_open lib image_data) ;;
               ret (true, VImage result_image))
      (fun e =>
         if isinstance_exn e ExceptRequestException then
           ret (false, VStr ("Stability AI connection error: " +:+ str_take 150 (exn_str e)))
         else
           ret (false, VStr ("Stability AI API error: " +:+ str_take 150 (exn_str e))))
  end.

(** [transform_with_style]: the style's prompt is required, its strength
    defaults to 0.6 and its negative prompt to the empty string. *)
Definition transform_with_style (image_bytes : bytes) (style_config : style_config)
    : M (Env World) (bool * pyval) :=
  prompt <- lift_res (required "prompt" (sc_prompt style_config)) ;;
  let strength := default 0.6%float (sc_strength style_config) in
  let negative_prompt := default "" (sc_negative_prompt style_config) in
  transform_image image_bytes prompt strength negative_prompt.
End Handler.
End stability_ai_handler.

(** ** utils/leonardo_api_handler.py *)

Module leonardo_api_handler.
Section Handler.
Context {World : Type} (lib : Lib) (ext : Ext World) (cfg : Config).

Definition API_BASE_URL : string := "https://cloud.leonardo.ai/api/rest/v1".

Definition py_str (v : pyval) : string :=
  match v with VStr s => s | _ => py_repr lib v end.

Definition json_headers (key : string) : gmap string string :=
  {[ "accept" := "application/json";
     "authorization" := "Bearer " +:+ key;
     "content-type" := "application/json" ]}.

Definition upload_request (key : string) (image_bytes : bytes) : http_request :=
  let image_base64 := b64encode lib image_bytes in
  let upload_payload : gmap string pyval :=
    {[ "extension" := VStr "png";
       "name" := VStr "init_image.png";
       "imageDataUrl" := VStr ("data:image/png;base64," +:+ image_base64) ]} in
  mkRequest (VStr (API_BASE_URL +:+ "/init-image")) (json_headers key)
            (Some upload_payload) ∅ ∅ None.

Definition generation_request (key : string) (prompt : string) (strength : float)
    (negative_prompt : string) (init_image_id : pyval) : http_request :=
  let prompt :=
    if String.eqb prompt "" then "high quality, detailed, professional, improved" else prompt in
  let generation_payload : gmap string pyval :=
    {[ "modelId" := VStr "6b645e3a-d64f-4341-a6d8-7a3690fbf042";
       "prompt" := VStr prompt;
       "negative_prompt" :=
         VStr (if String.eqb negative_prompt "" then "low quality, blurry, distorted"
               else negative_prompt);
       "init_strength" := VFloat strength;
       "init_image_id" := init_image_id;
       "width" := VInt 1024;
       "height" := VInt 1024;
       "num_images" := VInt 1;
       "guidance_scale" := VFloat 7.0;
       "num_inference_steps" := VInt 30 ]} in
  mkRequest (VStr (API_BASE_URL +:+ "/generations")) (json_headers key)
            (Some generation_payload) ∅ ∅ None.

Definition status_request (key : string) (generation_id : pyval) : http_request :=
  let status_url := API_BASE_URL +:+ "/generations/" +:+ py_str generation_id in
  let status_headers : gmap string string :=
    {[ "accept" := "application/json"; "authorization" := "Bearer " +:+ key ]} in
  mkRequest (VStr status_url) status_headers None ∅ ∅ None.

Definition max_attempts : nat := 60.

Definition FAILED_result : bool * pyval := (false, VStr "Generation failed.").
Definition TIMEOUT_result : bool * pyval :=
  (false, VStr "Timeout: Generation did not complete within 60 seconds.").

(** Lines 170-194: what is done once the status reads COMPLETE. *)
Definition fetch_completed (generation_info : pyval) : M (Env World) (bool * pyval) :=
  generated_images <- lift_res (py_get generation_info "generated_images" (VList [])) ;;
  if negb (truthy generated_images) then
    ret (false, VStr "Image could not be generated.")
  else
    first <- lift_res (py_index0 generated_images) ;;
    image_url <- lift_res (py_get first "url" VNone) ;;
    if negb (truthy image_url) then
      ret (false, VStr "Could not get image URL.")
    else
      lift_res (py_slice_check image_url) ;;;
      image_response <- get ext (plain_get image_url) ;;
      if negb (status_code image_response =? 200) then
        ret (false, VStr "Could not download image.")
      else
        result_image <- lift_res (Image_open lib (content image_response)) ;;
        ret (true, VImage result_image).

(** Lines 146-199: [while attempt < max_attempts], where every iteration
    starts with [time.sleep(2); attempt += 1].  [remaining] is
    [max_attempts - attempt], so the loop is left through the final
    [return] exactly when [remaining] is 0. *)
Fixpoint poll (key : string) (generation_id : pyval) (remaining : nat)
    : M (Env World) (bool * pyval) :=
  match remaining with
  | O => ret TIMEOUT_result
  | S remaining' =>
      sleep ext 2 ;;;
      status_response <- get ext (status_request key generation_id) ;;
      if negb (status_code status_response =? 200) then
        poll key generation_id remaining'
      else
        status_data <- lift_res (json_body status_response) ;;
        generation_info <- lift_res (py_get status_data "generations_by_pk" (VDict [])) ;;
        status <- lift_res (py_get generation_info "status" VNone) ;;
        if is_str status "COMPLETE" then fetch_completed generation_info
        else if is_str status "FAILED" then ret FAILED_result
        else poll key generation_id remaining'
  end.

Definition transform_image (image_bytes : bytes) (prompt : string)
    (strength : float) (negative_prompt : string) : M (Env World) (bool * pyval) :=
  match key_of (LEONARDO_API_KEY cfg) with
  | None =>
      ret (false, VStr "Leonardo.ai API key not found. Add LEONARDO_API_KEY to .env file.")
  | Some key =>
    try_catch
      (upload_response <- post ext (upload_request key image_bytes) ;;
       if negb (status_code upload_response =? 200) then
         body <- lift_res (json_body upload_response) ;;
         error_msg <- lift_res (py_get body "error" (VStr (text upload_response))) ;;
         ret (false, VStr ("Image upload error: " +:+ py_str error_msg))
       else
         upload_data <- lift_res (json_body upload_response) ;;
         upload_init_image <- lift_res (py_get upload_data "uploadInitImage" (VDict [])) ;;
         init_image_id <- lift_res (py_get upload_init_image "id" VNone) ;;
         if negb (truthy init_image_id) then
           ret (false, VStr "Could not get init image ID.")
         else
           generation_response <-
             post ext (generation_request key prompt strength negative_prompt init_image_id) ;;
           if negb (status_code generation_response =? 200) then
             body <- lift_res (json_body generation_response) ;;
             error_msg <- lift_res (py_get body "error" (VStr (text generation_response))) ;;
             ret (false, VStr ("Generation start error: " +:+ py_str error_msg))
           else
             generation_data <- lift_res (json_body generation_response) ;;
             job <- lift_res (py_get generation_data "sdGenerationJob" (VDict [])) ;;
             generation_id <- lift_res (py_get job "generationId" VNone) ;;
             if negb (truthy generation_id) then
               ret (false, VStr "Could not get generation ID.")
             else
               poll key generation_id max_attempts)
      (fun e =>
         if isinstance_exn e ExceptRequestException then
           ret (false, VStr ("Leonardo.ai connection error: " +:+ str_take 150 (exn_str e)))
         else
           ret (false, VStr ("Leonardo.ai API error: " +:+ str_take 150 (exn_str e))))
  end.

(** [transform_with_style]: the style's prompt is required, its strength
    defaults to 0.6 and its negative prompt to the empty string. *)
Definition transform_with_style (image_bytes : bytes) (style_config : style_config)
    : M (Env World) (bool * pyval) :=
  prompt <- lift_res (required "prompt" (sc_prompt style_config)) ;;
  let strength := default 0.6%float (sc_strength style_config) in
  let negative_prompt := default "" (sc_negative_prompt style_config) in
  transform_image image_bytes prompt strength negative_prompt.
End Handler.
End leonardo_api_handler.

(** ** utils/hf_api_handler.py *)

Module hf_api_handler.
Section Handler.
Context {World : Type} (lib : Lib) (ext : Ext World) (cfg : Config).

Record model_info := mkModel { name : string; description : string; type : string }.

Definition models_to_try : list model_info :=
  [ mkModel "timbrooks/instruct-pix2pix"
            "InstructPix2Pix - Natural language image editing" "instruct";
    mkModel "lllyasviel/sd-controlnet-canny"
            "ControlNet Canny - Edge-based transformation" "controlnet";
    mkModel "stabilityai/stable-diffusion-xl-refiner-1.0"
            "SDXL Refiner - Image enhancement" "refiner" ].

Definition direct_models : list string :=
  [ "timbrooks/instruct-pix2pix"; "stabilityai/stable-diffusion-xl-refiner-1.0" ].

(** Lines 69-75. *)
Definition default_prompt (prompt : string) : string :=
  if String.eqb prompt "" then "improve image quality, add details, enhance colors" else prompt.

Definition instruct_prompt (prompt : string) : string :=
  if existsb (fun word => str_in word (lower prompt))
             [ "turn"; "make"; "change"; "convert"; "transform" ]
  then prompt
  else "transform this image: " +:+ prompt.

(** Lines 95-148: one managed attempt; exceptions only skip the model. *)
Definition try_model (image_bytes : bytes) (prompt instruct_prompt : string)
    (strength : float) (negative_prompt : string) (m : model_info)
    : M (Env World) (option (bool * pyval)) :=
  try_catch
    (let args :=
       if String.eqb (type m) "instruct" then
         mkHfCall image_bytes instruct_prompt None (name m) strength 7.5
       else
         mkHfCall image_bytes prompt
                  (Some (if String.eqb negative_prompt "" then None else Some negative_prompt))
                  (name m) strength 7.5 in
     result <- call (EvImageToImage args) (image_to_image ext args) ;;
     match result with
     | VImage _ => ret (Some (true, result))
     | VFile b =>
         result <- lift_res (Image_open lib b) ;;
         ret (Some (true, VImage result))
     | _ => ret None
     end)
    (fun _ => ret None).

(** Lines 84-151: the managed client over the candidate models. *)
Definition method1 (token : string) (image_bytes : bytes) (prompt instruct_prompt : string)
    (strength : float) (negative_prompt : string) : M (Env World) (option (bool * pyval)) :=
  try_catch
    (call (EvInferenceClient token) (InferenceClient ext token) ;;;
     for_each models_to_try
       (try_model image_bytes prompt instruct_prompt strength negative_prompt))
    (fun _ => ret None).

Definition direct_request (token : string) (model_name : string)
    (payload : gmap string pyval) : http_request :=
  let api_url := "https://router.huggingface.co/hf-inference/models/" +:+ model_name in
  let headers : gmap string string :=
    {[ "Authorization" := "Bearer " +:+ token; "Content-Type" := "application/json" ]} in
  mkRequest (VStr api_url) headers (Some payload) ∅ ∅ (Some 120).

(** Lines 176-259: one direct attempt, with the second payload shape on 422.
    The bodies of the 503 and default branches only print. *)
Definition try_direct (token : string) (image_b64 instruct_prompt : string)
    (strength : float) (model_name : string) : M (Env World) (option (bool * pyval)) :=
  try_catch
    (let payload : gmap string pyval :=
       {[ "inputs" := VDict [ ("image", VStr image_b64); ("prompt", VStr instruct_prompt) ];
          "parameters" := VDict [ ("strength", VFloat strength);
                                  ("guidance_scale", VFloat 7.5) ] ]} in
     response <- post ext (direct_request token model_name payload) ;;
     if status_code response =? 200 then
       result_image <- lift_res (Image_open lib (content response)) ;;
       ret (Some (true, VImage result_image))
     else if status_code response =? 503 then ret None
     else if status_code response =? 401 then ret None
     else if status_code response =? 404 then ret None
     else if status_code response =? 422 then
       let alt_payload : gmap string pyval :=
         {[ "inputs" := VStr image_b64;
            "parameters" := VDict [ ("prompt", VStr instruct_prompt);
                                    ("strength", VFloat strength);
                                    ("guidance_scale", VFloat 7.5) ] ]} in
       response2 <- post ext (direct_request token model_name alt_payload) ;;
       if status_code response2 =? 200 then
         result_image <- lift_res (Image_open lib (content response2)) ;;
         ret (Some (true, VImage result_image))
       else ret None
     else ret None)
    (fun _ => ret None).

Definition error_message : string :=
"
No suitable model found in Hugging Face free API.

Possible solutions:
1. Wait a few minutes and try again (models might be loading)
2. Try a different platform (DeepAI, Stability AI, Replicate)
3. Upgrade to Hugging Face Pro account

Note: Image-to-image support is limited in Hugging Face free tier.
".

Definition transform_image (image_bytes : bytes) (prompt : string)
    (strength : float) (negative_prompt : string) : M (Env World) (bool * pyval) :=
  match key_of (HF_API_TOKEN cfg) with
  | None => ret (false, VStr "API token not found. Check your .env file.")
  | Some token =>
      let prompt := default_prompt prompt in
      let instruct_prompt := instruct_prompt prompt in
      r1 <- method1 token image_bytes prompt instruct_prompt strength negative_prompt ;;
      match r1 with
      | Some r => ret r
      | None =>
          let image_b64 := b64encode lib image_bytes in
          r2 <- for_each direct_models (try_direct token image_b64 instruct_prompt strength) ;;
          match r2 with
          | Some r => ret r
          | None => ret (false, VStr (strip error_message))
          end
      end
  end.

(** [transform_with_style]: here the strength is read with
    [style_config["strength"]], after the prompt. *)
Definition transform_with_style (image_bytes : bytes) (style_config : style_config)
    : M (Env World) (bool * pyval) :=
  prompt <- lift_res (required "prompt" (sc_prompt style_config)) ;;
  strength <- lift_res (required "strength" (sc_strength style_config)) ;;
  let negative_prompt := default "" (sc_negative_prompt style_config) in
  transform_image image_bytes prompt strength negative_prompt.
End Handler.
End hf_api_handler.

(** ** utils/local_inference_handler.py *)

(** [int(f)] *)
Definition int_of_float (f : float) : res Z :=
  match Prim2SF f with
  | S754_nan => Raise (Exn OtherException "cannot convert float NaN to integer")
  | S754_infinity _ => Raise (Exn OtherException "cannot convert float infinity to integer")
  | S754_zero _ => Ok 0
  | S754_finite s m e =>
      let a := if 0 <=? e then Z.pos m * 2 ^ e else Z.pos m / 2 ^ (- e) in
      Ok (if s then - a else a)
  end.

Module local_inference_handler.
Section Handler.
Context {World : Type} (lib : Lib) (ext : Ext World).

Definition set_pipeline (p : option Pipeline) : M (Env World) unit :=
  fun s => (Ok tt, mkEnv (world s) p (_device s), []).

Definition set_device (d : option string) : M (Env World) unit :=
  fun s => (Ok tt, mkEnv (world s) (_pipeline s) d, []).

Definition globals : M (Env World) (Env World) := fun s => (Ok s, s, []).

Definition is_available : M (Env World) bool :=
  call_total EvCudaIsAvailable (cuda_is_available ext).

Definition get_device : M (Env World) string :=
  g <- globals ;;
  match _device g with
  | Some d => ret d
  | None =>
      available <- is_available ;;
      let d := if (available : bool) then "cuda" else "cpu" in
      set_device (Some d) ;;;
      ret d
  end.

Definition MODEL_ID : string := "stabilityai/stable-diffusion-xl-refiner-1.0".

Definition load_pipeline : M (Env World) Pipeline :=
  g <- globals ;;
  match _pipeline g with
  | Some p => ret p
  | None =>
      device <- get_device ;;
      try_catch
        (p <- call (EvFromPretrained MODEL_ID device) (from_pretrained ext MODEL_ID device) ;;
         set_pipeline (Some p) ;;;
         p <- call (EvPipelineTo p device) (pipeline_to ext p device) ;;
         set_pipeline (Some p) ;;;
         (if String.eqb device "cuda" then
            call (EvEnableAttentionSlicing p) (enable_attention_slicing ext p) ;;;
            call (EvEnableVaeSlicing p) (enable_vae_slicing ext p)
          else ret tt) ;;;
         ret p)
        (fun e => raise e)
  end.

(** Lines 141-148: large inputs are shrunk to 1024 on the longer side. *)
Definition shrink (init_image : Image) : res Image :=
  let max_size := 1024 in
  let longest := Z.max (width init_image) (height init_image) in
  if max_size <? longest then
    match true_div max_size longest with
    | Raise e => Raise e
    | Ok ratio =>
        match int_of_float (float_of_Z (width init_image) * ratio)%float,
              int_of_float (float_of_Z (height init_image) * ratio)%float with
        | Ok w, Ok h => Image_resize lib init_image (w, h)
        | Raise e, _ => Raise e
        | _, Raise e => Raise e
        end
    end
  else Ok init_image.

Definition inference_call (init_image : Image) (prompt : string) (strength : float)
    (negative_prompt : string) : pipeline_call :=
  mkPipelineCall
    (if String.eqb prompt "" then "high quality, detailed, improved, professional" else prompt)
    init_image strength
    (if String.eqb negative_prompt "" then None else Some negative_prompt)
    30 7.5 1.

Definition transform_image (image_bytes : bytes) (prompt : string)
    (strength : float) (negative_prompt : string) : M (Env World) (bool * pyval) :=
  try_catch
    (pipeline <- load_pipeline ;;
     init_image <- lift_res (Image_open lib image_bytes) ;;
     init_image <- lift_res (Image_convert lib init_image "RGB") ;;
     init_image <- lift_res (shrink init_image) ;;
     let k := inference_call init_image prompt strength negative_prompt in
     images <- call (EvPipelineCall pipeline k) (run_pipeline ext pipeline k) ;;
     output_image <- lift_res (py_index0 (VList images)) ;;
     lift_res (py_size_mode_check output_image) ;;;
     available <- is_available ;;
     (if (available : bool) then call EvEmptyCache (empty_cache ext) else ret tt) ;;;
     ret (true, output_image))
    (fun e =>
       let error_msg := exn_str e in
       if isinstance_exn e ExceptRuntimeError then
         if str_in "out of memory" (lower error_msg) then
           ret (false, VStr "Insufficient GPU memory. Try a smaller image or lower the strength value.")
         else
           ret (false, VStr ("GPU error: " +:+ str_take 150 error_msg))
       else
         ret (false, VStr ("Local inference error: " +:+ str_take 150 error_msg))).

(** [transform_with_style]: the style's prompt is required, its strength
    defaults to 0.6 and its negative prompt to the empty string. *)
Definition transform_with_style (image_bytes : bytes) (style_config : style_config)
    : M (Env World) (bool * pyval) :=
  prompt <- lift_res (required "prompt" (sc_prompt style_config)) ;;
  let strength := default 0.6%float (sc_strength style_config) in
  let negative_prompt := default "" (sc_negative_prompt style_config) in
  transform_image image_bytes prompt strength negative_prompt.

(** [unload_pipeline]: forget the pipeline, then clear the device cache. *)
Definition unload_pipeline : M (Env World) unit :=
  g <- globals ;;
  match _pipeline g with
  | Some _ =>
      set_pipeline None ;;;
      available <- is_available ;;
      if (available : bool) then call EvEmptyCache (empty_cache ext) else ret tt
  | None => ret tt
  end.
End Handler.
End local_inference_handler.

(** ** app.py *)

(** [st.session_state], as [init_session_state] declares it. *)
Record session := mkSession {
  transformed_images : list pyval;
  original_image : option Image;
  transformation_done : bool;
  platform_settings : gmap string pyval;
  last_metadata : gmap string pyval
}.

(** The state of the application: the handlers' state and the session. *)
Record App (World : Type) := mkApp {
  env : Env World;
  session_state : session
}.
Arguments mkApp {World}.
Arguments env {World}.
Arguments session_state {World}.

(** An entry of [ALL_STYLES]. *)
Record style := mkStyle {
  style_prompt : string;
  style_strength : float;
  style_negative_prompt : option string
}.

Module app.
Section App.
Context {World : Type} (lib : Lib) (ext : Ext World) (cfg : Config).

(** Code of the handler modules runs on the [env] component only. *)
Definition in_env {A} (m : M (Env World) A) : M (App World) A :=
  fun s =>
    let '(r, e, t) := m (env s) in
    (r, mkApp e (session_state s), t).

Definition ui (u : ui_event) : M (App World) unit :=
  in_env (call_total (EvUi u) (fun w => (tt, st_ui ext u w))).

Definition session_get : M (App World) session :=
  fun s => (Ok (session_state s), s, []).

Definition session_set (f : session -> session) : M (App World) unit :=
  fun s => (Ok tt, mkApp (env s) (f (session_state s)), []).

Definition set_transformed_images (v : list pyval) (ss : session) : session :=
  mkSession v (original_image ss) (transformation_done ss) (platform_settings ss)
            (last_metadata ss).
Definition set_transformation_done (v : bool) (ss : session) : session :=
  mkSession (transformed_images ss) (original_image ss) v (platform_settings ss)
            (last_metadata ss).
Definition set_last_metadata (v : gmap string pyval) (ss : session) : session :=
  mkSession (transformed_images ss) (original_image ss) (transformation_done ss)
            (platform_settings ss) v.

Definition Handler : Type :=
  bytes -> string -> float -> string -> M (Env World) (bool * pyval).

(** Lines 276-296: the handler module and the platform name. *)
Definition select_handler (platform : string) : option (Handler * string) :=
  if str_in "Hugging Face" platform then
    Some (hf_api_handler.transform_image lib ext cfg, "Hugging Face")
  else if str_in "Leonardo" platform then
    Some (leonardo_api_handler.transform_image lib ext cfg, "Leonardo.ai")
  else if str_in "DeepAI" platform then
    Some (deepai_api_handler.transform_image lib ext cfg, "DeepAI")
  else if str_in "Replicate" platform then
    Some (replicate_api_handler.transform_image lib ext cfg, "Replicate")
  else if str_in "Stability AI" platform then
    Some (stability_ai_handler.transform_image lib ext cfg, "Stability AI")
  else if str_in "Local" platform then
    Some (local_inference_handler.transform_image lib ext, "Local GPU")
  else None.

(** [handler.transform_image(...)]; the trace marks where the call starts
    and what it returned. *)
Definition invoke (handler : Handler) (platform_name : string) (image_bytes : bytes)
    (prompt : string) (strength : float) (negative_prompt : string)
    : M (App World) (bool * pyval) :=
  fun s =>
    let '(r, e, t) := handler image_bytes prompt strength negative_prompt (env s) in
    (r, mkApp e (session_state s),
     [EvTransformImage platform_name image_bytes prompt strength negative_prompt]
     ++ t ++ [EvTransformReturned r]).

Definition py_str (v : pyval) : string :=
  match v with VStr s => s | _ => py_repr lib v end.

(** Lines 311-334: the loop over [range(num_variations)], from index list
    [indices] on, with the images generated so far.  [None] is the [return]
    of line 334, [Some images] the end of the loop. *)
Fixpoint variations (handler : Handler) (platform_name : string) (image_bytes : bytes)
    (used_prompt : string) (strength : float) (used_negative_prompt : string)
    (num_variations : nat) (indices : list nat) (generated_images : list pyval)
    : M (App World) (option (list pyval)) :=
  match indices with
  | [] => ret (Some generated_images)
  | i :: rest =>
      fraction <- lift_res (true_div (Z.of_nat i) (Z.of_nat num_variations)) ;;
      scaled <- lift_res (int_of_float (fraction * 70)%float) ;;
      let progress_percent := 20 + scaled in
      let progress_text :=
        "⚡ Generating variation " +:+ pretty (Z.of_nat i + 1) +:+ "/"
        +:+ pretty (Z.of_nat num_variations) +:+ "..." in
      ui (UiProgress progress_percent progress_text) ;;;
      seed <- in_env (call_total (EvRandint 1 2147483647)
                                 (random_randint ext 1 2147483647)) ;;
      outcome <- invoke handler platform_name image_bytes used_prompt strength
                        used_negative_prompt ;;
      let '(success, result) := outcome in
      if (success : bool) then
        variations handler platform_name image_bytes used_prompt strength
                   used_negative_prompt num_variations rest (generated_images ++ [result])
      else
        ui UiProgressEmpty ;;;
        ui (UiError ("❌ Variation " +:+ pretty (Z.of_nat i + 1) +:+ " failed: "
                     +:+ py_str result)) ;;;
        ret None
  end.

(** Lines 346-354. *)
Definition metadata (platform_name used_prompt used_negative_prompt : string)
    (strength duration : float) (timestamp : string) (num_variations : nat)
    : gmap string pyval :=
  {[ "platform" := VStr platform_name;
     "prompt" := VStr used_prompt;
     "negative_prompt" := VStr used_negative_prompt;
     "strength" := VFloat strength;
     "duration" := VFloat duration;
     "timestamp" := VStr timestamp;
     "num_variations" := VInt (Z.of_nat num_variations) ]}.

Definition render_transform (image : Image) (platform mode : string) (strength : float)
    (style_config : option style) (custom_prompt negative_prompt : string)
    (num_variations : nat) : M (App World) unit :=
  clicked <- in_env (call_total EvButton (st_button ext)) ;;
  if (clicked : bool) then
    ui (UiProgressNew 0 "🔄 Starting...") ;;;
    image_bytes <- lift_res (Image_save_png lib image) ;;
    start_time <- in_env (call_total EvTime (time_time ext)) ;;
    try_catch
      (ui (UiProgress 10 ("🔗 Connecting to " +:+ platform +:+ "...")) ;;;
       match select_handler platform with
       | None => ui (UiError "❌ Invalid platform")
       | Some (handler, platform_name) =>
           ui (UiProgress 20 "🎨 Loading model...") ;;;
           let '(used_prompt, used_negative_prompt) :=
             match str_in "Preset Style" mode, style_config with
             | true, Some st =>
                 (style_prompt st, default "" (style_negative_prompt st))
             | _, _ => (custom_prompt, negative_prompt)
             end in
           batch <- variations handler platform_name image_bytes used_prompt strength
                               used_negative_prompt num_variations
                               (seq 0 num_variations) [] ;;
           match batch with
           | None => ret tt
           | Some generated_images =>
               end_time <- in_env (call_total EvTime (time_time ext)) ;;
               let duration := (end_time - start_time)%float in
               ui (UiProgress 100 "✅ Completed!") ;;;
               session_set (set_transformed_images generated_images) ;;;
               session_set (set_transformation_done true) ;;;
               timestamp <- in_env (call_total EvNow (now_strftime ext "%d %B %Y, %H:%M")) ;;
               session_set (set_last_metadata
                              (metadata platform_name used_prompt used_negative_prompt
                                        strength duration timestamp num_variations)) ;;;
               ui (UiSuccess ("✅ Success! " +:+ pretty (Z.of_nat num_variations)
                              +:+ " variation(s) generated. (" +:+ platform_name +:+ ")"))
           end
       end)
      (fun e =>
         ui UiProgressEmpty ;;;
         ui (UiError ("❌ Error: " +:+ exn_str e)))
  else ret tt.

(** [for x in l: body x] with no early exit. *)
Fixpoint for_ {X} (l : list X) (body : X -> M (App World) unit) : M (App World) unit :=
  match l with
  | [] => ret tt
  | x :: rest => body x ;;; for_ rest body
  end.

Definition metadata_get (m : gmap string pyval) (k : string) (d : pyval) : pyval :=
  default d (m !! k).

(** Lines 366-454: what [render_results] shows, [ss] being
    [st.session_state]. *)
Definition results_of_session (ss : session) : M (App World) unit :=
  if transformation_done ss && truthy (VList (transformed_images ss)) then
    ui (UiMarkdown "### 🖼️ Result") ;;;
    let metadata := last_metadata ss in
    ui (UiShowSettings (metadata_get metadata "prompt" (VStr ""))
                       (metadata_get metadata "strength" (VInt 0))
                       (metadata_get metadata "platform" VNone)
                       (metadata_get metadata "duration" VNone)
                       (metadata_get metadata "timestamp" VNone)
                       (metadata_get metadata "negative_prompt" VNone)) ;;;
    let images := transformed_images ss in
    let num_images := length images in
    match images with
    | [ only ] =>
        ui (UiBeforeAfter (original_image ss) only) ;;;
        ui (UiSliderComparison (original_image ss) only) ;;;
        ui (UiImage only None) ;;;
        ui (UiDownload only "transformed.png") ;;;
        ui (UiSideBySide (original_image ss) only)
    | _ =>
        ui (UiMarkdown ("**" +:+ pretty (Z.of_nat num_images)
                        +:+ " different variations generated:**")) ;;;
        for_ (imap (fun idx img => (idx, img)) images)
             (fun '(idx, img) =>
                ui (UiImage img (Some ("Variation " +:+ pretty (Z.of_nat idx + 1))))) ;;;
        ui (UiMarkdown "**Download each variation separately:**") ;;;
        for_ (imap (fun idx img => (idx, img)) images)
             (fun '(idx, img) =>
                ui (UiImage img None) ;;;
                ui (UiDownload img ("variation_" +:+ pretty (Z.of_nat idx + 1) +:+ ".png")))
    end
  else ret tt.

Definition render_results : M (App World) unit :=
  ss <- session_get ;;
  results_of_session ss.

(** [init_session_state], on the session as a dictionary whose keys may be
    missing: a default is stored only under a key that is not there. *)
Definition set_if_missing (k : string) (v : pyval) (ss : gmap string pyval)
    : gmap string pyval :=
  match ss !! k with
  | Some _ => ss
  | None => <[ k := v ]> ss
  end.

Definition init_session_state (ss : gmap string pyval) : gmap string pyval :=
  let ss := set_if_missing "transformed_images" (VList []) ss in
  let ss := set_if_missing "original_image" VNone ss in
  let ss := set_if_missing "transformation_done" (VBool false) ss in
  let ss := set_if_missing "platform_settings" (VDict []) ss in
  set_if_missing "last_metadata" (VDict []) ss.
End App.
End app.



(** ** utils/image_loader.py *)

Module image_loader.

(** What [validate_image] reads of a streamlit upload. *)
Record uploaded_file := mkUpload {
  name : string;
  size : Z      (* in bytes *)
}.

Definition MAX_FILE_SIZE_MB : Z := 5.
Definition ALLOWED_EXTENSIONS : list string := [ "png"; "jpg"; "jpeg" ].

(** [s.split(".")] *)
Fixpoint split_dot (s : string) : list string :=
  match s with
  | EmptyString => [ EmptyString ]
  | String c rest =>
      if Ascii.eqb c "."%char then EmptyString :: split_dot rest
      else
        match split_dot rest with
        | first :: others => String c first :: others
        | [] => [ String c EmptyString ]
        end
  end.

(** [l[-1]] of a list of strings *)
Definition last_of (l : list string) : string := List.last l EmptyString.

Definition validate_image (uploaded_file : option uploaded_file) : bool * string :=
  match uploaded_file with
  | None => (false, "Please upload an image.")
  | Some f =>
      let file_extension := lower (last_of (split_dot (name f))) in
      if negb (existsb (String.eqb file_extension) ALLOWED_EXTENSIONS) then
        (false, "Unsupported format. Allowed: ['png', 'jpg', 'jpeg']")
      else
        let file_size_mb := (float_of_Z (size f) / float_of_Z (1024 * 1024))%float in
        if (float_of_Z MAX_FILE_SIZE_MB <? file_size_mb)%float then
          (false, "File too large. Maximum: " +:+ pretty MAX_FILE_SIZE_MB +:+ "MB")
        else
          (true, "Image is valid.")
  end.
End image_loader.

(** ** utils/image_processor.py *)

Module image_processor.

(** A canvas made by [Image.new("RGB", (width, height), white)] and what was
    pasted on it, in order, each with the position of its top left corner. *)
Record canvas := mkCanvas {
  canvas_width : Z;
  canvas_height : Z;
  pasted : list (Image * (Z * Z))
}.

(** [Image.new] refuses a negative size. *)
Definition new_canvas (w h : Z) : res canvas :=
  if (w <? 0) || (h <? 0) then Raise (Exn OtherException "Width and height must be >= 0")
  else Ok (mkCanvas w h []).

(** [canvas.paste(image, position)] *)
Definition paste (c : canvas) (image : Image) (position : Z * Z) : canvas :=
  mkCanvas (canvas_width c) (canvas_height c) (pasted c ++ [ (image, position) ]).

Definition create_side_by_side (lib : Lib) (original transformed : Image) (spacing : Z)
    : res canvas :=
  match Image_convert lib original "RGB" with
  | Raise e => Raise e
  | Ok original =>
      match Image_convert lib transformed "RGB" with
      | Raise e => Raise e
      | Ok transformed =>
          let total_width := width original + width transformed + spacing in
          let max_height := Z.max (height original) (height transformed) in
          match new_canvas total_width max_height with
          | Raise e => Raise e
          | Ok combined =>
              let combined := paste combined original (0, 0) in
              let combined := paste combined transformed (width original + spacing, 0) in
              Ok combined
          end
      end
  end.

(** The loop of [create_image_grid] over [enumerate(images)], from index
    [idx] on. *)
Fixpoint paste_cells (grid : canvas) (columns img_width img_height spacing : Z)
    (idx : Z) (images : list Image) : canvas :=
  match images with
  | [] => grid
  | img :: rest =>
      let row := idx / columns in
      let col := idx mod columns in
      let x := col * (img_width + spacing) in
      let y := row * (img_height + spacing) in
      paste_cells (paste grid img (x, y)) columns img_width img_height spacing (idx + 1) rest
  end.

Definition create_image_grid (images : list Image) (columns spacing : Z)
    : res (option canvas) :=
  match images with
  | [] => Ok None
  | first :: _ =>
      if columns =? 0 then Raise ZeroDivisionError
      else
        let rows := (Z.of_nat (length images) + columns - 1) / columns in
        let img_width := width first in
        let img_height := height first in
        let grid_width := columns * img_width + (columns - 1) * spacing in
        let grid_height := rows * img_height + (rows - 1) * spacing in
        match new_canvas grid_width grid_height with
        | Raise e => Raise e
        | Ok grid =>
            Ok (Some (paste_cells grid columns img_width img_height spacing 0 images))
        end
  end.
End image_processor.
(** ** The six adapters behind one signature *)

Inductive backend := Local | DeepAI | HuggingFace | Leonardo | Replicate | StabilityAI.

Definition transform {World : Type} (lib : Lib) (ext : Ext World) (cfg : Config)
    (b : backend) : bytes -> string -> float -> string -> M (Env World) (bool * pyval) :=
  match b with
  | Local => local_inference_handler.transform_image lib ext
  | DeepAI => deepai_api_handler.transform_image lib ext cfg
  | HuggingFace => hf_api_handler.transform_image lib ext cfg
  | Leonardo => leonardo_api_handler.transform_image lib ext cfg
  | Replicate => replicate_api_handler.transform_image lib ext cfg
  | StabilityAI => stability_ai_handler.transform_image lib ext cfg
  end.



(** ** Properties of runs *)

(** The two outcomes of the adapter contract. *)
Definition is_success (r : bool * pyval) : Prop :=
  exists image, r = (true, VImage image).

Definition is_failure (r : bool * pyval) : Prop :=
  exists message, r = (false, VStr message) /\ message <> "".

Definition one_outcome (r : bool * pyval) : Prop :=
  (is_success r \/ is_failure r) /\ ~ (is_success r /\ is_failure r).

(** [m] returns normally only with a value satisfying [P]. *)
Definition returns {S A} (m : M S A) (P : A -> Prop) : Prop :=
  forall s, match result_of (m s) with Ok a => P a | Raise _ => True end.

(** [m] always returns normally, with a value satisfying [P]. *)
Definition total {S A} (m : M S A) (P : A -> Prop) : Prop :=
  forall s, exists a, result_of (m s) = Ok a /\ P a.

(** Every external call [m] makes satisfies [Q]. *)
Definition emits_only {S A} (m : M S A) (Q : event -> Prop) : Prop :=
  forall s, Forall Q (trace_of (m s)).


(** The run [x], with the calls [t] made before it. *)
Definition prefixed {S A} (t : list event) (x : res A * S * list event)
    : res A * S * list event :=
  (x.1.1, x.1.2, t ++ x.2).

(** ** What the adapters send *)




(** ** Reading traces *)

Definition is_cache_clear (ev : event) : bool :=
  match ev with EvEmptyCache => true | _ => false end.

(** How often [torch.cuda.empty_cache()] was called. *)
Definition cache_clears (t : list event) : nat := length (List.filter is_cache_clear t).

Definition returned (ev : event) : option (res (bool * pyval)) :=
  match ev with EvTransformReturned r => Some r | _ => None end.

(** What the successive adapter invocations returned, in invocation order. *)
Definition returns_in (t : list event) : list (res (bool * pyval)) := omap returned t.

Definition is_invocation (ev : event) : bool :=
  match ev with EvTransformImage _ _ _ _ _ => true | _ => false end.

(** How often an adapter was invoked. *)
Definition calls_in (t : list event) : nat := length (List.filter is_invocation t).

Definition shown (ev : event) : option ui_event :=
  match ev with EvUi u => Some u | _ => None end.

(** What the page was asked to show, in order. *)
Definition ui_in (t : list event) : list ui_event := omap shown t.

(** Progress and error reports: the UI calls that carry no image. *)
Definition is_report (u : ui_event) : Prop :=
  match u with
  | UiProgressNew _ _ | UiProgress _ _ | UiProgressEmpty | UiError _ => True
  | _ => False
  end.

(** The calls a handler module makes: no UI, no nested invocation. *)
Definition adapter_event (ev : event) : Prop :=
  match ev with
  | EvUi _ | EvTransformImage _ _ _ _ _ | EvTransformReturned _
  | EvButton | EvRandint _ _ | EvTime | EvNow => False
  | _ => True
  end.

Definition success (image : pyval) : res (bool * pyval) := Ok (true, image).

(** ** Runs of the application *)

(** The state after an external call that changed the world to [w]. *)
Definition with_world {World} (s : App World) (w : World) : App World :=
  mkApp (mkEnv w (_pipeline (env s)) (_device (env s))) (session_state s).

(** The marks around one adapter invocation. *)
Definition invocation {World} (platform_name : string) (image_bytes : bytes) (prompt : string)
    (strength : float) (negative_prompt : string)
    (x : res (bool * pyval) * Env World * list event) : list event :=
  [ EvTransformImage platform_name image_bytes prompt strength negative_prompt ]
  ++ trace_of x ++ [ EvTransformReturned (result_of x) ].

(** [m], started in a state whose session is [ss], ends with a result, a
    session and a trace that satisfy [post]. *)
Definition yields {World A} (ss : session) (m : M (App World) A)
    (post : res A -> session -> list event -> Prop) : Prop :=
  forall s, session_state s = ss ->
    post (result_of (m s)) (session_state (state_of (m s))) (trace_of (m s)).

(** The error line of app.py:333 for the variation with index [i]. *)
Definition failure_report (lib : Lib) (i : nat) (result : pyval) : ui_event :=
  UiError ("❌ Variation " +:+ pretty (Z.of_nat i + 1) +:+ " failed: "
           +:+ app.py_str lib result).

(** What a run of the loop over [len] indices from [a] on looks like. *)
Definition loop_summary (lib : Lib) (a len : nat) (acc : list pyval)
    (r : res (option (list pyval))) (t : list event) : Prop :=
  exists images tail,
    returns_in t = map success images ++ tail
    /\ calls_in t = length (map success images ++ tail)
    /\ match r with
       | Ok (Some out) =>
           tail = [] /\ out = acc ++ images /\ length images = len
           /\ Forall is_report (ui_in t)
       | Ok None =>
           exists result reports,
             tail = [ Ok (false, result) ] /\ (length images < len)%nat
             /\ ui_in t
                = reports ++ [ UiProgressEmpty; failure_report lib (a + length images) result ]
             /\ Forall is_report reports
       | Raise e =>
           (tail = [] \/ tail = [ Raise e ]) /\ Forall is_report (ui_in t)
       end.

(** A batch was stored: every invocation succeeded, in order, and the
    session holds the images and the metadata. *)
Definition batch_stored (num_variations : nat) (ss ss' : session) (t : list event) : Prop :=
  exists images md reports message,
    length images = num_variations
    /\ returns_in t = map success images
    /\ calls_in t = num_variations
    /\ ss' = app.set_last_metadata md
               (app.set_transformation_done true (app.set_transformed_images images ss))
    /\ md !! "num_variations" = Some (VInt (Z.of_nat num_variations))
    /\ ui_in t = reports ++ [ UiSuccess message ]
    /\ Forall is_report reports.

(** No batch was stored: the session is as before and only progress and
    error reports were shown; the invocations made all succeeded, except
    possibly the last one. *)
Definition batch_dropped (lib : Lib) (num_variations : nat) (ss ss' : session)
    (t : list event) : Prop :=
  ss' = ss
  /\ Forall is_report (ui_in t)
  /\ exists images tail,
       returns_in t = map success images ++ tail
       /\ calls_in t = length (map success images ++ tail)
       /\ (tail = []
           \/ (exists e, tail = [ Raise e ])
           \/ (exists result reports,
                 tail = [ Ok (false, result) ]
                 /\ (length images < num_variations)%nat
                 /\ ui_in t
                    = reports ++ [ UiProgressEmpty; failure_report lib (length images) result ])).

(** [m] only shows things: from any state whose session is [ss] it returns
    normally, leaves the session alone and makes the same calls. *)
Definition shows_only {World} (ss : session) (m : M (App World) unit) : Prop :=
  exists view,
    yields ss m (fun r ss' t => r = Ok tt /\ ss' = ss /\ t = view).

(** ** The Leonardo.ai job poller, as the specification words it *)

Section Poller.
Context {World : Type} (lib : Lib) (ext : Ext World).

(** One poll tick: the sleep, then the status read. *)
Definition tick (key : string) (generation_id : pyval) : list event :=
  [ EvSleep 2; EvHttpGet (leonardo_api_handler.status_request lib key generation_id) ].

Fixpoint ticks (key : string) (generation_id : pyval) (k : nat) : list event :=
  match k with
  | O => []
  | S k' => tick key generation_id ++ ticks key generation_id k'
  end.

(** What a status read shows of the job. *)
Inductive job_status := JobPending | JobComplete | JobFailed | JobUnreadable.

(** The job status a status read shows: an answer other than HTTP 200 and
    any status other than COMPLETE and FAILED leave the job pending. *)
Definition observed (r : res response) : job_status :=
  match r with
  | Raise _ => JobUnreadable
  | Ok status_response =>
      if negb (status_code status_response =? 200) then JobPending
      else
        match json_body status_response with
        | Raise _ => JobUnreadable
        | Ok status_data =>
            match py_get status_data "generations_by_pk" (VDict []) with
            | Raise _ => JobUnreadable
            | Ok generation_info =>
                match py_get generation_info "status" VNone with
                | Raise _ => JobUnreadable
                | Ok status =>
                    if is_str status "COMPLETE" then JobComplete
                    else if is_str status "FAILED" then JobFailed
                    else JobPending
                end
            end
        end
  end.

(** The state after the sleep and the status read of one tick. *)
Definition after_tick (key : string) (generation_id : pyval) (s : Env World) : Env World :=
  mkEnv (requests_get ext (leonardo_api_handler.status_request lib key generation_id) (time_sleep ext 2 (world s))).2
        (_pipeline s) (_device s).

Definition read_of (key : string) (generation_id : pyval) (s : Env World) : res response :=
  (requests_get ext (leonardo_api_handler.status_request lib key generation_id) (time_sleep ext 2 (world s))).1.
End Poller.

(** ** The shapes of the Replicate output that stand for one image *)

Definition stands_for (url : string) (image : Image) (output : pyval) : Prop :=
  output = VStr url
  \/ output = VImage image
  \/ (exists rest, output = VList (VStr url :: rest))
  \/ (exists rest, output = VList (VImage image :: rest)).

(** ** Sample worlds

  The world is the number of HTTP requests made so far. *)

Definition sample_image : Image := mkImage 512 512 "RGB" [].

Definition sample_lib : Lib :=
  {| b64encode := fun _ => "aW1hZ2U=";
     b64decode := fun _ => Ok [];
     Image_open := fun _ => Ok sample_image;
     Image_convert := fun i _ => Ok i;
     Image_resize := fun i '(w, h) => Ok (mkImage w h (mode i) (pixels i));
     Image_save_png := fun i => Ok (pixels i);
     py_repr := fun _ => "<object>" |}.

Definition json_response (code : Z) (body : pyval) : response :=
  mkResponse code "" [] (Some "application/json") (Ok body).

Definition sample_ext (post get : http_request -> nat -> res response)
    (replicate_output : res pyval) (pipeline_result : res (list pyval)) (cuda : bool)
    : Ext nat :=
  {| requests_post := fun r w => (post r w, S w);
     requests_get := fun r w => (get r w, S w);
     time_sleep := fun _ w => w;
     replicate_run := fun _ _ w => (replicate_output, w);
     InferenceClient := fun _ w => (Ok tt, w);
     image_to_image := fun _ w => (Raise (Exn OtherException "503 Service Unavailable"), w);
     cuda_is_available := fun w => (cuda, w);
     from_pretrained := fun _ _ w => (Ok (mkPipeline 0), w);
     pipeline_to := fun p _ w => (Ok p, w);
     enable_attention_slicing := fun _ w => (Ok tt, w);
     enable_vae_slicing := fun _ w => (Ok tt, w);
     run_pipeline := fun _ _ w => (pipeline_result, w);
     empty_cache := fun w => (Ok tt, w);
     random_randint := fun lo _ w => (lo, w);
     time_time := fun w => (0%float, w);
     now_strftime := fun _ w => ("01 January 2025, 12:00", w);
     st_button := fun w => (true, w);
     st_ui := fun _ w => w |}.

Definition sample_cfg : Config :=
  mkConfig (Some "deepai-key-0123456789") (Some "leonardo-key-0123456789")
           (Some "r8_token_0123456789") (Some "sk-stability-0123456789")
           (Some "hf_token_0123456789").

Definition fresh_env : Env nat := mkEnv 0%nat None None.

Definition out_of_memory : exn :=
  Exn RuntimeError "CUDA out of memory. Tried to allocate 2.00 GiB".

Definition image_download : http_request -> nat -> res response :=
  fun _ _ => Ok (mkResponse 200 "" [] (Some "image/png") (Raise (Exn RequestException "not JSON"))).

(** DeepAI answers the first [good] requests and then turns to HTTP 500. *)
Definition deepai_post (good : nat) : http_request -> nat -> res response :=
  fun _ w =>
    if (w <? good)%nat
    then Ok (json_response 200 (VDict [ ("output_url", VStr "https://api.deepai.org/out.png") ]))
    else Ok (json_response 500 (VDict [])).

Definition deepai_world (good : nat) : Ext nat :=
  sample_ext (deepai_post good) image_download (Ok VNone) (Ok []) false.

(** Leonardo.ai: the job stays PENDING until request number [failing], where
  it reads FAILED. *)
Definition leonardo_status (failing : nat) : http_request -> nat -> res response :=
  fun _ w =>
    Ok (json_response 200
          (VDict [ ("generations_by_pk",
                    VDict [ ("status", VStr (if (w =? failing)%nat then "FAILED" else "PENDING")) ]) ])).


(** The local GPU: the inference either answers or runs out of memory. *)
Definition gpu_world (pipeline_result : res (list pyval)) (cuda : bool) : Ext nat :=
  sample_ext (fun _ _ => Raise (Exn RequestException "unused")) image_download
             (Ok VNone) pipeline_result cuda.

(** Replicate answering with a given output. *)
Definition replicate_world (output : pyval) : Ext nat :=
  sample_ext (fun _ _ => Raise (Exn RequestException "unused")) image_download
             (Ok output) (Ok []) false.

Definition empty_session : session := mkSession [] None false ∅ ∅.

(** A session showing one earlier batch. *)
Definition earlier_session : session :=
  mkSession [ VImage sample_image ] (Some sample_image) true ∅
            {[ "platform" := VStr "DeepAI"; "prompt" := VStr "watercolor" ]}.

Definition fresh_app (ss : session) : App nat := mkApp fresh_env ss.

(** ** What a call costs *)

(** The sum of a cost over the events of a trace. *)
Definition weigh (cost : event -> nat) (t : list event) : nat :=
  foldr (fun ev n => (cost ev + n)%nat) 0%nat t.

(** [m] never makes calls that cost more than [n] together. *)
Definition spends {S A} (cost : event -> nat) (m : M S A) (n : nat) : Prop :=
  forall s, (weigh cost (trace_of (m s)) <= n)%nat.

(** A request sent to a provider: an HTTP request or a call of a client
    library that makes one. *)
Definition request_cost (ev : event) : nat :=
  match ev with
  | EvHttpPost _ | EvHttpGet _ | EvReplicateRun _ _ | EvImageToImage _ => 1%nat
  | _ => 0%nat
  end.

(** The seconds a [time.sleep] call takes. *)
Definition sleep_cost (ev : event) : nat :=
  match ev with
  | EvSleep secs => Z.to_nat secs
  | _ => 0%nat
  end.




(** ** Credentials *)


(** Where the adapter of a backend sends requests that carry headers. *)
Definition api_base (b : backend) : option string :=
  match b with
  | DeepAI => Some (deepai_api_handler.API_BASE_URL +:+ "/")
  | HuggingFace => Some "https://router.huggingface.co/hf-inference/models/"
  | Leonardo => Some (leonardo_api_handler.API_BASE_URL +:+ "/")
  | StabilityAI => Some (stability_ai_handler.API_HOST +:+ "/")
  | Local | Replicate => None
  end.

(** An HTTP request with headers goes to the backend's own API. *)
Definition keeps_credential (b : backend) (ev : event) : Prop :=
  match ev with
  | EvHttpPost r | EvHttpGet r =>
      req_headers r = ∅
      \/ exists base path, api_base b = Some base /\ req_url r = VStr (base +:+ path)
  | _ => True
  end.

(** ** The strength in what is sent *)

Definition local_strength_is (strength : float) (ev : event) : Prop :=
  match ev with
  | EvPipelineCall _ k => pc_strength k = strength
  | _ => True
  end.

Definition hf_strength_is (strength : float) (ev : event) : Prop :=
  match ev with
  | EvImageToImage a => hf_strength a = strength
  | EvHttpPost r =>
      exists payload parameters,
        req_json r = Some payload
        /\ payload !! "parameters" = Some (VDict parameters)
        /\ assoc "strength" parameters = Some (VFloat strength)
  | _ => True
  end.

(** Every POST but the upload carries the strength as [init_strength]. *)
Definition leonardo_strength_is (lib : Lib) (strength : float) (ev : event) : Prop :=
  match ev with
  | EvHttpPost r =>
      (exists key image_bytes, r = leonardo_api_handler.upload_request lib key image_bytes)
      \/ (exists payload,
            req_json r = Some payload
            /\ payload !! "init_strength" = Some (VFloat strength))
  | _ => True
  end.

(** ** [transform_with_style] *)

Definition transform_with_style {World : Type} (lib : Lib) (ext : Ext World) (cfg : Config)
    (b : backend) : bytes -> style_config -> M (Env World) (bool * pyval) :=
  match b with
  | Local => local_inference_handler.transform_with_style lib ext
  | DeepAI => deepai_api_handler.transform_with_style lib ext cfg
  | HuggingFace => hf_api_handler.transform_with_style lib ext cfg
  | Leonardo => leonardo_api_handler.transform_with_style lib ext cfg
  | Replicate => replicate_api_handler.transform_with_style lib ext cfg
  | StabilityAI => stability_ai_handler.transform_with_style lib ext cfg
  end.



(** ** The cached pipeline of the local adapter *)

(** [m], started in a state that satisfies [I], ends in one that does and
    makes only calls that satisfy [Q]. *)
Definition maintains {World A} (I : Env World -> Prop) (m : M (Env World) A)
    (Q : event -> Prop) : Prop :=
  forall s, I s -> I (state_of (m s)) /\ Forall Q (trace_of (m s)).

(** [I] speaks of the module globals only. *)
Definition world_blind {World} (I : Env World -> Prop) : Prop :=
  forall s w, I s -> I (mkEnv w (_pipeline s) (_device s)).

(** The pipeline [p] is the cached one. *)
Definition cached {World} (p : Pipeline) (s : Env World) : Prop := _pipeline s = Some p.

(** A call that runs on the cached pipeline [p]: nothing is loaded, moved or
    configured, and the inference is asked of [p]. *)
Definition uses_cached (p : Pipeline) (ev : event) : Prop :=
  match ev with
  | EvFromPretrained _ _ | EvPipelineTo _ _
  | EvEnableAttentionSlicing _ | EvEnableVaeSlicing _ => False
  | EvPipelineCall q _ => q = p
  | _ => True
  end.



(** A machine on which the model loads but cannot be moved to the GPU. *)
Definition failing_move_world : Ext nat :=
  let base := gpu_world (Ok [ VImage sample_image ]) true in
  {| requests_post := requests_post base;
     requests_get := requests_get base;
     time_sleep := time_sleep base;
     replicate_run := replicate_run base;
     InferenceClient := InferenceClient base;
     image_to_image := image_to_image base;
     cuda_is_available := cuda_is_available base;
     from_pretrained := from_pretrained base;
     pipeline_to := fun _ _ w => (Raise out_of_memory, w);
     enable_attention_slicing := enable_attention_slicing base;
     enable_vae_slicing := enable_vae_slicing base;
     run_pipeline := run_pipeline base;
     empty_cache := empty_cache base;
     random_randint := random_randint base;
     time_time := time_time base;
     now_strftime := now_strftime base;
     st_button := st_button base;
     st_ui := st_ui base |}.

(** ** What a given result has cost *)

(** Every run of [m] costs exactly [n]. *)
Definition costs {S A} (cost : event -> nat) (m : M S A) (n : nat) : Prop :=
  forall s, weigh cost (trace_of (m s)) = n.

(** A run of [m] that returns [v] has cost exactly [n]. *)
Definition returning {S A} (v : A) (cost : event -> nat) (m : M S A) (n : nat) : Prop :=
  forall s, result_of (m s) = Ok v -> weigh cost (trace_of (m s)) = n.

(** Leonardo.ai: the upload and the generation request answer with an id and
    the job never leaves PENDING. *)
Definition leonardo_accepting : http_request -> nat -> res response :=
  fun _ _ =>
    Ok (json_response 200
          (VDict [ ("uploadInitImage", VDict [ ("id", VStr "init-1") ]);
                   ("sdGenerationJob", VDict [ ("generationId", VStr "job-1") ]) ])).

Definition leonardo_pending_world : Ext nat :=
  sample_ext leonardo_accepting (leonardo_status 1000) (Ok VNone) (Ok []) false.

(** ** Failure reports *)



(** The outputs of [replicate.run] that [transform_image] reads an image
    from. *)
Definition image_shaped (output : pyval) : bool :=
  match output with
  | VStr _ | VImage _ => true
  | VList (VStr _ :: _) | VList (VImage _ :: _) => true
  | _ => false
  end.

(** ** The order of the Leonardo.ai requests *)

(** The three phases of a Leonardo.ai call, as far as it got: the upload,
    the generation request with the id the upload returned, the polling of
    the job the generation request started. *)
Definition leonardo_phases (lib : Lib) (key : string) (image_bytes : bytes) (prompt : string)
    (strength : float) (negative_prompt : string) (t : list event) : Prop :=
  exists rest,
    t = EvHttpPost (leonardo_api_handler.upload_request lib key image_bytes) :: rest
    /\ (rest = []
        \/ exists init_image_id after,
             truthy init_image_id = true
             /\ rest
                = EvHttpPost (leonardo_api_handler.generation_request key prompt strength
                                negative_prompt init_image_id) :: after
             /\ (after = []
                 \/ exists generation_id k tail,
                      truthy generation_id = true
                      /\ after = ticks lib key generation_id k ++ tail
                      /\ (k <= 60)%nat
                      /\ (tail = [] \/ exists url, tail = [ EvHttpGet (plain_get url) ]))).

(** ** The arguments of the invocations of a batch *)

(** An invocation is one with these arguments. *)
Definition invoked_with (platform_name : string) (image_bytes : bytes) (prompt : string)
    (strength : float) (negative_prompt : string) (ev : event) : Prop :=
  match ev with
  | EvTransformImage a b c d e =>
      a = platform_name /\ b = image_bytes /\ c = prompt /\ d = strength
      /\ e = negative_prompt
  | _ => True
  end.

Definition invocation_cost (ev : event) : nat :=
  if is_invocation ev then 1%nat else 0%nat.

(** The prompts a batch is run with: the style's in preset mode, the typed
    ones otherwise. *)
Definition prompts_used (mode : string) (style_config : option style)
    (custom_prompt negative_prompt : string) : string * string :=
  match style_config with
  | Some st =>
      if str_in "Preset Style" mode
      then (style_prompt st, default "" (style_negative_prompt st))
      else (custom_prompt, negative_prompt)
  | None => (custom_prompt, negative_prompt)
  end.


(** What [render_transform] invokes an adapter with. *)
Definition batch_invocation {World} (lib : Lib) (ext : Ext World) (cfg : Config)
    (image : Image) (platform mode : string) (strength : float)
    (style_config : option style) (custom_prompt negative_prompt : string)
    (ev : event) : Prop :=
  match ev with
  | EvTransformImage platform_name image_bytes prompt_sent strength_sent negative_sent =>
      (exists handler, app.select_handler lib ext cfg platform = Some (handler, platform_name))
      /\ Image_save_png lib image = Ok image_bytes
      /\ (prompt_sent, negative_sent)
         = prompts_used mode style_config custom_prompt negative_prompt
      /\ strength_sent = strength
  | _ => True
  end.

(** ** The settings stored with a batch *)

(** The session after a run of [render_transform]: as before, or holding a
    new batch together with the settings it was made with. *)
Definition session_after {World} (lib : Lib) (ext : Ext World) (cfg : Config)
    (platform mode : string) (strength : float) (style_config : option style)
    (custom_prompt negative_prompt : string) (num_variations : nat)
    (ss ss' : session) : Prop :=
  ss' = ss
  \/ exists handler platform_name images duration timestamp,
       app.select_handler lib ext cfg platform = Some (handler, platform_name)
       /\ length images = num_variations
       /\ ss'
          = app.set_last_metadata
              (app.metadata platform_name
                 (prompts_used mode style_config custom_prompt negative_prompt).1
                 (prompts_used mode style_config custom_prompt negative_prompt).2
                 strength duration timestamp num_variations)
              (app.set_transformation_done true (app.set_transformed_images images ss)).

(** ** Layouts *)


(** The rectangle of [w] by [h] pixels at [position] lies on the canvas. *)
Definition on_canvas (c : image_processor.canvas) (w h : Z) (position : Z * Z) : Prop :=
  0 <= position.1 /\ position.1 + w <= image_processor.canvas_width c
  /\ 0 <= position.2 /\ position.2 + h <= image_processor.canvas_height c.

(** Two rectangles of [w] by [h] pixels share no pixel. *)
Definition apart (w h : Z) (p q : Z * Z) : Prop :=
  p.1 + w <= q.1 \/ q.1 + w <= p.1 \/ p.2 + h <= q.2 \/ q.2 + h <= p.2.

(** Where [create_image_grid] pastes the image with index [idx]. *)
Definition cell_position (columns img_width img_height spacing idx : Z) : Z * Z :=
  ((idx mod columns) * (img_width + spacing), (idx / columns) * (img_height + spacing)).

(** All images have this size. *)
Definition sized (w h : Z) (images : list Image) : Prop :=
  Forall (fun img => width img = w /\ height img = h) images.

(** ** Uploads and the session *)

(** The string holds a dot. *)
Fixpoint has_dot (s : string) : bool :=
  match s with
  | EmptyString => false
  | String c rest => Ascii.eqb c "."%char || has_dot rest
  end.

(** What [init_session_state] stores where nothing is stored yet. *)
Definition session_defaults : gmap string pyval :=
  {[ "transformed_images" := VList [];
     "original_image" := VNone;
     "transformation_done" := VBool false;
     "platform_settings" := VDict [];
     "last_metadata" := VDict [] ]}.

(** ** The results page *)





(** ** The two requests of a DeepAI call *)

(** A DeepAI call posts the image once and downloads at most one result,
    from the address the answer gave. *)
Definition deepai_exchange (lib : Lib) (key : string) (image_bytes : bytes)
    (prompt : string) (strength : float) (t : list event) : Prop :=
  let sent :=
    EvHttpPost (deepai_api_handler.editor_request key image_bytes
                  (deepai_api_handler.final_prompt prompt strength)) in
  t = [ sent ]
  \/ exists output_url,
       truthy output_url = true
       /\ t = [ sent; EvHttpGet (mkRequest output_url ∅ None ∅ ∅ (Some 30)) ].
(** ** Checks on concrete inputs *)

Example str_in_status : str_in "401" "HTTP 401 Unauthorized" = true.
Proof. reflexivity. Qed.

Example str_in_absent : str_in "Leonardo" "DeepAI" = false.
Proof. reflexivity. Qed.

Example lower_message :
  str_in "out of memory" (lower "CUDA Out Of Memory. Tried to allocate") = true.
Proof. reflexivity. Qed.

Example strip_both_ends : strip "
 text  with spaces
" = "text  with spaces".
Proof. reflexivity. Qed.

Example hf_message_stripped :
  String.prefix "No suitable model found" (strip hf_api_handler.error_message) = true
  /\ String.length (strip hf_api_handler.error_message)
     = (String.length hf_api_handler.error_message - 2)%nat.
Proof. split; vm_compute; reflexivity. Qed.

Example int_truncates :
  int_of_float 46.67%float = Ok 46 /\ int_of_float (-2.5)%float = Ok (-2)
  /\ int_of_float 0%float = Ok 0 /\ int_of_float 1024%float = Ok 1024.
Proof. repeat split; vm_compute; reflexivity. Qed.

Example truthy_values :
  truthy (VStr "") = false /\ truthy (VList []) = false /\ truthy VNone = false
  /\ truthy (VStr "https://x") = true /\ truthy (VInt 0) = false.
Proof. repeat split; reflexivity. Qed.

Example get_on_none_raises :
  py_get VNone "status" VNone = Raise (AttributeError VNone "get").
Proof. reflexivity. Qed.

Example sdxl_square :
  stability_ai_handler.resize_for_sdxl sample_lib (mkImage 512 512 "RGB" [])
  = Ok (mkImage 1024 1024 "RGB" []).
Proof. vm_compute. reflexivity. Qed.

Example sdxl_widescreen :
  stability_ai_handler.resize_for_sdxl sample_lib (mkImage 1920 1080 "RGB" [])
  = Ok (mkImage 1344 768 "RGB" []).
Proof. vm_compute. reflexivity. Qed.

Example sdxl_zero_height :
  stability_ai_handler.resize_for_sdxl sample_lib (mkImage 512 0 "RGB" [])
  = Raise ZeroDivisionError.
Proof. vm_compute. reflexivity. Qed.

Example local_shrinks_large :
  local_inference_handler.shrink sample_lib (mkImage 2048 1024 "RGB" [])
  = Ok (mkImage 1024 512 "RGB" [])
  /\ local_inference_handler.shrink sample_lib (mkImage 800 600 "RGB" [])
     = Ok (mkImage 800 600 "RGB" []).
Proof. split; vm_compute; reflexivity. Qed.

Example stability_form_fields :
  stability_ai_handler.form_data
    (stability_ai_handler.text_prompts "oil painting" "blurry") 0.6%float
  !! "text_prompts[1][weight]" = Some (VFloat (-1.0)%float)
  /\ stability_ai_handler.form_data
       (stability_ai_handler.text_prompts "oil painting" "") 0.6%float
     !! "text_prompts[1][weight]" = None.
Proof. split; reflexivity. Qed.

Example platform_dispatch :
  snd <$> app.select_handler sample_lib (deepai_world 0) sample_cfg "💻 Local GPU"
  = Some "Local GPU"
  /\ snd <$> app.select_handler sample_lib (deepai_world 0) sample_cfg "⚡ Stability AI"
     = Some "Stability AI"
  /\ snd <$> app.select_handler sample_lib (deepai_world 0) sample_cfg "Midjourney" = None.
Proof. repeat split; reflexivity. Qed.

Example missing_key_fails :
  result_of (transform sample_lib (deepai_world 0)
               (mkConfig None (Some "") None None None) DeepAI [] "oil" 0.6%float "" fresh_env)
  = Ok (false, VStr "DeepAI API key not found. Add DEEPAI_API_KEY to .env file.")
  /\ result_of (transform sample_lib (deepai_world 0)
                  (mkConfig None (Some "") None None None) Leonardo [] "oil" 0.6%float ""
                  fresh_env)
     = Ok (false, VStr "Leonardo.ai API key not found. Add LEONARDO_API_KEY to .env file.").
Proof. split; reflexivity. Qed.

(** ** Reasoning rules for the monad *)

Section Rules.
Context {S : Type}.

Lemma returns_ret {A} (a : A) (P : A -> Prop) : P a -> returns (S:=S) (ret a) P.
Proof. intros H s. exact H. Qed.

Lemma returns_raise {A} (e : exn) (P : A -> Prop) : returns (S:=S) (raise e) P.
Proof. intros s. exact I. Qed.

Lemma returns_bind {A B} (m : M S A) (f : A -> M S B) (Q : A -> Prop) (P : B -> Prop) :
  returns m Q -> (forall a, Q a -> returns (f a) P) -> returns (bind m f) P.
Proof.
  intros Hm Hf s. specialize (Hm s). unfold bind, result_of in *.
  destruct (m s) as [[[a|e] s1] t1]; simpl in *; [|exact I].
  specialize (Hf a Hm s1). unfold result_of in Hf.
  destruct (f a s1) as [[r s2] t2]. exact Hf.
Qed.

Lemma returns_bind_any {A B} (m : M S A) (f : A -> M S B) (P : B -> Prop) :
  (forall a, returns (f a) P) -> returns (bind m f) P.
Proof.
  intros Hf. apply returns_bind with (Q := fun _ => True); [intros s|auto].
  unfold result_of. destruct (m s) as [[[a|e] s1] t1]; exact I.
Qed.

Lemma returns_try_catch {A} (m : M S A) (h : exn -> M S A) (P : A -> Prop) :
  returns m P -> (forall e, returns (h e) P) -> returns (try_catch m h) P.
Proof.
  intros Hm Hh s. specialize (Hm s). unfold try_catch, result_of in *.
  destruct (m s) as [[[a|e] s1] t1]; simpl in *; [exact Hm|].
  specialize (Hh e s1). unfold result_of in Hh.
  destruct (h e s1) as [[r s2] t2]. exact Hh.
Qed.





Lemma total_weaken {A} (m : M S A) (P Q : A -> Prop) :
  total m P -> (forall a, P a -> Q a) -> total m Q.
Proof. intros H HPQ s. destruct (H s) as (a & E & Ha). eauto. Qed.


Lemma emits_ret {A} (a : A) Q : emits_only (S:=S) (ret a) Q.
Proof. intros s. constructor. Qed.

Lemma emits_raise {A} (e : exn) Q : emits_only (S:=S) (A:=A) (raise e) Q.
Proof. intros s. constructor. Qed.

Lemma emits_lift_res {A} (r : res A) Q : emits_only (S:=S) (lift_res r) Q.
Proof. intros s. constructor. Qed.

Lemma emits_bind {A B} (m : M S A) (f : A -> M S B) Q :
  emits_only m Q -> (forall a, emits_only (f a) Q) -> emits_only (bind m f) Q.
Proof.
  intros Hm Hf s. specialize (Hm s). unfold bind, trace_of in *.
  destruct (m s) as [[[a|e] s1] t1]; simpl in *; [|exact Hm].
  specialize (Hf a s1). unfold trace_of in Hf.
  destruct (f a s1) as [[r s2] t2]. simpl in *.
  apply Forall_app. split; assumption.
Qed.

Lemma emits_try_catch {A} (m : M S A) (h : exn -> M S A) Q :
  emits_only m Q -> (forall e, emits_only (h e) Q) -> emits_only (try_catch m h) Q.
Proof.
  intros Hm Hh s. specialize (Hm s). unfold try_catch, trace_of in *.
  destruct (m s) as [[[a|e] s1] t1]; simpl in *; [exact Hm|].
  specialize (Hh e s1). unfold trace_of in Hh.
  destruct (h e s1) as [[r s2] t2]. simpl in *.
  apply Forall_app. split; assumption.
Qed.

Lemma emits_for_each {X R} (l : list X) (body : X -> M S (option R)) Q :
  (forall x, emits_only (body x) Q) -> emits_only (for_each l body) Q.
Proof.
  intros Hb. induction l as [|x l IH]; simpl.
  - apply emits_ret.
  - apply emits_bind; [apply Hb|]. intros [r|]; [apply emits_ret|exact IH].
Qed.
(** Running a [bind] whose first action is a known step. *)
Lemma bind_ret {A B} (a : A) (f : A -> M S B) s : bind (ret a) f s = f a s.
Proof. unfold bind, ret. destruct (f a s) as [[r s2] t2]. reflexivity. Qed.

Lemma bind_lift_ok {A B} (a : A) (f : A -> M S B) s :
  bind (lift_res (Ok a)) f s = f a s.
Proof. unfold bind, lift_res. destruct (f a s) as [[r s2] t2]. reflexivity. Qed.

Lemma bind_lift_raise {A B} (e : exn) (f : A -> M S B) s :
  bind (lift_res (Raise e)) f s = (Raise e, s, []).
Proof. reflexivity. Qed.


Lemma result_of_prefixed {A} t (x : res A * S * list event) :
  result_of (prefixed t x) = result_of x.
Proof. reflexivity. Qed.

Lemma trace_of_prefixed {A} t (x : res A * S * list event) :
  trace_of (prefixed t x) = t ++ trace_of x.
Proof. reflexivity. Qed.
End Rules.

Section CallRules.
Context {World : Type}.

Lemma emits_call {A} (ev : event) (o : World -> res A * World) (Q : event -> Prop) :
  Q ev -> emits_only (call ev o) Q.
Proof.
  intros H s. unfold call, trace_of. destruct (o (world s)) as [r w]. simpl.
  constructor; [exact H|constructor].
Qed.

Lemma emits_call_total {A} (ev : event) (o : World -> A * World) (Q : event -> Prop) :
  Q ev -> emits_only (call_total ev o) Q.
Proof.
  intros H s. unfold call_total, trace_of. destruct (o (world s)) as [r w]. simpl.
  constructor; [exact H|constructor].
Qed.

(** Running a [bind] whose first action is an external call. *)
Lemma bind_call {A B} (ev : event) (o : World -> res A * World) (f : A -> M (Env World) B) s :
  bind (call ev o) f s
  = match (o (world s)).1 with
    | Ok a =>
        let '(r, s2, t2) := f a (mkEnv (o (world s)).2 (_pipeline s) (_device s)) in
        (r, s2, ev :: t2)
    | Raise e => (Raise e, mkEnv (o (world s)).2 (_pipeline s) (_device s), [ev])
    end.
Proof.
  unfold bind, call. destruct (o (world s)) as [[a|e] w]; simpl; [|reflexivity].
  destruct (f a _) as [[r s2] t2]. reflexivity.
Qed.

Lemma bind_call_total {A B} (ev : event) (o : World -> A * World) (f : A -> M (Env World) B) s :
  bind (call_total ev o) f s
  = let '(r, s2, t2) := f (o (world s)).1 (mkEnv (o (world s)).2 (_pipeline s) (_device s)) in
    (r, s2, ev :: t2).
Proof.
  unfold bind, call_total. destruct (o (world s)) as [a w]; simpl.
  destruct (f a _) as [[r s2] t2]. reflexivity.
Qed.

(** The same two rules, with the continuation's run kept whole. *)
Lemma bind_call_run {A B} (ev : event) (o : World -> res A * World)
    (f : A -> M (Env World) B) s :
  bind (call ev o) f s
  = match (o (world s)).1 with
    | Ok a => prefixed [ev] (f a (mkEnv (o (world s)).2 (_pipeline s) (_device s)))
    | Raise e => (Raise e, mkEnv (o (world s)).2 (_pipeline s) (_device s), [ev])
    end.
Proof.
  rewrite bind_call. destruct (o (world s)).1; [|reflexivity].
  destruct (f a _) as [[r s2] t2]. reflexivity.
Qed.

Lemma bind_call_total_run {A B} (ev : event) (o : World -> A * World)
    (f : A -> M (Env World) B) s :
  bind (call_total ev o) f s
  = prefixed [ev] (f (o (world s)).1 (mkEnv (o (world s)).2 (_pipeline s) (_device s))).
Proof.
  rewrite bind_call_total. destruct (f _ _) as [[r s2] t2]. reflexivity.
Qed.

End CallRules.

(** Steps through a handler body: every [return] must satisfy the goal. *)
Ltac returns_step :=
  lazymatch goal with
  | |- returns (ret _) _ => apply returns_ret
  | |- returns (raise _) _ => apply returns_raise
  | |- returns (bind _ _) _ => apply returns_bind_any; intros
  | |- returns (try_catch _ _) _ => apply returns_try_catch; [|intros]
  | |- returns (if ?b then _ else _) _ => destruct b eqn:?
  | |- returns (match ?x with _ => _ end) _ => destruct x eqn:?
  end.

Ltac failure_message :=
  right; eexists; split; [reflexivity|];
  let H := fresh in intro H; cbn [String.append] in H; discriminate H.

(** Steps through a handler body: every external call must satisfy the goal. *)
Ltac emits_step :=
  lazymatch goal with
  | |- emits_only (ret _) _ => apply emits_ret
  | |- emits_only (raise _) _ => apply emits_raise
  | |- emits_only (lift_res _) _ => apply emits_lift_res
  | |- emits_only (bind _ _) _ => apply emits_bind; [|intros]
  | |- emits_only (try_catch _ _) _ => apply emits_try_catch; [|intros]
  | |- emits_only (for_each _ _) _ => apply emits_for_each; intros
  | |- emits_only (call _ _) _ => apply emits_call
  | |- emits_only (call_total _ _) _ => apply emits_call_total
  | |- emits_only (if ?b then _ else _) _ => destruct b eqn:?
  | |- emits_only (match ?x with _ => _ end) _ => destruct x eqn:?
  end.

Lemma one_outcome_success image : one_outcome (true, VImage image).
Proof.
  split; [left; eexists; reflexivity|].
  intros [_ (m & E & _)]. discriminate E.
Qed.

Lemma one_outcome_failure message : message <> "" -> one_outcome (false, VStr message).
Proof.
  intros H. split; [right; eexists; split; [reflexivity|exact H]|].
  intros [(i & E) _]. discriminate E.
Qed.

Ltac outcome :=
  first
    [ apply one_outcome_success
    | apply one_outcome_failure;
      let H := fresh in intro H; cbn [String.append] in H; discriminate H ].















(** ** The adapter contract *)



Example deepai_sample_run :
  result_of (transform sample_lib (deepai_world 2) sample_cfg DeepAI [] "oil painting"
                       0.6%float "" fresh_env) = Ok (true, VImage sample_image).
Proof. vm_compute. reflexivity. Qed.

(** ** Order of binary64 numbers *)




(** ** DeepAI: strength folded into the prompt *)





(** ** Stability AI: the inverted strength *)





(** ** Replicate: the model input and the output shapes *)

(** C7 (the claim fails on the code). The input handed to [replicate.run]
    does not depend on [strength]: its [guidance_scale] is the constant 7.5,
    and two calls that differ in strength only, such as 0.3 and 0.9, run
    identically. *)
Theorem replicate_payload_ignores_strength :
  forall (World : Type) (lib : Lib) (ext : Ext World) (cfg : Config)
         (image_bytes : bytes) (prompt negative_prompt : string)
         (strength1 strength2 : float) (s : Env World),
    replicate_api_handler.input_params lib image_bytes prompt strength1
    = replicate_api_handler.input_params lib image_bytes prompt strength2
    /\ replicate_api_handler.input_params lib image_bytes prompt strength1 !! "guidance_scale"
       = Some (VFloat 7.5)
    /\ replicate_api_handler.transform_image lib ext cfg image_bytes prompt strength1
         negative_prompt s
       = replicate_api_handler.transform_image lib ext cfg image_bytes prompt strength2
           negative_prompt s
    /\ trace_of (replicate_api_handler.transform_image sample_lib
                   (replicate_world (VImage sample_image)) sample_cfg [] "oil painting"
                   0.3%float "" fresh_env)
       = trace_of (replicate_api_handler.transform_image sample_lib
                     (replicate_world (VImage sample_image)) sample_cfg [] "oil painting"
                     0.9%float "" fresh_env).
Proof.
  intros. repeat split; reflexivity.
Qed.

Lemma replicate_normalizes {World} lib (ext : Ext World) cfg image_bytes prompt strength
    negative_prompt (s : Env World) token output w1 url image download w2 :
  key_of (REPLICATE_API_TOKEN cfg) = Some token ->
  replicate_run ext replicate_api_handler.MODEL
    (replicate_api_handler.input_params lib image_bytes prompt strength) (world s)
  = (Ok output, w1) ->
  requests_get ext (plain_get (VStr url)) w1 = (Ok download, w2) ->
  Image_open lib (content download) = Ok image ->
  stands_for url image output ->
  result_of (replicate_api_handler.transform_image lib ext cfg image_bytes prompt strength
               negative_prompt s)
  = Ok (true, VImage image).
Proof.
  intros Hkey Hrun Hget Hopen Hshape.
  unfold replicate_api_handler.transform_image. rewrite Hkey.
  unfold try_catch, bind at 1, call, result_of. rewrite Hrun. simpl.
  unfold replicate_api_handler.process_output, replicate_api_handler.download.
  destruct Hshape as [-> | [-> | [(rest & ->) | (rest & ->)]]];
    unfold bind, get, call, lift_res, ret; simpl;
    rewrite ?Hget; simpl; rewrite ?Hopen; reflexivity.
Qed.

(** C9. When the Replicate backend answers with a URL string, with an image
    object, or with a non-empty list whose first element is either, and the
    URL downloads to bytes that decode to that same image, [transform_image]
    returns the one result [(True, image)] for all of these shapes. *)
Theorem replicate_output_normalized :
  forall (World : Type) (lib : Lib) (ext : Ext World) (cfg : Config)
         (image_bytes : bytes) (prompt : string) (strength : float)
         (negative_prompt : string) (s : Env World)
         (token : string) (output : pyval) (w1 : World)
         (url : string) (image : Image) (download : response) (w2 : World),
    key_of (REPLICATE_API_TOKEN cfg) = Some token ->
    replicate_run ext replicate_api_handler.MODEL
      (replicate_api_handler.input_params lib image_bytes prompt strength) (world s)
    = (Ok output, w1) ->
    requests_get ext (plain_get (VStr url)) w1 = (Ok download, w2) ->
    Image_open lib (content download) = Ok image ->
    stands_for url image output ->
    result_of (replicate_api_handler.transform_image lib ext cfg image_bytes prompt strength
                 negative_prompt s)
    = Ok (true, VImage image).
Proof.
  intros. eapply replicate_normalizes; eassumption.
Qed.

Lemma replicate_output_normalized_witness :
  result_of (replicate_api_handler.transform_image sample_lib
               (replicate_world (VList [ VStr "https://replicate.delivery/out.png" ]))
               sample_cfg [] "oil painting" 0.6%float "" fresh_env)
  = Ok (true, VImage sample_image).
Proof.
  apply (replicate_output_normalized nat sample_lib
           (replicate_world (VList [ VStr "https://replicate.delivery/out.png" ]))
           sample_cfg [] "oil painting" 0.6%float "" fresh_env
           "r8_token_0123456789" (VList [ VStr "https://replicate.delivery/out.png" ]) 0%nat
           "https://replicate.delivery/out.png" sample_image
           (mkResponse 200 "" [] (Some "image/png") (Raise (Exn RequestException "not JSON")))
           1%nat).
  - reflexivity.
  - reflexivity.
  - reflexivity.
  - reflexivity.
  - right. right. left. exists []. reflexivity.
Defined.


(** ** Leonardo.ai: the polling loop *)

Section PollFacts.
Context {World : Type} (lib : Lib) (ext : Ext World) (key : string) (generation_id : pyval).

Local Abbreviation poll := (leonardo_api_handler.poll lib ext key generation_id).
Local Abbreviation status_request :=
  (leonardo_api_handler.status_request lib key generation_id).
Local Abbreviation after := (after_tick lib ext key generation_id).
Local Abbreviation read := (read_of lib ext key generation_id).


(** One iteration of the loop, by what the status read shows. *)
Lemma poll_step (n : nat) (s : Env World) :
  match observed (read s) with
  | JobPending =>
      poll (S n) s
      = let '(r, s', t) := poll n (after s) in (r, s', tick lib key generation_id ++ t)
  | JobFailed =>
      poll (S n) s
      = (Ok leonardo_api_handler.FAILED_result, after s, tick lib key generation_id)
  | JobComplete =>
      exists generation_info,
        poll (S n) s
        = let '(r, s', t) :=
            leonardo_api_handler.fetch_completed lib ext generation_info (after s) in
          (r, s', tick lib key generation_id ++ t)
  | JobUnreadable =>
      exists e, poll (S n) s = (Raise e, after s, tick lib key generation_id)
  end.
Proof.
  unfold read_of, after_tick, observed. simpl.
  unfold sleep, get. rewrite bind_call_total, bind_call. simpl.
  destruct (requests_get ext status_request (time_sleep ext 2 (world s))) as [[resp|e] w2];
    simpl; [|eexists; reflexivity].
  destruct (negb (status_code resp =? 200)).
  { destruct (poll n _) as [[r s'] t]. reflexivity. }
  destruct (json_body resp) as [status_data|e];
    [rewrite bind_lift_ok|rewrite bind_lift_raise; eexists; reflexivity].
  destruct (py_get status_data "generations_by_pk" (VDict [])) as [generation_info|e];
    [rewrite bind_lift_ok|rewrite bind_lift_raise; eexists; reflexivity].
  destruct (py_get generation_info "status" VNone) as [status|e];
    [rewrite bind_lift_ok|rewrite bind_lift_raise; eexists; reflexivity].
  destruct (is_str status "COMPLETE").
  { exists generation_info.
    destruct (leonardo_api_handler.fetch_completed _ _ _ _) as [[r s'] t]. reflexivity. }
  destruct (is_str status "FAILED"); [reflexivity|].
  destruct (poll n _) as [[r s'] t]. reflexivity.
Qed.


(** After COMPLETE, at most the download follows. *)
Lemma fetch_completed_trace generation_info (s : Env World) :
  trace_of (leonardo_api_handler.fetch_completed lib ext generation_info s) = []
  \/ exists url,
       trace_of (leonardo_api_handler.fetch_completed lib ext generation_info s)
       = [ EvHttpGet (plain_get url) ].
Proof.
  unfold leonardo_api_handler.fetch_completed, trace_of, bind, lift_res, ret, get, call.
  destruct (py_get generation_info "generated_images" (VList [])) as [images|e]; simpl; auto.
  destruct (negb (truthy images)); simpl; auto.
  destruct (py_index0 images) as [first|e]; simpl; auto.
  destruct (py_get first "url" VNone) as [image_url|e]; simpl; auto.
  destruct (negb (truthy image_url)); simpl; auto.
  destruct (py_slice_check image_url) as [[]|e]; simpl; auto.
  right. exists image_url.
  destruct (requests_get ext (plain_get image_url) (world s)) as [[image_response|e] w];
    simpl; auto.
  destruct (negb (status_code image_response =? 200)); simpl; auto.
  destruct (Image_open lib (content image_response)); reflexivity.
Qed.

(** Every run of the loop is some ticks, at most [remaining] of them,
    followed by at most one download. *)
Lemma poll_trace (remaining : nat) (s : Env World) :
  exists k tail,
    trace_of (poll remaining s) = ticks lib key generation_id k ++ tail
    /\ (k <= remaining)%nat
    /\ (tail = [] \/ exists url, tail = [ EvHttpGet (plain_get url) ]).
Proof.
  revert s. induction remaining as [|n IH]; intros s.
  - exists 0%nat, []. simpl. auto.
  - pose proof (poll_step n s) as Hstep.
    destruct (observed (read s)).
    + rewrite Hstep. destruct (IH (after s)) as (k & tail & Ht & Hk & Htail).
      destruct (poll n (after s)) as [[r s'] t]. unfold trace_of in *. simpl in *.
      exists (S k), tail. subst t. simpl. split; [reflexivity|]. split; [lia|exact Htail].
    + destruct Hstep as (info & ->).
      pose proof (fetch_completed_trace info (after s)) as Htail.
      destruct (leonardo_api_handler.fetch_completed _ _ _ _) as [[r s'] t].
      unfold trace_of in *. simpl in *.
      exists 1%nat, t. simpl. split; [reflexivity|]. split; [lia|exact Htail].
    + rewrite Hstep. exists 1%nat, []. unfold trace_of. simpl.
      split; [reflexivity|]. split; [lia|auto].
    + destruct Hstep as (e & ->). exists 1%nat, []. unfold trace_of. simpl.
      split; [reflexivity|]. split; [lia|auto].
Qed.


End PollFacts.



(** ** The local adapter: clearing the device cache *)

Lemma cache_clears_app (t1 t2 : list event) :
  cache_clears (t1 ++ t2) = (cache_clears t1 + cache_clears t2)%nat.
Proof. unfold cache_clears. rewrite List.filter_app, length_app. reflexivity. Qed.

Lemma cache_clears_none (t : list event) :
  Forall (fun ev => is_cache_clear ev = false) t -> cache_clears t = 0%nat.
Proof.
  unfold cache_clears. induction 1 as [|ev t Hev _ IH]; [reflexivity|].
  simpl. rewrite Hev. exact IH.
Qed.

Section RunFacts.
Context {S : Type}.

(** A [bind] that returns ran both parts, one after the other. *)
Lemma bind_ok {A B} (m : M S A) (f : A -> M S B) (s : S) (b : B) :
  result_of (bind m f s) = Ok b ->
  exists a,
    result_of (m s) = Ok a
    /\ result_of (f a (state_of (m s))) = Ok b
    /\ trace_of (bind m f s) = trace_of (m s) ++ trace_of (f a (state_of (m s)))
    /\ state_of (bind m f s) = state_of (f a (state_of (m s))).
Proof.
  unfold bind, result_of, trace_of, state_of.
  destruct (m s) as [[[a|e] s1] t1]; simpl; [|discriminate].
  destruct (f a s1) as [[r s2] t2] eqn:E. simpl. intros ->.
  exists a. rewrite E. simpl. auto.
Qed.

(** A [try] that returns did so from its body or from a handler. *)
Lemma try_catch_ok {A} (m : M S A) (h : exn -> M S A) (s : S) (a : A) :
  result_of (try_catch m h s) = Ok a ->
  (result_of (m s) = Ok a /\ trace_of (try_catch m h s) = trace_of (m s))
  \/ (exists e, result_of (m s) = Raise e /\ result_of (h e (state_of (m s))) = Ok a).
Proof.
  unfold try_catch, result_of, trace_of, state_of.
  destruct (m s) as [[[a'|e] s1] t1]; simpl; [intros ->; auto|].
  destruct (h e s1) as [[r s2] t2] eqn:E. simpl. intros ->. right.
  exists e. rewrite E. auto.
Qed.

(** What the continuation emits may depend on the value it is given. *)
Lemma emits_bind_value {A B} (m : M S A) (f : A -> M S B) (Q : event -> Prop) :
  emits_only m Q ->
  (forall a, (exists s, result_of (m s) = Ok a) -> emits_only (f a) Q) ->
  emits_only (bind m f) Q.
Proof.
  intros Hm Hf s. specialize (Hm s). unfold bind, trace_of in *.
  destruct (m s) as [[[a|e] s1] t1] eqn:E; simpl in *; [|exact Hm].
  assert (Ha : exists s, result_of (m s) = Ok a) by (exists s; rewrite E; reflexivity).
  specialize (Hf a Ha s1). unfold trace_of in Hf.
  destruct (f a s1) as [[r s2] t2]. simpl in *.
  apply Forall_app. split; assumption.
Qed.
End RunFacts.

Section LocalFacts.
Context {World : Type} (lib : Lib) (ext : Ext World).

Lemma emits_globals Q : emits_only (local_inference_handler.globals (World:=World)) Q.
Proof. intros s. constructor. Qed.

Lemma emits_set_pipeline p Q :
  emits_only (local_inference_handler.set_pipeline (World:=World) p) Q.
Proof. intros s. constructor. Qed.

Lemma emits_set_device d Q :
  emits_only (local_inference_handler.set_device (World:=World) d) Q.
Proof. intros s. constructor. Qed.

Lemma load_pipeline_emits (Q : event -> Prop) :
  Q EvCudaIsAvailable ->
  (forall model device, Q (EvFromPretrained model device)) ->
  (forall p device, Q (EvPipelineTo p device)) ->
  (forall p, Q (EvEnableAttentionSlicing p)) ->
  (forall p, Q (EvEnableVaeSlicing p)) ->
  emits_only (local_inference_handler.load_pipeline ext) Q.
Proof.
  intros Q1 Q2 Q3 Q4 Q5.
  unfold local_inference_handler.load_pipeline, local_inference_handler.get_device,
    local_inference_handler.is_available.
  repeat first
    [ apply emits_globals | apply emits_set_pipeline | apply emits_set_device
    | emits_step ]; auto.
Qed.

Lemma load_pipeline_no_clear (s : Env World) :
  cache_clears (trace_of (local_inference_handler.load_pipeline ext s)) = 0%nat.
Proof.
  apply cache_clears_none. apply load_pipeline_emits; reflexivity.
Qed.

Lemma is_available_run (s : Env World) :
  local_inference_handler.is_available ext s
  = (Ok (cuda_is_available ext (world s)).1,
     mkEnv (cuda_is_available ext (world s)).2 (_pipeline s) (_device s),
     [ EvCudaIsAvailable ]).
Proof.
  unfold local_inference_handler.is_available, call_total.
  destruct (cuda_is_available ext (world s)). reflexivity.
Qed.

(** With no CUDA device the cache is never touched. *)
Lemma local_cpu_no_clear image_bytes prompt strength negative_prompt (s : Env World) :
  (forall w, (cuda_is_available ext w).1 = false) ->
  cache_clears
    (trace_of (local_inference_handler.transform_image lib ext image_bytes prompt strength
                 negative_prompt s)) = 0%nat.
Proof.
  intros Hcpu. apply cache_clears_none. revert s.
  change (emits_only
            (local_inference_handler.transform_image lib ext image_bytes prompt strength
               negative_prompt)
            (fun ev => is_cache_clear ev = false)).
  unfold local_inference_handler.transform_image.
  apply emits_try_catch; [|intros; repeat emits_step].
  apply emits_bind; [apply load_pipeline_emits; reflexivity|]. intros pipeline.
  do 3 (apply emits_bind; [apply emits_lift_res|]; intros).
  apply emits_bind; [apply emits_call; reflexivity|]. intros images.
  do 2 (apply emits_bind; [apply emits_lift_res|]; intros).
  apply emits_bind_value.
  { unfold local_inference_handler.is_available. apply emits_call_total. reflexivity. }
  intros available (s & Hs). rewrite is_available_run in Hs.
  unfold result_of in Hs. simpl in Hs. rewrite Hcpu in Hs. injection Hs as <-.
  repeat emits_step.
Qed.

(** On a CUDA machine a successful call ends with the inference, the
    availability test and one [empty_cache]. *)
Lemma local_cuda_success image_bytes prompt strength negative_prompt (s : Env World) image :
  (forall w, (cuda_is_available ext w).1 = true) ->
  result_of (local_inference_handler.transform_image lib ext image_bytes prompt strength
               negative_prompt s) = Ok (true, image) ->
  cache_clears (trace_of (local_inference_handler.transform_image lib ext image_bytes prompt
                            strength negative_prompt s)) = 1%nat
  /\ exists before pipeline k,
       cache_clears before = 0%nat
       /\ trace_of (local_inference_handler.transform_image lib ext image_bytes prompt
                      strength negative_prompt s)
          = before ++ [ EvPipelineCall pipeline k; EvCudaIsAvailable; EvEmptyCache ].
Proof.
  intros Hcuda Hok.
  unfold local_inference_handler.transform_image in *.
  apply try_catch_ok in Hok. destruct Hok as [[Hbody ->] | (e & _ & Hh)].
  2:{ exfalso. revert Hh. unfold result_of.
      destruct (isinstance_exn e ExceptRuntimeError); [destruct (str_in _ _)|]; discriminate. }
  apply bind_ok in Hbody. destruct Hbody as (pipeline & _ & Hbody & -> & _).
  pose proof (load_pipeline_no_clear s) as Hload.
  remember (state_of (local_inference_handler.load_pipeline ext s)) as s1 eqn:E1.
  remember (trace_of (local_inference_handler.load_pipeline ext s)) as t0 eqn:E0.
  clear E1 E0.
  destruct (Image_open lib image_bytes) as [img1|e];
    [rewrite bind_lift_ok in *|rewrite bind_lift_raise in Hbody; discriminate Hbody].
  destruct (Image_convert lib img1 "RGB") as [img2|e];
    [rewrite bind_lift_ok in *|rewrite bind_lift_raise in Hbody; discriminate Hbody].
  destruct (local_inference_handler.shrink lib img2) as [img3|e];
    [rewrite bind_lift_ok in *|rewrite bind_lift_raise in Hbody; discriminate Hbody].
  set (k := local_inference_handler.inference_call img3 prompt strength negative_prompt) in *.
  rewrite bind_call_run in *.
  destruct (run_pipeline ext pipeline k (world s1)) as [[images|e] w2]; cbn [fst snd] in *;
    [|discriminate Hbody].
  rewrite result_of_prefixed in Hbody. rewrite trace_of_prefixed.
  set (s2 := mkEnv w2 (_pipeline s1) (_device s1)) in *. clearbody s2.
  destruct (py_index0 (VList images)) as [output_image|e];
    [rewrite bind_lift_ok in *|rewrite bind_lift_raise in Hbody; discriminate Hbody].
  destruct (py_size_mode_check output_image) as [[]|e];
    [rewrite bind_lift_ok in *|rewrite bind_lift_raise in Hbody; discriminate Hbody].
  unfold local_inference_handler.is_available in *.
  rewrite bind_call_total_run in *. rewrite Hcuda in *.
  rewrite result_of_prefixed in Hbody. rewrite trace_of_prefixed.
  rewrite bind_call_run in *.
  destruct (empty_cache ext _) as [[[]|e] w3]; cbn [fst snd] in *;
    [|discriminate Hbody].
  rewrite trace_of_prefixed. unfold ret, trace_of. simpl.
  split.
  - rewrite cache_clears_app, Hload. reflexivity.
  - exists t0, pipeline, k. split; [exact Hload|reflexivity].
Qed.
End LocalFacts.


(** C8, as amended. A call of the local adapter that returns [(True, image)]
    on a machine where CUDA is available has cleared the device memory
    cache exactly once, as its last action, after the inference; where CUDA
    is not available no call ever clears the cache. *)
Theorem local_cache_cleared_on_success :
  forall (World : Type) (lib : Lib) (ext : Ext World) (image_bytes : bytes)
         (prompt : string) (strength : float) (negative_prompt : string) (s : Env World),
    let run :=
      local_inference_handler.transform_image lib ext image_bytes prompt strength
        negative_prompt s in
    (forall image,
        (forall w, (cuda_is_available ext w).1 = true) ->
        result_of run = Ok (true, image) ->
        cache_clears (trace_of run) = 1%nat
        /\ exists before pipeline k,
             cache_clears before = 0%nat
             /\ trace_of run
                = before ++ [ EvPipelineCall pipeline k; EvCudaIsAvailable; EvEmptyCache ])
    /\ ((forall w, (cuda_is_available ext w).1 = false) ->
        cache_clears (trace_of run) = 0%nat).
Proof.
  intros World lib ext image_bytes prompt strength negative_prompt s run. subst run.
  split.
  - intros image Hcuda Hok. eapply local_cuda_success; eassumption.
  - apply local_cpu_no_clear.
Qed.

Lemma local_cache_cleared_on_success_witness :
  cache_clears
    (trace_of (local_inference_handler.transform_image sample_lib
                 (gpu_world (Ok [ VImage sample_image ]) true) [] "oil painting" 0.6%float ""
                 fresh_env)) = 1%nat.
Proof.
  apply (proj1 (local_cache_cleared_on_success nat sample_lib
                  (gpu_world (Ok [ VImage sample_image ]) true) [] "oil painting" 0.6%float ""
                  fresh_env) (VImage sample_image)).
  - intros w. reflexivity.
  - vm_compute. reflexivity.
Defined.

(** C8 as stated fails: when the inference runs out of memory on a CUDA
    machine, and likewise when it raises any other error, [transform_image]
    returns its failure without a single [empty_cache]; and a successful
    call on a machine without CUDA does not clear the cache either. *)
Lemma local_cache_not_always_cleared :
  (let run :=
     local_inference_handler.transform_image sample_lib
       (gpu_world (Raise out_of_memory) true) [] "oil painting" 0.6%float "" fresh_env in
   result_of run
   = Ok (false, VStr "Insufficient GPU memory. Try a smaller image or lower the strength value.")
   /\ cache_clears (trace_of run) = 0%nat
   /\ cache_clears (trace_of run) <> 1%nat)
  /\ (let run :=
        local_inference_handler.transform_image sample_lib
          (gpu_world (Raise (Exn OtherException "cannot identify image file")) true)
          [] "oil painting" 0.6%float "" fresh_env in
      result_of run = Ok (false, VStr "Local inference error: cannot identify image file")
      /\ cache_clears (trace_of run) = 0%nat
      /\ cache_clears (trace_of run) <> 1%nat)
  /\ (let run :=
        local_inference_handler.transform_image sample_lib
          (gpu_world (Ok [ VImage sample_image ]) false)
          [] "oil painting" 0.6%float "" fresh_env in
      result_of run = Ok (true, VImage sample_image)
      /\ cache_clears (trace_of run) = 0%nat
      /\ cache_clears (trace_of run) <> 1%nat).
Proof.
  split; [|split]; vm_compute; (split; [reflexivity|]); (split; [reflexivity|discriminate]).
Qed.

(** ** What the handler modules may call *)

Section AdapterEvents.
Context {World : Type} (lib : Lib) (ext : Ext World) (cfg : Config).

Ltac adapter_calls :=
  unfold post, get, sleep;
  repeat first
    [ apply emits_globals | apply emits_set_pipeline | apply emits_set_device
    | emits_step ];
  try exact I.

Lemma poll_adapter_events key generation_id remaining :
  emits_only (leonardo_api_handler.poll lib ext key generation_id remaining) adapter_event.
Proof.
  induction remaining as [|n IH]; simpl; [apply emits_ret|].
  unfold leonardo_api_handler.fetch_completed.
  unfold post, get, sleep.
  repeat first [ exact IH | emits_step ]; try exact I.
Qed.

Lemma adapter_events_only (b : backend) image_bytes prompt strength negative_prompt :
  emits_only (transform lib ext cfg b image_bytes prompt strength negative_prompt)
             adapter_event.
Proof.
  destruct b; simpl.
  - unfold local_inference_handler.transform_image.
    apply emits_try_catch; [|intros; adapter_calls].
    apply emits_bind; [apply load_pipeline_emits; intros; exact I|]. intros.
    unfold local_inference_handler.is_available. adapter_calls.
  - unfold deepai_api_handler.transform_image. adapter_calls.
  - unfold hf_api_handler.transform_image, hf_api_handler.method1,
      hf_api_handler.try_model, hf_api_handler.try_direct. adapter_calls.
  - unfold leonardo_api_handler.transform_image.
    unfold post, get, sleep.
    repeat first [ apply poll_adapter_events | emits_step ]; try exact I.
  - unfold replicate_api_handler.transform_image, replicate_api_handler.process_output,
      replicate_api_handler.download. adapter_calls.
  - unfold stability_ai_handler.transform_image. adapter_calls.
Qed.
End AdapterEvents.


(** ** The variation loop *)

Lemma returns_in_app (t1 t2 : list event) :
  returns_in (t1 ++ t2) = returns_in t1 ++ returns_in t2.
Proof. apply omap_app. Qed.

Lemma ui_in_app (t1 t2 : list event) : ui_in (t1 ++ t2) = ui_in t1 ++ ui_in t2.
Proof. apply omap_app. Qed.

Lemma calls_in_app (t1 t2 : list event) :
  calls_in (t1 ++ t2) = (calls_in t1 + calls_in t2)%nat.
Proof. unfold calls_in. rewrite List.filter_app, length_app. reflexivity. Qed.

(** The calls of a handler module leave no mark in the three readings. *)
Lemma adapter_trace_silent (t : list event) :
  Forall adapter_event t ->
  returns_in t = [] /\ calls_in t = 0%nat /\ ui_in t = [].
Proof.
  induction 1 as [|ev t Hev _ (IH1 & IH2 & IH3)]; [auto|].
  unfold returns_in, ui_in, calls_in in *.
  destruct ev; simpl in *; try contradiction; rewrite ?IH1, ?IH3; auto.
Qed.

Section AppFacts.
Context {World : Type} (lib : Lib) (ext : Ext World) (cfg : Config).

Lemma bind_ui {B} (u : ui_event) (f : unit -> M (App World) B) (s : App World) :
  bind (app.ui ext u) f s
  = prefixed [EvUi u] (f tt (with_world s (st_ui ext u (world (env s))))).
Proof.
  unfold bind, app.ui, app.in_env, call_total, prefixed, with_world. simpl.
  destruct (f tt _) as [[r s2] t2]. reflexivity.
Qed.

Lemma bind_world {A B} (ev : event) (o : World -> A * World) (f : A -> M (App World) B)
    (s : App World) :
  bind (app.in_env (call_total ev o)) f s
  = prefixed [ev] (f (o (world (env s))).1 (with_world s (o (world (env s))).2)).
Proof.
  unfold bind, app.in_env, call_total, prefixed, with_world.
  destruct (o (world (env s))) as [a w]. simpl.
  destruct (f a _) as [[r s2] t2]. reflexivity.
Qed.

Lemma bind_session_set {B} (g : session -> session) (f : unit -> M (App World) B)
    (s : App World) :
  bind (app.session_set g) f s = f tt (mkApp (env s) (g (session_state s))).
Proof.
  unfold bind, app.session_set. destruct (f tt _) as [[r s2] t2]. reflexivity.
Qed.

Lemma bind_invoke {B} (handler : app.Handler) platform_name image_bytes prompt strength
    negative_prompt (f : bool * pyval -> M (App World) B) (s : App World) :
  let x := handler image_bytes prompt strength negative_prompt (env s) in
  bind (app.invoke handler platform_name image_bytes prompt strength negative_prompt) f s
  = match result_of x with
    | Ok outcome =>
        prefixed (invocation platform_name image_bytes prompt strength negative_prompt x)
                 (f outcome (mkApp (state_of x) (session_state s)))
    | Raise e =>
        (Raise e, mkApp (state_of x) (session_state s),
         invocation platform_name image_bytes prompt strength negative_prompt x)
    end.
Proof.
  unfold bind, app.invoke, prefixed, invocation, result_of, state_of, trace_of.
  destruct (handler _ _ _ _ _) as [[[outcome|e] e1] t]; simpl; [|reflexivity].
  destruct (f outcome _) as [[r s2] t2]. reflexivity.
Qed.

Lemma invocation_readings platform_name image_bytes prompt strength negative_prompt
    (x : res (bool * pyval) * Env World * list event) :
  Forall adapter_event (trace_of x) ->
  returns_in (invocation platform_name image_bytes prompt strength negative_prompt x)
  = [ result_of x ]
  /\ calls_in (invocation platform_name image_bytes prompt strength negative_prompt x) = 1%nat
  /\ ui_in (invocation platform_name image_bytes prompt strength negative_prompt x) = [].
Proof.
  intros H. destruct (adapter_trace_silent _ H) as (H1 & H2 & H3).
  unfold invocation. rewrite !returns_in_app, !calls_in_app, !ui_in_app, H1, H2, H3.
  auto.
Qed.
End AppFacts.

(** ** Rules for runs of the application *)

Section Yields.
Context {World : Type} (lib : Lib) (ext : Ext World).

Lemma yields_weaken {A} ss (m : M (App World) A) (P Q : res A -> session -> list event -> Prop) :
  yields ss m P -> (forall r ss' t, P r ss' t -> Q r ss' t) -> yields ss m Q.
Proof. intros H HPQ s Hs. apply HPQ, H, Hs. Qed.

Lemma yields_ret {A} ss (a : A) (post : res A -> session -> list event -> Prop) :
  post (Ok a) ss [] -> yields (World:=World) ss (ret a) post.
Proof. intros H s <-. exact H. Qed.

Lemma yields_lift_res {A B} ss (r : res A) (f : A -> M (App World) B) post :
  (forall a, r = Ok a -> yields ss (f a) post) ->
  (forall e, r = Raise e -> post (Raise e) ss []) ->
  yields ss (bind (lift_res r) f) post.
Proof.
  intros Hok Hraise s Hs. destruct r as [a|e].
  - rewrite bind_lift_ok. apply (Hok a eq_refl s Hs).
  - rewrite bind_lift_raise. subst ss. apply (Hraise e eq_refl).
Qed.

Lemma yields_ui {B} ss (u : ui_event) (f : unit -> M (App World) B) post :
  yields ss (f tt) (fun r ss' t => post r ss' (EvUi u :: t)) ->
  yields ss (bind (app.ui ext u) f) post.
Proof. intros H s Hs. rewrite bind_ui. apply (H (with_world s _)). exact Hs. Qed.

Lemma yields_world {A B} ss (ev : event) (o : World -> A * World)
    (f : A -> M (App World) B) post :
  (forall a, yields ss (f a) (fun r ss' t => post r ss' (ev :: t))) ->
  yields ss (bind (app.in_env (call_total ev o)) f) post.
Proof. intros H s Hs. rewrite bind_world. apply (H _ (with_world s _)). exact Hs. Qed.

Lemma yields_session_set {B} ss (g : session -> session) (f : unit -> M (App World) B) post :
  yields (g ss) (f tt) post -> yields ss (bind (app.session_set g) f) post.
Proof. intros H s Hs. rewrite bind_session_set. apply H. simpl. rewrite Hs. reflexivity. Qed.

Lemma yields_invoke {B} ss (handler : app.Handler) platform_name image_bytes prompt strength
    negative_prompt (f : bool * pyval -> M (App World) B) post :
  (forall e, Forall adapter_event
               (trace_of (handler image_bytes prompt strength negative_prompt e))) ->
  (forall th outcome, Forall adapter_event th ->
     yields ss (f outcome)
       (fun r ss' t =>
          post r ss'
            ([ EvTransformImage platform_name image_bytes prompt strength negative_prompt ]
             ++ th ++ [ EvTransformReturned (Ok outcome) ] ++ t))) ->
  (forall th e, Forall adapter_event th ->
     post (Raise e) ss
       ([ EvTransformImage platform_name image_bytes prompt strength negative_prompt ]
        ++ th ++ [ EvTransformReturned (Raise e) ])) ->
  yields ss (bind (app.invoke handler platform_name image_bytes prompt strength
                     negative_prompt) f) post.
Proof.
  intros Hh Hok Hraise s Hs. rewrite bind_invoke.
  specialize (Hh (env s)).
  destruct (handler image_bytes prompt strength negative_prompt (env s)) as [[[o|e] e1] th].
  - unfold result_of, state_of, trace_of, invocation, prefixed in *. simpl in *.
    specialize (Hok th o Hh (mkApp e1 (session_state s)) Hs).
    unfold result_of, state_of, trace_of in Hok. simpl in Hok.
    rewrite <- app_assoc. exact Hok.
  - unfold result_of, state_of, trace_of, invocation in *. simpl in *.
    subst ss. apply Hraise, Hh.
Qed.

Lemma yields_try_catch {A} ss (m : M (App World) A) (h : exn -> M (App World) A) post :
  yields ss m
    (fun r ss' t =>
       match r with
       | Ok a => post (Ok a) ss' t
       | Raise e => yields ss' (h e) (fun r2 ss2 t2 => post r2 ss2 (t ++ t2))
       end) ->
  yields ss (try_catch m h) post.
Proof.
  intros H s Hs. specialize (H s Hs). unfold try_catch, result_of, state_of, trace_of in *.
  destruct (m s) as [[[a|e] s1] t1]; simpl in *; [exact H|].
  specialize (H s1 eq_refl). unfold result_of, state_of, trace_of in H.
  destruct (h e s1) as [[r s2] t2]. exact H.
Qed.
End Yields.

(** ** The loop over the variations *)

Section LoopFacts.
Context {World : Type} (lib : Lib) (ext : Ext World).

Lemma loop_summary_raise a len acc e :
  loop_summary lib a len acc (Raise e) [].
Proof.
  exists [], []. simpl. split; [reflexivity|]. split; [reflexivity|].
  split; [auto|constructor].
Qed.

(** One more successful variation in front of the rest of the loop. *)
Lemma loop_summary_success a len acc r t progress th platform_name image_bytes prompt
    strength negative_prompt result :
  Forall adapter_event th ->
  is_report progress ->
  loop_summary lib (S a) len (acc ++ [ result ]) r t ->
  loop_summary lib a (S len) acc r
    (EvUi progress :: EvRandint 1 2147483647
     :: [ EvTransformImage platform_name image_bytes prompt strength negative_prompt ]
        ++ th ++ [ EvTransformReturned (Ok (true, result)) ] ++ t).
Proof.
  intros Hth Hp (images & tail & Hr & Hc & Hcase).
  destruct (adapter_trace_silent th Hth) as (H1 & H2 & H3).
  exists (result :: images), tail.
  change (EvUi progress :: EvRandint 1 2147483647
          :: [EvTransformImage platform_name image_bytes prompt strength negative_prompt]
             ++ th ++ [EvTransformReturned (Ok (true, result))] ++ t)
    with ([EvUi progress; EvRandint 1 2147483647;
           EvTransformImage platform_name image_bytes prompt strength negative_prompt]
          ++ th ++ [EvTransformReturned (Ok (true, result))] ++ t).
  rewrite !returns_in_app, !calls_in_app, !ui_in_app, H1, H2, H3, Hr, Hc.
  split; [reflexivity|]. split; [reflexivity|].
  destruct r as [[out|]|e].
  - destruct Hcase as (-> & -> & Hlen & Hui).
    split; [reflexivity|]. split; [rewrite <- app_assoc; reflexivity|].
    split; [simpl; lia|]. simpl. constructor; assumption.
  - destruct Hcase as (res & reports & -> & Hlen & Hui & Hrep).
    exists res, (progress :: reports).
    split; [reflexivity|]. split; [simpl; lia|].
    split; [|constructor; assumption].
    simpl. rewrite Hui. replace (a + S (length images))%nat with (S a + length images)%nat by lia.
    reflexivity.
  - destruct Hcase as (Htail & Hui). split; [exact Htail|].
    simpl. constructor; assumption.
Qed.

Lemma variations_yields (handler : app.Handler) platform_name image_bytes prompt strength
    negative_prompt num_variations :
  (forall e, Forall adapter_event
               (trace_of (handler image_bytes prompt strength negative_prompt e))) ->
  forall len a acc ss,
    yields ss
      (app.variations lib ext handler platform_name image_bytes prompt strength
         negative_prompt num_variations (seq a len) acc)
      (fun r ss' t => ss' = ss /\ loop_summary lib a len acc r t).
Proof.
  intros Hh. induction len as [|len IH]; intros a acc ss.
  - apply yields_ret. split; [reflexivity|]. exists [], []. simpl.
    split; [reflexivity|]. split; [reflexivity|].
    split; [reflexivity|]. split; [rewrite app_nil_r; reflexivity|].
    split; [reflexivity|constructor].
  - cbn [seq app.variations].
    apply yields_lift_res; [intros fraction _|intros e _; split; [reflexivity|apply loop_summary_raise]].
    apply yields_lift_res; [intros scaled _|intros e _; split; [reflexivity|apply loop_summary_raise]].
    apply yields_ui. apply yields_world. intros seed.
    apply yields_invoke; [exact Hh| |].
    + intros th [[] result] Hth.
      * eapply yields_weaken; [apply IH|]. intros r ss' t [-> Hsum].
        split; [reflexivity|]. apply loop_summary_success; [exact Hth|exact I|exact Hsum].
      * apply yields_ui. apply yields_ui. apply yields_ret.
        split; [reflexivity|].
        destruct (adapter_trace_silent th Hth) as (H1 & H2 & H3).
        exists [], [ Ok (false, result) ].
        match goal with |- context [EvUi ?p :: EvRandint ?lo ?hi :: ?rest] =>
          change (EvUi p :: EvRandint lo hi :: rest)
            with ([EvUi p; EvRandint lo hi] ++ rest) end.
        rewrite !returns_in_app, !calls_in_app, !ui_in_app, H1, H2, H3.
        split; [reflexivity|]. split; [reflexivity|].
        eexists result, [_]. split; [reflexivity|]. split; [simpl; lia|].
        split; [simpl; rewrite Nat.add_0_r; reflexivity|].
        constructor; [exact I|constructor].
    + intros th e Hth. split; [reflexivity|].
      destruct (adapter_trace_silent th Hth) as (H1 & H2 & H3).
      exists [], [ Raise e ].
      match goal with |- context [EvUi ?p :: EvRandint ?lo ?hi :: ?rest] =>
        change (EvUi p :: EvRandint lo hi :: rest)
          with ([EvUi p; EvRandint lo hi] ++ rest) end.
      rewrite !returns_in_app, !calls_in_app, !ui_in_app, H1, H2, H3.
      split; [reflexivity|]. split; [reflexivity|].
      split; [auto|]. simpl. constructor; [exact I|constructor].
Qed.
End LoopFacts.


(** ** One run of [render_transform] *)

Ltac readings :=
  unfold returns_in, calls_in, ui_in in *;
  repeat (progress (simpl; rewrite ?omap_app, ?List.filter_app, ?length_app)).

Section TransformFacts.
Context {World : Type} (lib : Lib) (ext : Ext World) (cfg : Config).

Lemma yields_bind {A B} ss (m : M (App World) A) (f : A -> M (App World) B) post :
  yields ss m
    (fun r ss1 t1 =>
       match r with
       | Ok a => yields ss1 (f a) (fun r2 ss2 t2 => post r2 ss2 (t1 ++ t2))
       | Raise e => post (Raise e) ss1 t1
       end) ->
  yields ss (bind m f) post.
Proof.
  intros H s Hs. specialize (H s Hs). unfold bind, result_of, state_of, trace_of in *.
  destruct (m s) as [[[a|e] s1] t1]; simpl in *; [|exact H].
  specialize (H s1 eq_refl). unfold result_of, state_of, trace_of in H.
  destruct (f a s1) as [[r s2] t2]. exact H.
Qed.

Lemma yields_ui_last ss (u : ui_event) (post : res unit -> session -> list event -> Prop) :
  post (Ok tt) ss [ EvUi u ] -> yields ss (app.ui ext u) post.
Proof. intros H s <-. exact H. Qed.

Lemma select_handler_backend platform handler platform_name :
  app.select_handler lib ext cfg platform = Some (handler, platform_name) ->
  exists b, handler = transform lib ext cfg b.
Proof.
  unfold app.select_handler.
  repeat (match goal with |- context [if ?c then _ else _] => destruct c end);
    intros H; inversion H; subst;
    [ exists HuggingFace | exists Leonardo | exists DeepAI | exists Replicate
    | exists StabilityAI | exists Local ]; reflexivity.
Qed.

Lemma render_transform_yields image platform mode strength style_config custom_prompt
    negative_prompt num_variations ss :
  yields ss
    (app.render_transform lib ext cfg image platform mode strength style_config
       custom_prompt negative_prompt num_variations)
    (fun _ ss' t =>
       batch_stored num_variations ss ss' t \/ batch_dropped lib num_variations ss ss' t).
Proof.
  unfold app.render_transform.
  apply yields_world. intros [|].
  2:{ apply yields_ret. right. split; [reflexivity|]. split; [constructor|].
      exists [], []. simpl. auto. }
  apply yields_ui.
  apply yields_lift_res.
  2:{ intros e _. right. split; [reflexivity|]. split; [repeat constructor|].
      exists [], []. simpl. auto. }
  intros image_bytes _. apply yields_world. intros start_time.
  apply yields_try_catch. apply yields_ui.
  destruct (app.select_handler lib ext cfg platform) as [[handler platform_name]|] eqn:Hsel.
  2:{ apply yields_ui_last. right. split; [reflexivity|]. split; [repeat constructor|].
      exists [], []. simpl. auto. }
  destruct (select_handler_backend _ _ _ Hsel) as (b & ->).
  apply yields_ui.
  match goal with |- context [let '(_, _) := ?p in _] => destruct p as [used_prompt used_negative_prompt] end.
  apply yields_bind.
  eapply yields_weaken;
    [apply variations_yields; intros e; apply adapter_events_only|].
  intros r ss' t [-> (images & tail & Hr & Hc & Hcase)].
  destruct r as [[out|]|e].
  - destruct Hcase as (-> & -> & Hlen & Hui). rewrite app_nil_r in Hr, Hc.
    apply yields_world. intros end_time. apply yields_ui.
    apply yields_session_set. apply yields_session_set.
    apply yields_world. intros timestamp. apply yields_session_set.
    apply yields_ui_last. left.
    eexists images, _, ([_; _; _] ++ ui_in t ++ [_]), _.
    split; [exact Hlen|]. readings. rewrite Hr, Hc, length_map, !app_nil_r, Nat.add_0_r.
    split; [reflexivity|]. split; [exact Hlen|].
    split; [reflexivity|]. split; [reflexivity|].
    split; [simpl; rewrite <- app_assoc; reflexivity|].
    repeat constructor. apply Forall_app. split; [exact Hui|repeat constructor].
  - destruct Hcase as (result & reports & -> & Hlen & Hui & Hrep).
    apply yields_ret. right. split; [reflexivity|].
    readings. rewrite !app_nil_r. rewrite Hr, Hc, Hui.
    split.
    { repeat constructor. apply Forall_app. split; [exact Hrep|repeat constructor]. }
    exists images, [ Ok (false, result) ]. rewrite Nat.add_0_r.
    split; [reflexivity|]. split; [reflexivity|]. right. right.
    eexists result, ([_; _; _] ++ reports).
    split; [reflexivity|]. split; [exact Hlen|reflexivity].
  - destruct Hcase as (Htail & Hui).
    apply yields_ui. apply yields_ui_last. right. split; [reflexivity|].
    readings. rewrite Hr, Hc, !app_nil_r, Nat.add_0_r.
    split.
    { repeat constructor. apply Forall_app. split; [exact Hui|repeat constructor]. }
    exists images, tail. split; [reflexivity|]. split; [reflexivity|].
    destruct Htail as [->| ->]; eauto.
Qed.
End TransformFacts.


(** ** What the results page shows *)

Section ViewFacts.
Context {World : Type} (lib : Lib) (ext : Ext World).

Lemma shows_ret ss : shows_only (World:=World) ss (ret tt).
Proof. exists []. intros s <-. auto. Qed.

Lemma shows_ui ss u : shows_only ss (app.ui ext u).
Proof. exists [ EvUi u ]. intros s <-. auto. Qed.

Lemma shows_seq ss (m : M (App World) unit) (k : unit -> M (App World) unit) :
  shows_only ss m -> shows_only ss (k tt) -> shows_only ss (bind m k).
Proof.
  intros (v1 & H1) (v2 & H2). exists (v1 ++ v2). intros s Hs.
  specialize (H1 s Hs). unfold bind, result_of, state_of, trace_of in *.
  destruct (m s) as [[r s1] t1]. simpl in *. destruct H1 as (-> & Hs1 & ->).
  specialize (H2 s1 Hs1). unfold result_of, state_of, trace_of in H2.
  destruct (k tt s1) as [[r2 s2] t2]. simpl in *. destruct H2 as (-> & -> & ->). auto.
Qed.

Lemma shows_for {X} ss (l : list X) (body : X -> M (App World) unit) :
  (forall x, shows_only ss (body x)) -> shows_only ss (app.for_ l body).
Proof.
  intros Hb. induction l as [|x l IH]; simpl.
  - apply shows_ret.
  - apply shows_seq; [apply Hb|exact IH].
Qed.

Lemma bind_session_get {B} (f : session -> M (App World) B) (s : App World) :
  bind app.session_get f s = f (session_state s) s.
Proof. unfold bind, app.session_get. destruct (f _ s) as [[r s2] t2]. reflexivity. Qed.

(** What [render_results] shows is determined by the session. *)
Lemma results_of_session_shows ss : shows_only ss (app.results_of_session ext ss).
Proof.
  unfold app.results_of_session.
  destruct (transformation_done ss && truthy (VList (transformed_images ss))); [|apply shows_ret].
  apply shows_seq; [apply shows_ui|]. apply shows_seq; [apply shows_ui|].
  assert (Hgrid : forall images : list pyval,
             shows_only ss
               (app.ui ext (UiMarkdown ("**" +:+ pretty (Z.of_nat (length images))
                                        +:+ " different variations generated:**")) ;;;
                app.for_ (imap (fun idx img => (idx, img)) images)
                  (fun '(idx, img) =>
                     app.ui ext (UiImage img (Some ("Variation " +:+ pretty (Z.of_nat idx + 1))))) ;;;
                app.ui ext (UiMarkdown "**Download each variation separately:**") ;;;
                app.for_ (imap (fun idx img => (idx, img)) images)
                  (fun '(idx, img) =>
                     app.ui ext (UiImage img None) ;;;
                     app.ui ext (UiDownload img ("variation_" +:+ pretty (Z.of_nat idx + 1)
                                                 +:+ ".png"))))).
  { intros images.
    apply shows_seq; [apply shows_ui|].
    apply shows_seq; [apply shows_for; intros [idx img]; apply shows_ui|].
    apply shows_seq; [apply shows_ui|].
    apply shows_for. intros [idx img]. apply shows_seq; apply shows_ui. }
  destruct (transformed_images ss) as [|only [|second rest]] eqn:E.
  - apply (Hgrid []).
  - repeat (apply shows_seq; [apply shows_ui|]). apply shows_ui.
  - apply (Hgrid (only :: second :: rest)).
Qed.

Lemma render_results_trace (s1 s2 : App World) :
  session_state s1 = session_state s2 ->
  trace_of (app.render_results ext s1) = trace_of (app.render_results ext s2).
Proof.
  intros Hs. destruct (results_of_session_shows (session_state s2)) as (v & Hv).
  unfold app.render_results. rewrite !bind_session_get, Hs.
  destruct (Hv s1 Hs) as (_ & _ & ->). destruct (Hv s2 eq_refl) as (_ & _ & ->).
  reflexivity.
Qed.
End ViewFacts.

(** ** Batches *)

Section BatchFacts.
Context {World : Type} (lib : Lib) (ext : Ext World) (cfg : Config).

(** A failed invocation is the last one, and it drops the batch. *)
Lemma failed_variation_dropped num_variations ss ss' t i result :
  batch_stored num_variations ss ss' t \/ batch_dropped lib num_variations ss ss' t ->
  returns_in t !! i = Some (Ok (false, result)) ->
  ss' = ss
  /\ Forall is_report (ui_in t)
  /\ (i < num_variations)%nat
  /\ calls_in t = S i
  /\ (exists images, length images = i /\ returns_in t = map success images ++ [ Ok (false, result) ])
  /\ exists reports, ui_in t = reports ++ [ UiProgressEmpty; failure_report lib i result ].
Proof.
  intros [(images & md & reports & message & Hlen & Hr & _) | (-> & Hui & images & tail & Hr & Hc & Htail)] Hi.
  - exfalso. rewrite Hr in Hi. rewrite list_lookup_fmap in Hi.
    destruct (images !! i); discriminate Hi.
  - rewrite Hr in Hi.
    assert (Hge : (length (map success images) <= i)%nat).
    { destruct (Nat.le_gt_cases (length (map success images)) i) as [H|H]; [exact H|].
      exfalso. rewrite lookup_app_l in Hi by exact H. rewrite list_lookup_fmap in Hi.
      destruct (images !! i); discriminate Hi. }
    rewrite lookup_app_r in Hi by exact Hge.
    destruct Htail as [-> | [(e & ->) | (result' & reports & -> & Hlt & Hshown)]].
    + rewrite lookup_nil in Hi. discriminate Hi.
    + destruct (i - length (map success images))%nat; simpl in Hi; [discriminate Hi|].
      rewrite lookup_nil in Hi. discriminate Hi.
    + destruct (i - length (map success images))%nat eqn:E; simpl in Hi;
        [|rewrite lookup_nil in Hi; discriminate Hi].
      injection Hi as ->. rewrite length_map in *.
      assert (i = length images) by lia. subst i.
      split; [reflexivity|]. split; [exact Hui|]. split; [exact Hlt|].
      split; [rewrite Hc, length_app, length_map; simpl; lia|].
      split; [exists images; auto|]. exists reports. exact Hshown.
Qed.
End BatchFacts.

(** C2. In a run of [render_transform], if the adapter call for variation
    [i] (counted from 0) returns a failure, then [i] is below the requested
    count, all calls before it succeeded and it is the last one (the adapter
    was invoked [i + 1] times in all), the session is left as it was (no
    batch is stored), and all that is shown are progress and error reports,
    ending with the failure report of variation [i + 1]: none of the images
    already generated is stored or shown. *)
Theorem batch_fail_fast :
  forall (World : Type) (lib : Lib) (ext : Ext World) (cfg : Config)
         (image : Image) (platform mode : string) (strength : float)
         (style_config : option style) (custom_prompt negative_prompt : string)
         (num_variations : nat) (s : App World) (i : nat) (result : pyval),
    let run :=
      app.render_transform lib ext cfg image platform mode strength style_config
        custom_prompt negative_prompt num_variations s in
    returns_in (trace_of run) !! i = Some (Ok (false, result)) ->
    (i < num_variations)%nat
    /\ calls_in (trace_of run) = S i
    /\ (exists images,
          length images = i
          /\ returns_in (trace_of run) = map success images ++ [ Ok (false, result) ])
    /\ transformed_images (session_state (state_of run))
       = transformed_images (session_state s)
    /\ Forall is_report (ui_in (trace_of run))
    /\ exists reports,
         ui_in (trace_of run) = reports ++ [ UiProgressEmpty; failure_report lib i result ].
Proof.
  intros World lib ext cfg image platform mode strength style_config custom_prompt
    negative_prompt num_variations s i result run Hi.
  pose proof (render_transform_yields lib ext cfg image platform mode strength style_config
                custom_prompt negative_prompt num_variations (session_state s) s eq_refl) as H.
  destruct (failed_variation_dropped lib _ _ _ _ _ _ H Hi)
    as (Hss & Hui & Hlt & Hc & Himgs & Hrep).
  fold run in Hss. rewrite Hss. auto 10.
Qed.

(** C3. In a run of [render_transform] that produces a batch (it reports
    success), the images stored in the session are as many as requested, and
    the image at position [i] is the one the [i]-th adapter invocation
    returned: the invocations were exactly as many, all succeeded, and their
    results in invocation order are the stored images. *)
Theorem batch_in_invocation_order :
  forall (World : Type) (lib : Lib) (ext : Ext World) (cfg : Config)
         (image : Image) (platform mode : string) (strength : float)
         (style_config : option style) (custom_prompt negative_prompt : string)
         (num_variations : nat) (s : App World) (message : string),
    let run :=
      app.render_transform lib ext cfg image platform mode strength style_config
        custom_prompt negative_prompt num_variations s in
    In (EvUi (UiSuccess message)) (trace_of run) ->
    let images := transformed_images (session_state (state_of run)) in
    length images = num_variations
    /\ calls_in (trace_of run) = num_variations
    /\ returns_in (trace_of run) = map success images
    /\ (forall i image,
          images !! i = Some image ->
          returns_in (trace_of run) !! i = Some (Ok (true, image)))
    /\ transformation_done (session_state (state_of run)) = true
    /\ last_metadata (session_state (state_of run)) !! "num_variations"
       = Some (VInt (Z.of_nat num_variations)).
Proof.
  intros World lib ext cfg image platform mode strength style_config custom_prompt
    negative_prompt num_variations s message run Hin images.
  pose proof (render_transform_yields lib ext cfg image platform mode strength style_config
                custom_prompt negative_prompt num_variations (session_state s) s eq_refl) as H.
  fold run in H.
  destruct H as [(imgs & md & reports & msg & Hlen & Hr & Hc & Hss & Hmd & _)
                | (_ & Hui & _)].
  - subst images. rewrite Hss. simpl.
    split; [exact Hlen|]. split; [exact Hc|]. split; [exact Hr|].
    split; [|split; [reflexivity|exact Hmd]].
    intros i img Hi. rewrite Hr, list_lookup_fmap, Hi. reflexivity.
  - exfalso. rewrite Forall_forall in Hui.
    apply (Hui (UiSuccess message)).
    unfold ui_in. apply list_elem_of_omap.
    exists (EvUi (UiSuccess message)). split; [apply list_elem_of_In; exact Hin|reflexivity].
Qed.

(** C10. In a run of [render_transform], if the adapter call for some
    variation returns a failure, the run ends with the session exactly as it
    found it: [transformed_images], [transformation_done] and
    [last_metadata] are unchanged, and [render_results] shows after the run
    what it would have shown before it. *)
Theorem failed_batch_keeps_session :
  forall (World : Type) (lib : Lib) (ext : Ext World) (cfg : Config)
         (image : Image) (platform mode : string) (strength : float)
         (style_config : option style) (custom_prompt negative_prompt : string)
         (num_variations : nat) (s : App World) (i : nat) (result : pyval),
    let run :=
      app.render_transform lib ext cfg image platform mode strength style_config
        custom_prompt negative_prompt num_variations s in
    returns_in (trace_of run) !! i = Some (Ok (false, result)) ->
    session_state (state_of run) = session_state s
    /\ transformed_images (session_state (state_of run))
       = transformed_images (session_state s)
    /\ transformation_done (session_state (state_of run))
       = transformation_done (session_state s)
    /\ last_metadata (session_state (state_of run)) = last_metadata (session_state s)
    /\ trace_of (app.render_results ext (state_of run))
       = trace_of (app.render_results ext s).
Proof.
  intros World lib ext cfg image platform mode strength style_config custom_prompt
    negative_prompt num_variations s i result run Hi.
  pose proof (render_transform_yields lib ext cfg image platform mode strength style_config
                custom_prompt negative_prompt num_variations (session_state s) s eq_refl) as H.
  destruct (failed_variation_dropped lib _ _ _ _ _ _ H Hi) as (Hss & _).
  fold run in Hss.
  split; [exact Hss|]. rewrite Hss. repeat (split; [reflexivity|]).
  apply render_results_trace. exact Hss.
Qed.

Lemma batch_fail_fast_witness :
  let run :=
    app.render_transform sample_lib (deepai_world 4) sample_cfg sample_image "DeepAI"
      "Custom Prompt" 0.6%float None "oil painting" "" 4 (fresh_app earlier_session) in
  returns_in (trace_of run) !! 2%nat
  = Some (Ok (false, VStr "DeepAI server error. Please try again in a few minutes."))
  /\ (2 < 4)%nat
  /\ calls_in (trace_of run) = 3%nat.
Proof.
  intros run.
  assert (H : returns_in (trace_of run) !! 2%nat
              = Some (Ok (false, VStr "DeepAI server error. Please try again in a few minutes.")))
    by (vm_compute; reflexivity).
  pose proof (batch_fail_fast nat sample_lib (deepai_world 4) sample_cfg sample_image "DeepAI"
                "Custom Prompt" 0.6%float None "oil painting" "" 4 (fresh_app earlier_session)
                2%nat _ H) as T.
  exact (conj H (conj (proj1 T) (proj1 (proj2 T)))).
Defined.

Lemma batch_in_invocation_order_witness :
  let run :=
    app.render_transform sample_lib (deepai_world 100) sample_cfg sample_image "DeepAI"
      "Custom Prompt" 0.6%float None "oil painting" "" 3 (fresh_app empty_session) in
  In (EvUi (UiSuccess "✅ Success! 3 variation(s) generated. (DeepAI)")) (trace_of run)
  /\ length (transformed_images (session_state (state_of run))) = 3%nat
  /\ calls_in (trace_of run) = 3%nat.
Proof.
  intros run.
  assert (H : In (EvUi (UiSuccess "✅ Success! 3 variation(s) generated. (DeepAI)"))
                 (trace_of run)).
  { vm_compute. repeat (try (left; reflexivity); right). }
  pose proof (batch_in_invocation_order nat sample_lib (deepai_world 100) sample_cfg
                sample_image "DeepAI" "Custom Prompt" 0.6%float None "oil painting" "" 3
                (fresh_app empty_session) _ H) as T.
  exact (conj H (conj (proj1 T) (proj1 (proj2 T)))).
Defined.

Lemma failed_batch_keeps_session_witness :
  let run :=
    app.render_transform sample_lib (deepai_world 4) sample_cfg sample_image "DeepAI"
      "Custom Prompt" 0.6%float None "oil painting" "" 4 (fresh_app earlier_session) in
  returns_in (trace_of run) !! 2%nat
  = Some (Ok (false, VStr "DeepAI server error. Please try again in a few minutes."))
  /\ session_state (state_of run) = earlier_session.
Proof.
  intros run.
  assert (H : returns_in (trace_of run) !! 2%nat
              = Some (Ok (false, VStr "DeepAI server error. Please try again in a few minutes.")))
    by (vm_compute; reflexivity).
  pose proof (failed_batch_keeps_session nat sample_lib (deepai_world 4) sample_cfg sample_image
                "DeepAI" "Custom Prompt" 0.6%float None "oil painting" "" 4
                (fresh_app earlier_session) 2%nat _ H) as T.
  exact (conj H (proj1 T)).
Defined.

Section Spending.
Context {S : Type} (cost : event -> nat).

Lemma weigh_app t1 t2 : weigh cost (t1 ++ t2) = (weigh cost t1 + weigh cost t2)%nat.
Proof. induction t1 as [|ev t1 IH]; simpl; [reflexivity|]. rewrite IH. lia. Qed.

Lemma spends_weaken {A} (m : M S A) n k : spends cost m n -> (n <= k)%nat -> spends cost m k.
Proof. intros H Hle s. specialize (H s). lia. Qed.

Lemma spends_ret {A} (a : A) n : spends (S:=S) cost (ret a) n.
Proof. intros s. simpl. lia. Qed.


Lemma spends_lift_res {A} (r : res A) n : spends (S:=S) cost (lift_res r) n.
Proof. intros s. simpl. lia. Qed.

Lemma spends_bind {A B} (m : M S A) (f : A -> M S B) n k :
  spends cost m n -> (forall a, spends cost (f a) k) -> spends cost (bind m f) (n + k).
Proof.
  intros Hm Hf s. specialize (Hm s). unfold bind, trace_of in *.
  destruct (m s) as [[[a|e] s1] t1]; simpl in *; [|lia].
  specialize (Hf a s1). unfold trace_of in Hf.
  destruct (f a s1) as [[r s2] t2]. simpl in *. rewrite weigh_app. lia.
Qed.

Lemma spends_try_catch {A} (m : M S A) (h : exn -> M S A) n k :
  spends cost m n -> (forall e, spends cost (h e) k) -> spends cost (try_catch m h) (n + k).
Proof.
  intros Hm Hh s. specialize (Hm s). unfold try_catch, trace_of in *.
  destruct (m s) as [[[a|e] s1] t1]; simpl in *; [lia|].
  specialize (Hh e s1). unfold trace_of in Hh.
  destruct (h e s1) as [[r s2] t2]. simpl in *. rewrite weigh_app. lia.
Qed.

Lemma spends_seq {A B} (m : M S A) (f : A -> M S B) n k total :
  spends cost m n -> (forall a, spends cost (f a) k) -> (n + k <= total)%nat ->
  spends cost (bind m f) total.
Proof. intros Hm Hf Hle. eapply spends_weaken; [apply spends_bind; eassumption|exact Hle]. Qed.

Lemma spends_bind_lift {A B} (r : res A) (f : A -> M S B) n :
  (forall a, spends cost (f a) n) -> spends cost (bind (lift_res r) f) n.
Proof. intros Hf. apply spends_seq with (n := 0%nat) (k := n); [apply spends_lift_res|exact Hf|lia]. Qed.

Lemma spends_guarded {A} (m : M S A) (h : exn -> M S A) n :
  spends cost m n -> (forall e, spends cost (h e) 0) -> spends cost (try_catch m h) n.
Proof.
  intros Hm Hh. eapply spends_weaken; [apply spends_try_catch; eassumption|lia].
Qed.
End Spending.

Section SpendingCalls.
Context {World : Type} (cost : event -> nat).


Lemma spends_call_total {A} (ev : event) (o : World -> A * World) :
  spends cost (call_total ev o) (cost ev).
Proof.
  intros s. unfold call_total, trace_of. destruct (o (world s)) as [r w]. simpl. lia.
Qed.
End SpendingCalls.


Section SpendingSteps.
Context {World : Type} (cost : event -> nat).


End SpendingSteps.

Ltac price :=
  cbn [sleep_cost request_cost];
  repeat match goal with
         | |- context [Z.to_nat (Zpos ?p)] =>
             let v := eval vm_compute in (Z.to_nat (Zpos p)) in
             change (Z.to_nat (Zpos p)) with v
         end;
  cbn [Nat.sub]; rewrite ?Nat.sub_0_r.


(** Steps through a handler body, the module state included. *)
Ltac calls_step :=
  first
    [ apply emits_globals | apply emits_set_pipeline | apply emits_set_device
    | emits_step
    | progress unfold post, get, sleep ].

Section BackendEvents.
Context {World : Type} (lib : Lib) (ext : Ext World) (cfg : Config).


End BackendEvents.


Section Budgets.
Context {World : Type} (lib : Lib) (ext : Ext World) (cfg : Config).





End Budgets.



Section Credentials.
Context {World : Type} (lib : Lib) (ext : Ext World) (cfg : Config).

Lemma poll_keeps_credential key generation_id remaining :
  emits_only (leonardo_api_handler.poll lib ext key generation_id remaining)
             (keeps_credential Leonardo).
Proof.
  induction remaining as [|n IH]; simpl; [apply emits_ret|].
  unfold leonardo_api_handler.fetch_completed.
  repeat first [ exact IH | calls_step ]; try exact I.
  - right. eexists _, _. split; reflexivity.
  - left. reflexivity.
Qed.

Lemma credential_kept (b : backend) image_bytes prompt strength negative_prompt :
  emits_only (transform lib ext cfg b image_bytes prompt strength negative_prompt)
             (keeps_credential b).
Proof.
  destruct b; simpl.
  - unfold local_inference_handler.transform_image.
    apply emits_try_catch; [|intros; repeat calls_step].
    apply emits_bind; [apply load_pipeline_emits; intros; exact I|]. intros.
    unfold local_inference_handler.is_available. repeat calls_step; exact I.
  - unfold deepai_api_handler.transform_image. repeat calls_step; try exact I.
    + right. eexists _, _. split; reflexivity.
    + left. reflexivity.
  - unfold hf_api_handler.transform_image, hf_api_handler.method1,
      hf_api_handler.try_model, hf_api_handler.try_direct. repeat calls_step; try exact I;
      right; eexists _, _; split; reflexivity.
  - unfold leonardo_api_handler.transform_image.
    repeat first [ apply poll_keeps_credential | calls_step ]; try exact I;
      right; eexists _, _; split; reflexivity.
  - unfold replicate_api_handler.transform_image, replicate_api_handler.process_output,
      replicate_api_handler.download. repeat calls_step; try exact I; left; reflexivity.
  - unfold stability_ai_handler.transform_image. repeat calls_step; try exact I.
    right. eexists _, _. split; reflexivity.
Qed.
End Credentials.

Section Strength.
Context {World : Type} (lib : Lib) (ext : Ext World) (cfg : Config).

Lemma local_strength_sent image_bytes prompt strength negative_prompt :
  emits_only (local_inference_handler.transform_image lib ext image_bytes prompt strength
                negative_prompt)
             (local_strength_is strength).
Proof.
  unfold local_inference_handler.transform_image.
  apply emits_try_catch; [|intros; repeat calls_step].
  apply emits_bind; [apply load_pipeline_emits; intros; exact I|]. intros.
  unfold local_inference_handler.is_available. repeat calls_step; try exact I.
  reflexivity.
Qed.

Lemma hf_strength_sent image_bytes prompt strength negative_prompt :
  emits_only (hf_api_handler.transform_image lib ext cfg image_bytes prompt strength
                negative_prompt)
             (hf_strength_is strength).
Proof.
  unfold hf_api_handler.transform_image, hf_api_handler.method1,
    hf_api_handler.try_model, hf_api_handler.try_direct.
  repeat calls_step; try exact I;
    first [ simpl; destruct (String.eqb _ _); reflexivity
          | simpl; eexists _, _; (split; [reflexivity|]); split; reflexivity ].
Qed.

Lemma poll_posts_nothing key generation_id remaining strength :
  emits_only (leonardo_api_handler.poll lib ext key generation_id remaining)
             (leonardo_strength_is lib strength).
Proof.
  induction remaining as [|n IH]; simpl; [apply emits_ret|].
  unfold leonardo_api_handler.fetch_completed.
  repeat first [ exact IH | calls_step ]; exact I.
Qed.

Lemma leonardo_strength_sent image_bytes prompt strength negative_prompt :
  emits_only (leonardo_api_handler.transform_image lib ext cfg image_bytes prompt strength
                negative_prompt)
             (leonardo_strength_is lib strength).
Proof.
  unfold leonardo_api_handler.transform_image.
  repeat first [ apply poll_posts_nothing | calls_step ]; try exact I.
  - left. eexists _, _. reflexivity.
  - right. eexists. split; reflexivity.
Qed.
End Strength.

Section Styles.
Context {World : Type} (lib : Lib) (ext : Ext World) (cfg : Config).



End Styles.



(** X4. Every HTTP request of an adapter that carries headers, and so the
    credential, goes to an address under the backend's own API; the
    requests that download a result from an address the provider returned
    carry no header. *)
Theorem credential_stays_with_provider :
  forall (World : Type) (lib : Lib) (ext : Ext World) (cfg : Config) (b : backend)
         (image_bytes : bytes) (prompt : string) (strength : float)
         (negative_prompt : string) (s : Env World),
    Forall (keeps_credential b)
           (trace_of (transform lib ext cfg b image_bytes prompt strength negative_prompt s)).
Proof. intros. apply credential_kept. Qed.

(** X5. The local, Hugging Face and Leonardo.ai adapters pass the strength
    on unchanged: as [strength] of every pipeline call, as [strength] of
    every managed and direct Hugging Face request, and as [init_strength]
    of the Leonardo.ai generation request. *)
Theorem strength_reaches_backend :
  forall (World : Type) (lib : Lib) (ext : Ext World) (cfg : Config)
         (image_bytes : bytes) (prompt : string) (strength : float)
         (negative_prompt : string) (s : Env World),
    Forall (local_strength_is strength)
           (trace_of (transform lib ext cfg Local image_bytes prompt strength
                                negative_prompt s))
    /\ Forall (hf_strength_is strength)
              (trace_of (transform lib ext cfg HuggingFace image_bytes prompt strength
                                   negative_prompt s))
    /\ Forall (leonardo_strength_is lib strength)
              (trace_of (transform lib ext cfg Leonardo image_bytes prompt strength
                                   negative_prompt s)).
Proof.
  intros. split; [apply local_strength_sent|].
  split; [apply hf_strength_sent|apply leonardo_strength_sent].
Qed.


Lemma bind_silent {S A B} (m : M S A) (f : A -> M S B) (s s1 : S) (a : A) :
  m s = (Ok a, s1, []) -> bind m f s = f a s1.
Proof. intros E. unfold bind. rewrite E. destruct (f a s1) as [[r s2] t2]. reflexivity. Qed.

Section Maintains.
Context {World : Type} (I : Env World -> Prop) (Q : event -> Prop).

Lemma maintains_ret {A} (a : A) : maintains I (ret a) Q.
Proof. intros s H. split; [exact H|constructor]. Qed.

Lemma maintains_lift_res {A} (r : res A) : maintains I (lift_res r) Q.
Proof. intros s H. split; [exact H|constructor]. Qed.

Lemma maintains_bind {A B} (m : M (Env World) A) (f : A -> M (Env World) B) :
  maintains I m Q -> (forall a, maintains I (f a) Q) -> maintains I (bind m f) Q.
Proof.
  intros Hm Hf s H. destruct (Hm s H) as [H1 Ht1].
  unfold bind, state_of, trace_of in *.
  destruct (m s) as [[[a|e] s1] t1]; simpl in *; [|auto].
  destruct (Hf a s1 H1) as [H2 Ht2]. unfold state_of, trace_of in *.
  destruct (f a s1) as [[r s2] t2]. simpl in *.
  split; [exact H2|]. apply Forall_app. auto.
Qed.

Lemma maintains_try_catch {A} (m : M (Env World) A) (h : exn -> M (Env World) A) :
  maintains I m Q -> (forall e, maintains I (h e) Q) -> maintains I (try_catch m h) Q.
Proof.
  intros Hm Hh s H. destruct (Hm s H) as [H1 Ht1].
  unfold try_catch, state_of, trace_of in *.
  destruct (m s) as [[[a|e] s1] t1]; simpl in *; [auto|].
  destruct (Hh e s1 H1) as [H2 Ht2]. unfold state_of, trace_of in *.
  destruct (h e s1) as [[r s2] t2]. simpl in *.
  split; [exact H2|]. apply Forall_app. auto.
Qed.

Lemma maintains_call {A} (ev : event) (o : World -> res A * World) :
  world_blind I -> Q ev -> maintains I (call ev o) Q.
Proof.
  intros Hb Hq s H. unfold call, state_of, trace_of.
  destruct (o (world s)) as [r w]. simpl.
  split; [apply Hb; exact H|]. constructor; [exact Hq|constructor].
Qed.

Lemma maintains_call_total {A} (ev : event) (o : World -> A * World) :
  world_blind I -> Q ev -> maintains I (call_total ev o) Q.
Proof.
  intros Hb Hq s H. unfold call_total, state_of, trace_of.
  destruct (o (world s)) as [r w]. simpl.
  split; [apply Hb; exact H|]. constructor; [exact Hq|constructor].
Qed.
End Maintains.

Ltac maintains_step :=
  lazymatch goal with
  | |- maintains _ (ret _) _ => apply maintains_ret
  | |- maintains _ (lift_res _) _ => apply maintains_lift_res
  | |- maintains _ (bind _ _) _ => apply maintains_bind; [|intros]
  | |- maintains _ (try_catch _ _) _ => apply maintains_try_catch; [|intros]
  | |- maintains _ (call _ _) _ => apply maintains_call
  | |- maintains _ (call_total _ _) _ => apply maintains_call_total
  | |- maintains _ (if ?b then _ else _) _ => destruct b eqn:?
  | |- maintains _ (match ?x with _ => _ end) _ => destruct x eqn:?
  end.

Section Pipeline.
Context {World : Type} (lib : Lib) (ext : Ext World).

Local Abbreviation transform_image := (local_inference_handler.transform_image lib ext).
Local Abbreviation load_pipeline := (local_inference_handler.load_pipeline ext).

Lemma cached_world_blind p : world_blind (World:=World) (cached p).
Proof. intros s w H. exact H. Qed.

Lemma load_pipeline_cached p (s : Env World) :
  cached p s -> load_pipeline s = (Ok p, s, []).
Proof.
  unfold cached. intros H.
  unfold local_inference_handler.load_pipeline, local_inference_handler.globals, bind.
  rewrite H. reflexivity.
Qed.

(** What follows [load_pipeline] in [transform_image] keeps the cache and
    runs on the pipeline it is given. *)
Lemma inference_maintains p image_bytes prompt strength negative_prompt :
  maintains (cached p)
    (init_image <- lift_res (Image_open lib image_bytes) ;;
     init_image <- lift_res (Image_convert lib init_image "RGB") ;;
     init_image <- lift_res (local_inference_handler.shrink lib init_image) ;;
     let k := local_inference_handler.inference_call init_image prompt strength
                negative_prompt in
     images <- call (EvPipelineCall p k) (run_pipeline ext p k) ;;
     output_image <- lift_res (py_index0 (VList images)) ;;
     lift_res (py_size_mode_check output_image) ;;;
     available <- local_inference_handler.is_available ext ;;
     (if (available : bool) then call EvEmptyCache (empty_cache ext) else ret tt) ;;;
     ret (true, output_image))
    (uses_cached p).
Proof.
  unfold local_inference_handler.is_available.
  repeat maintains_step; first [apply cached_world_blind | exact I | reflexivity].
Qed.

Lemma handler_maintains (I : Env World -> Prop) Q (e : exn) :
  maintains I
    (let error_msg := exn_str e in
     if isinstance_exn e ExceptRuntimeError then
       if str_in "out of memory" (lower error_msg) then
         ret (false, VStr "Insufficient GPU memory. Try a smaller image or lower the strength value.")
       else
         ret (false, VStr ("GPU error: " +:+ str_take 150 error_msg))
     else
       ret (false, VStr ("Local inference error: " +:+ str_take 150 error_msg)))
    Q.
Proof. simpl. repeat maintains_step. Qed.

Lemma transform_image_cached p image_bytes prompt strength negative_prompt :
  maintains (cached p) (transform_image image_bytes prompt strength negative_prompt)
            (uses_cached p).
Proof.
  unfold local_inference_handler.transform_image.
  apply maintains_try_catch; [|intros; apply handler_maintains].
  intros s H. rewrite (bind_silent _ _ s s p (load_pipeline_cached p s H)).
  exact (inference_maintains p image_bytes prompt strength negative_prompt s H).
Qed.

Lemma get_device_run (s : Env World) :
  exists device w,
    local_inference_handler.get_device ext s
    = (Ok device, mkEnv w (_pipeline s) (Some device),
       match _device s with Some _ => [] | None => [ EvCudaIsAvailable ] end)
    /\ (forall d, _device s = Some d -> device = d /\ w = world s).
Proof.
  unfold local_inference_handler.get_device, local_inference_handler.globals,
    local_inference_handler.is_available, local_inference_handler.set_device,
    bind, call_total, ret.
  destruct s as [w p [d|]]; simpl.
  - exists d, w. split; [reflexivity|]. intros d' E. injection E as <-. auto.
  - destruct (cuda_is_available ext w) as [available w'] eqn:E. simpl.
    eexists _, _. split; [reflexivity|]. intros d' E'. discriminate E'.
Qed.

Lemma bind_globals {B} (f : Env World -> M (Env World) B) (s : Env World) :
  bind local_inference_handler.globals f s = f s s.
Proof.
  unfold bind, local_inference_handler.globals. destruct (f s s) as [[r s2] t2]. reflexivity.
Qed.

Lemma bind_run {A B} (m : M (Env World) A) (f : A -> M (Env World) B) s a s1 t1 :
  m s = (Ok a, s1, t1) -> bind m f s = prefixed t1 (f a s1).
Proof. intros E. unfold bind. rewrite E. destruct (f a s1) as [[r s2] t2]. reflexivity. Qed.

(** [load_pipeline] with nothing cached, by what loading and moving do. *)
Lemma load_pipeline_fresh (s : Env World) :
  _pipeline s = None ->
  exists device w t1,
    local_inference_handler.get_device ext s = (Ok device, mkEnv w None (Some device), t1)
    /\ match from_pretrained ext local_inference_handler.MODEL_ID device w with
       | (Raise e, w1) =>
           load_pipeline s
           = (Raise e, mkEnv w1 None (Some device),
              t1 ++ [ EvFromPretrained local_inference_handler.MODEL_ID device ])
       | (Ok p1, w1) =>
           match pipeline_to ext p1 device w1 with
           | (Raise e, w2) =>
               load_pipeline s
               = (Raise e, mkEnv w2 (Some p1) (Some device),
                  t1 ++ [ EvFromPretrained local_inference_handler.MODEL_ID device;
                          EvPipelineTo p1 device ])
           | (Ok p2, w2) =>
               exists r s' t',
                 load_pipeline s
                 = (r, s',
                    t1 ++ [ EvFromPretrained local_inference_handler.MODEL_ID device;
                            EvPipelineTo p1 device ] ++ t')
                 /\ cached p2 s' /\ (forall p, r = Ok p -> p = p2)
           end
       end.
Proof.
  intros Ep. destruct (get_device_run s) as (device & w & Hd & _).
  rewrite Ep in Hd. eexists device, w, _. split; [exact Hd|].
  unfold local_inference_handler.load_pipeline. rewrite bind_globals, Ep.
  rewrite (bind_run _ _ _ _ _ _ Hd).
  unfold try_catch, bind, call, local_inference_handler.set_pipeline, ret, raise, prefixed.
  simpl.
  destruct (from_pretrained ext _ device w) as [[p1|e] w1]; simpl; [|reflexivity].
  destruct (pipeline_to ext p1 device w1) as [[p2|e] w2]; simpl; [|reflexivity].
  destruct (String.eqb device "cuda"); simpl.
  - destruct (enable_attention_slicing ext p2 w2) as [[[]|e] w3]; simpl.
    + destruct (enable_vae_slicing ext p2 w3) as [[[]|e] w4]; simpl;
        eexists _, _, _; (split; [reflexivity|]); (split; [reflexivity|]);
        intros p E; congruence.
    + eexists _, _, _; (split; [reflexivity|]); (split; [reflexivity|]);
        intros p E; congruence.
  - eexists _, _, _; (split; [reflexivity|]); (split; [reflexivity|]);
      intros p E; congruence.
Qed.

(** A [load_pipeline] that returns has cached what it returns. *)
Lemma load_pipeline_ok p (s : Env World) :
  result_of (load_pipeline s) = Ok p -> cached p (state_of (load_pipeline s)).
Proof.
  destruct (_pipeline s) as [p0|] eqn:Ep.
  { rewrite (load_pipeline_cached p0 s Ep). simpl. intros E. injection E as <-. exact Ep. }
  destruct (load_pipeline_fresh s Ep) as (device & w & t1 & _ & H).
  destruct (from_pretrained ext _ device w) as [[p1|e] w1]; [|rewrite H; discriminate].
  destruct (pipeline_to ext p1 device w1) as [[p2|e] w2]; [|rewrite H; discriminate].
  destruct H as (r & s' & t' & -> & Hc & Hr). simpl. intros E.
  rewrite (Hr p E). exact Hc.
Qed.

Lemma try_catch_ok_state {A} (m : M (Env World) A) (h : exn -> M (Env World) A) s a :
  result_of (m s) = Ok a -> try_catch m h s = m s.
Proof.
  unfold try_catch, result_of. destruct (m s) as [[[a'|e] s1] t1]; simpl; [reflexivity|].
  discriminate.
Qed.

(** A call that succeeded leaves a pipeline cached. *)
Lemma success_caches image_bytes prompt strength negative_prompt (s : Env World) image :
  result_of (transform_image image_bytes prompt strength negative_prompt s) = Ok (true, image) ->
  exists p, cached p (state_of (transform_image image_bytes prompt strength negative_prompt s)).
Proof.
  intros Hok. unfold local_inference_handler.transform_image in *.
  pose proof Hok as Hok'.
  apply try_catch_ok in Hok'. destruct Hok' as [[Hbody _] | (e & _ & Hh)].
  2:{ exfalso. revert Hh. unfold result_of.
      destruct (isinstance_exn e ExceptRuntimeError); [destruct (str_in _ _)|]; discriminate. }
  rewrite (try_catch_ok_state _ _ s _ Hbody).
  apply bind_ok in Hbody. destruct Hbody as (p & Hload & _ & _ & ->).
  exists p.
  apply (inference_maintains p image_bytes prompt strength negative_prompt).
  apply load_pipeline_ok. exact Hload.
Qed.
End Pipeline.

(** X7. Once a pipeline is cached, a call of the local adapter loads, moves
    and configures nothing: it runs the inference on the cached pipeline,
    and the same pipeline is cached afterwards, whatever the outcome. *)
Theorem local_pipeline_reused :
  forall (World : Type) (lib : Lib) (ext : Ext World) (image_bytes : bytes)
         (prompt : string) (strength : float) (negative_prompt : string)
         (p : Pipeline) (s : Env World),
    cached p s ->
    let run :=
      local_inference_handler.transform_image lib ext image_bytes prompt strength
        negative_prompt s in
    cached p (state_of run) /\ Forall (uses_cached p) (trace_of run).
Proof.
  intros World lib ext image_bytes prompt strength negative_prompt p s H run.
  apply (transform_image_cached lib ext p image_bytes prompt strength negative_prompt s H).
Qed.

Lemma local_pipeline_reused_witness :
  let run :=
    local_inference_handler.transform_image sample_lib
      (gpu_world (Ok [ VImage sample_image ]) true) [] "oil painting" 0.6%float ""
      (mkEnv 0%nat (Some (mkPipeline 7)) (Some "cuda")) in
  cached (mkPipeline 7) (state_of run) /\ Forall (uses_cached (mkPipeline 7)) (trace_of run).
Proof.
  apply (local_pipeline_reused nat sample_lib (gpu_world (Ok [ VImage sample_image ]) true)
           [] "oil painting" 0.6%float "" (mkPipeline 7)
           (mkEnv 0%nat (Some (mkPipeline 7)) (Some "cuda"))).
  reflexivity.
Defined.

(** X8. After a call of the local adapter that returned an image, the
    pipeline is cached, and a further call, whatever its arguments, does
    not load the model again. *)
Theorem local_model_loaded_once :
  forall (World : Type) (lib : Lib) (ext : Ext World)
         (image_bytes : bytes) (prompt : string) (strength : float) (negative_prompt : string)
         (image_bytes' : bytes) (prompt' : string) (strength' : float)
         (negative_prompt' : string) (s : Env World) (image : pyval),
    let first :=
      local_inference_handler.transform_image lib ext image_bytes prompt strength
        negative_prompt s in
    let second :=
      local_inference_handler.transform_image lib ext image_bytes' prompt' strength'
        negative_prompt' (state_of first) in
    result_of first = Ok (true, image) ->
    exists p,
      cached p (state_of first) /\ cached p (state_of second)
      /\ Forall (uses_cached p) (trace_of second).
Proof.
  intros World lib ext image_bytes prompt strength negative_prompt image_bytes' prompt'
    strength' negative_prompt' s image first second Hok.
  destruct (success_caches lib ext image_bytes prompt strength negative_prompt s image Hok)
    as (p & Hp).
  exists p. split; [exact Hp|].
  apply (transform_image_cached lib ext p image_bytes' prompt' strength' negative_prompt' _ Hp).
Qed.

Lemma local_model_loaded_once_witness :
  let first :=
    local_inference_handler.transform_image sample_lib
      (gpu_world (Ok [ VImage sample_image ]) true) [] "oil painting" 0.6%float "" fresh_env in
  let second :=
    local_inference_handler.transform_image sample_lib
      (gpu_world (Ok [ VImage sample_image ]) true) [] "watercolor" 0.4%float "blurry"
      (state_of first) in
  exists p,
    cached p (state_of first) /\ cached p (state_of second)
    /\ Forall (uses_cached p) (trace_of second).
Proof.
  apply (local_model_loaded_once nat sample_lib (gpu_world (Ok [ VImage sample_image ]) true)
           [] "oil painting" 0.6%float "" [] "watercolor" 0.4%float "blurry" fresh_env
           (VImage sample_image)).
  vm_compute. reflexivity.
Defined.


Section TracePrefix.
Context {S : Type}.

Lemma bind_trace_prefix {A B} (m : M S A) (f : A -> M S B) (s : S) :
  exists t, trace_of (bind m f s) = trace_of (m s) ++ t.
Proof.
  unfold bind, trace_of. destruct (m s) as [[[a|e] s1] t1]; simpl.
  - destruct (f a s1) as [[r s2] t2]. simpl. eauto.
  - exists []. rewrite app_nil_r. reflexivity.
Qed.

Lemma try_catch_trace_prefix {A} (m : M S A) (h : exn -> M S A) (s : S) :
  exists t, trace_of (try_catch m h s) = trace_of (m s) ++ t.
Proof.
  unfold try_catch, trace_of. destruct (m s) as [[[a|e] s1] t1]; simpl.
  - exists []. rewrite app_nil_r. reflexivity.
  - destruct (h e s1) as [[r s2] t2]. simpl. eauto.
Qed.

Lemma bind_raised {A B} (m : M S A) (f : A -> M S B) (s s1 : S) e t1 :
  m s = (Raise e, s1, t1) -> bind m f s = (Raise e, s1, t1).
Proof. intros E. unfold bind. rewrite E. reflexivity. Qed.
End TracePrefix.

Section Lifecycle.
Context {World : Type} (lib : Lib) (ext : Ext World).

Local Abbreviation transform_image := (local_inference_handler.transform_image lib ext).
Local Abbreviation load_pipeline := (local_inference_handler.load_pipeline ext).

(** With nothing cached, a call starts by loading the model. *)
Lemma uncached_loads image_bytes prompt strength negative_prompt (s : Env World) :
  _pipeline s = None ->
  exists device,
    In (EvFromPretrained local_inference_handler.MODEL_ID device)
       (trace_of (transform_image image_bytes prompt strength negative_prompt s)).
Proof.
  intros Ep. unfold local_inference_handler.transform_image.
  match goal with
  | |- context [trace_of (try_catch ?m ?h s)] =>
      destruct (try_catch_trace_prefix m h s) as (t & ->)
  end.
  match goal with
  | |- context [trace_of (bind ?m ?f s)] =>
      destruct (bind_trace_prefix m f s) as (t' & ->)
  end.
  destruct (load_pipeline_fresh ext s Ep) as (device & w & t1 & _ & H).
  exists device.
  destruct (from_pretrained ext _ device w) as [[p1|e] w1].
  - destruct (pipeline_to ext p1 device w1) as [[p2|e] w2].
    + destruct H as (r & s' & t2 & -> & _). unfold trace_of. simpl.
      rewrite !in_app_iff. simpl. auto 10.
    + rewrite H. unfold trace_of. simpl.
      rewrite !in_app_iff. simpl. auto 10.
  - rewrite H. unfold trace_of. simpl.
    rewrite !in_app_iff. simpl. auto 10.
Qed.

(** A failed move to the device leaves the pipeline that was loaded in the
    cache. *)
Lemma failed_move_run image_bytes prompt strength negative_prompt (s : Env World)
    device w t1 p1 w1 e w2 :
  _pipeline s = None ->
  local_inference_handler.get_device ext s = (Ok device, mkEnv w None (Some device), t1) ->
  from_pretrained ext local_inference_handler.MODEL_ID device w = (Ok p1, w1) ->
  pipeline_to ext p1 device w1 = (Raise e, w2) ->
  exists message,
    transform_image image_bytes prompt strength negative_prompt s
    = (Ok (false, VStr message), mkEnv w2 (Some p1) (Some device),
       t1 ++ [ EvFromPretrained local_inference_handler.MODEL_ID device;
               EvPipelineTo p1 device ]).
Proof.
  intros Ep Hd Hload Hmove.
  destruct (load_pipeline_fresh ext s Ep) as (device' & w' & t1' & Hd' & H).
  rewrite Hd in Hd'. injection Hd'; intros; subst device' w' t1'.
  rewrite Hload, Hmove in H.
  unfold local_inference_handler.transform_image, try_catch.
  rewrite (bind_raised _ _ _ _ _ _ H).
  destruct (isinstance_exn e ExceptRuntimeError); [destruct (str_in _ _)|];
    simpl; rewrite app_nil_r; eexists; reflexivity.
Qed.

Lemma unload_pipeline_run (s : Env World) :
  local_inference_handler.unload_pipeline ext s
  = match _pipeline s with
    | None => (Ok tt, s, [])
    | Some _ =>
        let '(available, w1) := cuda_is_available ext (world s) in
        if (available : bool) then
          let '(r, w2) := empty_cache ext w1 in
          (r, mkEnv w2 None (_device s), [ EvCudaIsAvailable; EvEmptyCache ])
        else (Ok tt, mkEnv w1 None (_device s), [ EvCudaIsAvailable ])
    end.
Proof.
  unfold local_inference_handler.unload_pipeline. rewrite bind_globals.
  destruct (_pipeline s) as [p|]; [|reflexivity].
  unfold bind, local_inference_handler.set_pipeline, local_inference_handler.is_available,
    call_total, call, ret.
  simpl. destruct (cuda_is_available ext (world s)) as [[|] w1]; simpl; [|reflexivity].
  destruct (empty_cache ext w1) as [r w2]. reflexivity.
Qed.
End Lifecycle.

(** X9. When loading the model works but moving it to the device fails,
    [transform_image] reports a failure and leaves the pipeline that was
    never moved in the cache: every later call runs the inference on it,
    without loading or moving anything. *)
Theorem local_failed_move_stays_cached :
  forall (World : Type) (lib : Lib) (ext : Ext World)
         (image_bytes : bytes) (prompt : string) (strength : float) (negative_prompt : string)
         (image_bytes' : bytes) (prompt' : string) (strength' : float)
         (negative_prompt' : string)
         (s : Env World) (device : string) (w : World) (t1 : list event)
         (p1 : Pipeline) (w1 : World) (e : exn) (w2 : World),
    _pipeline s = None ->
    local_inference_handler.get_device ext s = (Ok device, mkEnv w None (Some device), t1) ->
    from_pretrained ext local_inference_handler.MODEL_ID device w = (Ok p1, w1) ->
    pipeline_to ext p1 device w1 = (Raise e, w2) ->
    let run :=
      local_inference_handler.transform_image lib ext image_bytes prompt strength
        negative_prompt s in
    let next :=
      local_inference_handler.transform_image lib ext image_bytes' prompt' strength'
        negative_prompt' (state_of run) in
    (exists message, result_of run = Ok (false, VStr message))
    /\ cached p1 (state_of run)
    /\ trace_of run
       = t1 ++ [ EvFromPretrained local_inference_handler.MODEL_ID device;
                 EvPipelineTo p1 device ]
    /\ cached p1 (state_of next)
    /\ Forall (uses_cached p1) (trace_of next).
Proof.
  intros World lib ext image_bytes prompt strength negative_prompt image_bytes' prompt'
    strength' negative_prompt' s device w t1 p1 w1 e w2 Ep Hd Hload Hmove run next.
  destruct (failed_move_run lib ext image_bytes prompt strength negative_prompt s
              device w t1 p1 w1 e w2 Ep Hd Hload Hmove) as (message & Hrun).
  subst next. subst run. rewrite Hrun.
  split; [exists message; reflexivity|].
  split; [reflexivity|]. split; [reflexivity|].
  apply (transform_image_cached lib ext p1 image_bytes' prompt' strength' negative_prompt').
  reflexivity.
Qed.

(** X10. [unload_pipeline] leaves no pipeline cached, whether or not
    clearing the device cache works, and keeps the device; with nothing
    cached it does nothing at all; otherwise it asks for CUDA and clears the
    device cache exactly when CUDA is available.  The next call of
    [transform_image] loads the model again. *)
Theorem unload_pipeline_forgets :
  forall (World : Type) (lib : Lib) (ext : Ext World) (image_bytes : bytes)
         (prompt : string) (strength : float) (negative_prompt : string) (s : Env World),
    let run := local_inference_handler.unload_pipeline ext s in
    _pipeline (state_of run) = None
    /\ _device (state_of run) = _device s
    /\ match _pipeline s with
       | None => run = (Ok tt, s, [])
       | Some _ =>
           trace_of run
           = EvCudaIsAvailable
             :: (if (cuda_is_available ext (world s)).1 then [ EvEmptyCache ] else [])
       end
    /\ exists device,
         In (EvFromPretrained local_inference_handler.MODEL_ID device)
            (trace_of (local_inference_handler.transform_image lib ext image_bytes prompt
                         strength negative_prompt (state_of run))).
Proof.
  intros World lib ext image_bytes prompt strength negative_prompt s run.
  assert (H : _pipeline (state_of run) = None
              /\ _device (state_of run) = _device s
              /\ match _pipeline s with
                 | None => run = (Ok tt, s, [])
                 | Some _ =>
                     trace_of run
                     = EvCudaIsAvailable
                       :: (if (cuda_is_available ext (world s)).1 then [ EvEmptyCache ] else [])
                 end).
  { subst run. rewrite unload_pipeline_run.
    destruct (_pipeline s) as [p|] eqn:Ep; [|auto].
    destruct (cuda_is_available ext (world s)) as [[|] w1]; simpl; [|auto].
    destruct (empty_cache ext w1) as [r w2]. simpl. auto. }
  destruct H as (H1 & H2 & H3).
  split; [exact H1|]. split; [exact H2|]. split; [exact H3|].
  apply uncached_loads. exact H1.
Qed.

Lemma local_failed_move_stays_cached_witness :
  let run :=
    local_inference_handler.transform_image sample_lib failing_move_world [] "oil painting"
      0.6%float "" fresh_env in
  let next :=
    local_inference_handler.transform_image sample_lib failing_move_world [] "watercolor"
      0.4%float "" (state_of run) in
  (exists message, result_of run = Ok (false, VStr message))
  /\ cached (mkPipeline 0) (state_of run)
  /\ trace_of run
     = [ EvCudaIsAvailable ]
       ++ [ EvFromPretrained local_inference_handler.MODEL_ID "cuda";
            EvPipelineTo (mkPipeline 0) "cuda" ]
  /\ cached (mkPipeline 0) (state_of next)
  /\ Forall (uses_cached (mkPipeline 0)) (trace_of next).
Proof.
  apply (local_failed_move_stays_cached nat sample_lib failing_move_world
           [] "oil painting" 0.6%float "" [] "watercolor" 0.4%float ""
           fresh_env "cuda" 0%nat [ EvCudaIsAvailable ] (mkPipeline 0) 0%nat
           out_of_memory 0%nat); reflexivity.
Defined.

Section Returning.
Context {S : Type} (cost : event -> nat).

Lemma costs_ret {A} (a : A) : costs (S:=S) cost (ret a) 0.
Proof. intros s. reflexivity. Qed.

Lemma costs_lift_res {A} (r : res A) : costs (S:=S) cost (lift_res r) 0.
Proof. intros s. reflexivity. Qed.

Lemma returning_ret {A} (v a : A) n : a <> v -> returning (S:=S) v cost (ret a) n.
Proof. intros Hne s E. injection E as E. contradiction. Qed.

Lemma returning_never {A} (v : A) (m : M S A) n :
  returns m (fun a => a <> v) -> returning v cost m n.
Proof.
  intros H s E. specialize (H s). rewrite E in H. contradiction.
Qed.

Lemma returning_bind {A B} (v : B) (m : M S A) (f : A -> M S B) k n :
  costs cost m k -> (forall a, returning v cost (f a) n) ->
  returning v cost (bind m f) (k + n).
Proof.
  intros Hm Hf s E. specialize (Hm s). unfold bind, result_of, trace_of in *.
  destruct (m s) as [[[a|e] s1] t1]; simpl in *; [|discriminate E].
  specialize (Hf a s1). unfold result_of, trace_of in Hf.
  destruct (f a s1) as [[r s2] t2]. simpl in *.
  rewrite weigh_app, Hm, (Hf E). reflexivity.
Qed.

Lemma returning_try_catch {A} (v : A) (m : M S A) (h : exn -> M S A) n :
  returning v cost m n -> (forall e, returns (h e) (fun a => a <> v)) ->
  returning v cost (try_catch m h) n.
Proof.
  intros Hm Hh s E. specialize (Hm s). unfold try_catch, result_of, trace_of in *.
  destruct (m s) as [[[a|e] s1] t1]; simpl in *; [exact (Hm E)|].
  specialize (Hh e s1). unfold result_of in Hh.
  destruct (h e s1) as [[r s2] t2]. simpl in *. subst r. contradiction.
Qed.
End Returning.

Section ReturningCalls.
Context {World : Type} (cost : event -> nat).

Lemma costs_call {A} (ev : event) (o : World -> res A * World) :
  costs cost (call ev o) (cost ev).
Proof.
  intros s. unfold call, trace_of. destruct (o (world s)) as [r w]. simpl. lia.
Qed.

Lemma costs_call_total {A} (ev : event) (o : World -> A * World) :
  costs cost (call_total ev o) (cost ev).
Proof.
  intros s. unfold call_total, trace_of. destruct (o (world s)) as [r w]. simpl. lia.
Qed.

Lemma returning_bind_lift {A B} (v : B) (r : res A) (f : A -> M (Env World) B) n :
  (forall a, returning v cost (f a) n) -> returning v cost (bind (lift_res r) f) n.
Proof. intros Hf. apply (returning_bind cost v _ f 0 n); [apply costs_lift_res|exact Hf]. Qed.

Lemma returning_bind_call {A B} (v : B) ev (o : World -> res A * World)
    (f : A -> M (Env World) B) n :
  (cost ev <= n)%nat -> (forall a, returning v cost (f a) (n - cost ev)) ->
  returning v cost (bind (call ev o) f) n.
Proof.
  intros Hle Hf. replace n with (cost ev + (n - cost ev))%nat by lia.
  apply returning_bind; [apply costs_call|].
  replace (cost ev + (n - cost ev) - cost ev)%nat with (n - cost ev)%nat by lia. exact Hf.
Qed.

Lemma returning_bind_call_total {A B} (v : B) ev (o : World -> A * World)
    (f : A -> M (Env World) B) n :
  (cost ev <= n)%nat -> (forall a, returning v cost (f a) (n - cost ev)) ->
  returning v cost (bind (call_total ev o) f) n.
Proof.
  intros Hle Hf. replace n with (cost ev + (n - cost ev))%nat by lia.
  apply returning_bind; [apply costs_call_total|].
  replace (cost ev + (n - cost ev) - cost ev)%nat with (n - cost ev)%nat by lia. exact Hf.
Qed.
End ReturningCalls.

(** Steps through a handler body towards the places that return [v]. *)
Ltac returning_step :=
  try unfold post, get, sleep;
  lazymatch goal with
  | |- returning _ _ (ret _) _ => apply returning_ret; discriminate
  | |- returning _ _ (bind (lift_res _) _) _ => apply returning_bind_lift; intros
  | |- returning _ _ (bind (call _ _) _) _ =>
      apply returning_bind_call; [price; lia|intros; price]
  | |- returning _ _ (bind (call_total _ _) _) _ =>
      apply returning_bind_call_total; [price; lia|intros; price]
  | |- returning _ _ (if ?b then _ else _) _ => destruct b eqn:?
  | |- returning _ _ (match ?x with _ => _ end) _ => destruct x eqn:?
  end.

Section LeonardoTimeout.
Context {World : Type} (lib : Lib) (ext : Ext World) (cfg : Config).

Local Abbreviation TIMEOUT := leonardo_api_handler.TIMEOUT_result.

Lemma fetch_completed_no_timeout generation_info :
  returns (leonardo_api_handler.fetch_completed lib ext generation_info)
          (fun r => r <> TIMEOUT).
Proof.
  unfold leonardo_api_handler.fetch_completed. repeat returns_step; discriminate.
Qed.

Lemma poll_timeout_sleeps key generation_id remaining :
  returning TIMEOUT sleep_cost (leonardo_api_handler.poll lib ext key generation_id remaining)
            (2 * remaining).
Proof.
  induction remaining as [|n IH]; simpl.
  - intros s _. reflexivity.
  - unfold leonardo_api_handler.FAILED_result.
    replace (S (n + S (n + 0))) with (S (S (2 * n))) by lia.
    repeat first
      [ exact IH | apply returning_never; apply fetch_completed_no_timeout
      | returning_step ].
Qed.

Lemma poll_timeout_requests key generation_id remaining :
  returning TIMEOUT request_cost
            (leonardo_api_handler.poll lib ext key generation_id remaining) remaining.
Proof.
  induction remaining as [|n IH]; simpl.
  - intros s _. reflexivity.
  - unfold leonardo_api_handler.FAILED_result.
    repeat first
      [ exact IH | apply returning_never; apply fetch_completed_no_timeout
      | returning_step ].
Qed.

Lemma leonardo_timeout_sleeps image_bytes prompt strength negative_prompt :
  returning TIMEOUT sleep_cost
    (leonardo_api_handler.transform_image lib ext cfg image_bytes prompt strength
       negative_prompt) 120.
Proof.
  unfold leonardo_api_handler.transform_image.
  destruct (key_of _); [|apply returning_ret; discriminate].
  apply returning_try_catch; [|intros; repeat returns_step; discriminate].
  repeat first
    [ apply (poll_timeout_sleeps _ _ leonardo_api_handler.max_attempts)
    | returning_step ].
Qed.

Lemma leonardo_timeout_requests image_bytes prompt strength negative_prompt :
  returning TIMEOUT request_cost
    (leonardo_api_handler.transform_image lib ext cfg image_bytes prompt strength
       negative_prompt) 62.
Proof.
  unfold leonardo_api_handler.transform_image.
  destruct (key_of _); [|apply returning_ret; discriminate].
  apply returning_try_catch; [|intros; repeat returns_step; discriminate].
  repeat first
    [ apply (poll_timeout_requests _ _ leonardo_api_handler.max_attempts)
    | returning_step ].
Qed.
End LeonardoTimeout.

(** X11. The timeout report of the Leonardo.ai adapter, whose text speaks of
    60 seconds, is returned only after the call has slept for 120 seconds:
    it has then made 62 requests, the upload, the generation request and
    60 status reads. *)
Theorem leonardo_timeout_after_120_seconds :
  forall (World : Type) (lib : Lib) (ext : Ext World) (cfg : Config)
         (image_bytes : bytes) (prompt : string) (strength : float)
         (negative_prompt : string) (s : Env World),
    let run :=
      leonardo_api_handler.transform_image lib ext cfg image_bytes prompt strength
        negative_prompt s in
    result_of run
    = Ok (false, VStr "Timeout: Generation did not complete within 60 seconds.") ->
    weigh sleep_cost (trace_of run) = 120%nat
    /\ weigh request_cost (trace_of run) = 62%nat.
Proof.
  intros World lib ext cfg image_bytes prompt strength negative_prompt s run H.
  split.
  - apply (leonardo_timeout_sleeps lib ext cfg image_bytes prompt strength negative_prompt s H).
  - apply (leonardo_timeout_requests lib ext cfg image_bytes prompt strength negative_prompt s H).
Qed.

Lemma leonardo_timeout_after_120_seconds_witness :
  let run :=
    leonardo_api_handler.transform_image sample_lib leonardo_pending_world sample_cfg []
      "oil painting" 0.6%float "" fresh_env in
  weigh sleep_cost (trace_of run) = 120%nat
  /\ weigh request_cost (trace_of run) = 62%nat.
Proof.
  apply (leonardo_timeout_after_120_seconds nat sample_lib leonardo_pending_world sample_cfg
           [] "oil painting" 0.6%float "" fresh_env).
  vm_compute. reflexivity.
Defined.

Section HfReports.
Context {World : Type} (lib : Lib) (ext : Ext World) (cfg : Config).




End HfReports.


Section ReplicateOutputs.
Context {World : Type} (lib : Lib) (ext : Ext World) (cfg : Config).

Lemma handler_fails (e : exn) (s : Env World) :
  exists message,
    (if str_in "401" (exn_str e) || str_in "authentication" (lower (exn_str e)) then
       ret (false, VStr "Replicate API token is invalid. Check your token.")
     else if str_in "402" (exn_str e) || str_in "payment" (lower (exn_str e))
             || str_in "credit" (lower (exn_str e)) then
       ret (false, VStr "No credit in your Replicate account. Check your billing settings.")
     else if str_in "429" (exn_str e) || str_in "rate limit" (lower (exn_str e)) then
       ret (false, VStr "Too many requests. Wait a few minutes and try again.")
     else if str_in "500" (exn_str e) || str_in "503" (exn_str e) then
       ret (false, VStr "Replicate servers are busy. Please try again in a few minutes.")
     else
       ret (false, VStr ("Replicate API error: " +:+ str_take 150 (exn_str e)))) s
    = (Ok (false, VStr message), s, []).
Proof.
  repeat match goal with |- context [if ?b then _ else _] => destruct b end;
    eexists; reflexivity.
Qed.

Lemma replicate_unshaped image_bytes prompt strength negative_prompt (s : Env World)
    token output w1 :
  key_of (REPLICATE_API_TOKEN cfg) = Some token ->
  replicate_run ext replicate_api_handler.MODEL
    (replicate_api_handler.input_params lib image_bytes prompt strength) (world s)
  = (Ok output, w1) ->
  image_shaped output = false ->
  exists message,
    replicate_api_handler.transform_image lib ext cfg image_bytes prompt strength
      negative_prompt s
    = (Ok (false, VStr message), mkEnv w1 (_pipeline s) (_device s),
       [ EvReplicateRun replicate_api_handler.MODEL
           (replicate_api_handler.input_params lib image_bytes prompt strength) ]).
Proof.
  intros Hkey Hrun Hshape.
  unfold replicate_api_handler.transform_image. rewrite Hkey.
  unfold try_catch. rewrite bind_call. rewrite Hrun. cbn [fst snd].
  unfold replicate_api_handler.process_output.
  destruct output as [| | | | | l | | | |]; try discriminate Hshape;
    try destruct l as [|first rest]; try destruct first; try discriminate Hshape;
    rewrite ?bind_ret; try (eexists; reflexivity);
    cbn [py_size_mode_check]; rewrite bind_lift_raise;
    match goal with
    | |- context [AttributeError ?v ?a] =>
        destruct (handler_fails (AttributeError v a)
                    (mkEnv w1 (_pipeline s) (_device s))) as (message & ->)
    end; exists message; reflexivity.
Qed.
End ReplicateOutputs.

(** X13. When [replicate.run] answers with anything but a URL, an image, or
    a list that starts with one, the Replicate adapter returns a failure
    after that one request, without a download.  An empty list is reported
    as an unexpected format; a list whose first element is itself a list is
    not unwrapped further and ends in the generic error report. *)
Theorem replicate_other_output_fails :
  forall (World : Type) (lib : Lib) (ext : Ext World) (cfg : Config)
         (image_bytes : bytes) (prompt : string) (strength : float)
         (negative_prompt : string) (s : Env World)
         (token : string) (output : pyval) (w1 : World),
    key_of (REPLICATE_API_TOKEN cfg) = Some token ->
    replicate_run ext replicate_api_handler.MODEL
      (replicate_api_handler.input_params lib image_bytes prompt strength) (world s)
    = (Ok output, w1) ->
    image_shaped output = false ->
    exists message,
      replicate_api_handler.transform_image lib ext cfg image_bytes prompt strength
        negative_prompt s
      = (Ok (false, VStr message), mkEnv w1 (_pipeline s) (_device s),
         [ EvReplicateRun replicate_api_handler.MODEL
             (replicate_api_handler.input_params lib image_bytes prompt strength) ])
      /\ (output = VList [] -> message = "Unexpected output format: <class 'list'>")
      /\ (forall inner rest,
            output = VList (VList inner :: rest) ->
            message = "Replicate API error: 'list' object has no attribute 'size'").
Proof.
  intros World lib ext cfg image_bytes prompt strength negative_prompt s token output w1
    Hkey Hrun Hshape.
  destruct (replicate_unshaped lib ext cfg image_bytes prompt strength negative_prompt s
              token output w1 Hkey Hrun Hshape) as (message & Hm).
  exists message. split; [exact Hm|].
  revert Hm. unfold replicate_api_handler.transform_image. rewrite Hkey.
  unfold try_catch. rewrite bind_call. rewrite Hrun. cbn [fst snd].
  unfold replicate_api_handler.process_output.
  intros Hm. split.
  - intros ->. rewrite bind_ret in Hm. vm_compute in Hm. congruence.
  - intros inner rest ->. rewrite bind_ret in Hm.
    cbn [py_size_mode_check] in Hm. rewrite bind_lift_raise in Hm.
    vm_compute in Hm. congruence.
Qed.

Lemma replicate_other_output_fails_witness :
  exists message,
    replicate_api_handler.transform_image sample_lib
      (replicate_world (VList [ VList [ VStr "https://replicate.delivery/out.png" ] ]))
      sample_cfg [] "oil painting" 0.6%float "" fresh_env
    = (Ok (false, VStr message), fresh_env,
       [ EvReplicateRun replicate_api_handler.MODEL
           (replicate_api_handler.input_params sample_lib [] "oil painting" 0.6%float) ])
    /\ message = "Replicate API error: 'list' object has no attribute 'size'".
Proof.
  destruct (replicate_other_output_fails nat sample_lib
              (replicate_world (VList [ VList [ VStr "https://replicate.delivery/out.png" ] ]))
              sample_cfg [] "oil painting" 0.6%float "" fresh_env "r8_token_0123456789"
              (VList [ VList [ VStr "https://replicate.delivery/out.png" ] ]) 0%nat
              eq_refl eq_refl eq_refl) as (message & Hrun & _ & Hnested).
  exists message. split; [exact Hrun|].
  apply (Hnested [ VStr "https://replicate.delivery/out.png" ] []). reflexivity.
Defined.

Section Sdxl.
Context (lib : Lib).

Lemma closest_dimension_member original_aspect dims best_match best_aspect_diff d :
  stability_ai_handler.closest_dimension original_aspect dims best_match best_aspect_diff
  = Ok (Some d) ->
  In d dims \/ best_match = Some d.
Proof.
  revert best_match best_aspect_diff.
  induction dims as [|[w h] rest IH]; intros best_match best_aspect_diff; simpl.
  - intros E. injection E as ->. auto.
  - destruct (true_div w h) as [target_aspect|e]; [|discriminate].
    destruct (PrimFloat.ltb _ _); intros E; apply IH in E.
    + destruct E as [E|E]; [auto|]. injection E as <-. auto.
    + destruct E as [E|E]; auto.
Qed.
End Sdxl.

(** X14. Whenever [resize_for_sdxl] returns, the image it returns is the
    input resized to one of the nine sizes of [SDXL_ALLOWED_DIMENSIONS]; an
    image of height 0 makes it raise [ZeroDivisionError]. *)
Theorem resize_for_sdxl_allowed :
  forall (lib : Lib) (image resized : Image),
    (stability_ai_handler.resize_for_sdxl lib image = Ok resized ->
     exists d,
       In d stability_ai_handler.SDXL_ALLOWED_DIMENSIONS
       /\ Image_resize lib image d = Ok resized)
    /\ (height image = 0 ->
        stability_ai_handler.resize_for_sdxl lib image = Raise ZeroDivisionError).
Proof.
  intros lib image resized. unfold stability_ai_handler.resize_for_sdxl. split.
  - destruct (true_div (width image) (height image)) as [original_aspect|e]; [|discriminate].
    destruct (stability_ai_handler.closest_dimension _ _ _ _) as [[d|]|e] eqn:E;
      try discriminate.
    intros Hr. exists d. split; [|exact Hr].
    apply closest_dimension_member in E. destruct E as [E|E]; [exact E|discriminate E].
  - intros ->. reflexivity.
Qed.

Lemma resize_for_sdxl_allowed_witness :
  exists d,
    In d stability_ai_handler.SDXL_ALLOWED_DIMENSIONS
    /\ Image_resize sample_lib (mkImage 1920 1080 "RGB" []) d
       = Ok (mkImage 1344 768 "RGB" []).
Proof.
  apply (proj1 (resize_for_sdxl_allowed sample_lib (mkImage 1920 1080 "RGB" [])
                  (mkImage 1344 768 "RGB" []))).
  vm_compute. reflexivity.
Defined.

Lemma try_catch_silent {S A} (m : M S A) (h : exn -> M S A) (s : S) :
  (forall e s1, trace_of (h e s1) = []) ->
  trace_of (try_catch m h s) = trace_of (m s).
Proof.
  intros Hh. unfold try_catch, trace_of in *.
  destruct (m s) as [[[a|e] s1] t1]; simpl; [reflexivity|].
  specialize (Hh e s1). destruct (h e s1) as [[r s2] t2]. simpl in *. subst t2.
  apply app_nil_r.
Qed.

(** Runs one step of a handler body whose trace the goal speaks of. *)
Ltac run_step :=
  match goal with
  | |- context [bind (lift_res ?r) ?f ?s] =>
      let E := fresh "E" in
      destruct r eqn:E; [rewrite (bind_lift_ok _ f s)|rewrite (bind_lift_raise _ f s)]
  | |- context [bind (call ?ev ?o) ?f ?s] =>
      rewrite (bind_call_run ev o f s);
      let E := fresh "E" in
      destruct (o (world s)) as [[?|?] ?] eqn:E; cbn [fst snd];
      rewrite ?trace_of_prefixed
  | |- context [trace_of ((if ?b then _ else _) _)] =>
      let E := fresh "E" in destruct b eqn:E
  end.

Section LeonardoOrder.
Context {World : Type} (lib : Lib) (ext : Ext World) (cfg : Config).

Lemma leonardo_phases_run image_bytes prompt strength negative_prompt key (s : Env World) :
  key_of (LEONARDO_API_KEY cfg) = Some key ->
  leonardo_phases lib key image_bytes prompt strength negative_prompt
    (trace_of (leonardo_api_handler.transform_image lib ext cfg image_bytes prompt strength
                 negative_prompt s)).
Proof.
  intros Hkey. unfold leonardo_api_handler.transform_image. rewrite Hkey.
  rewrite try_catch_silent.
  2:{ intros e s1. destruct (isinstance_exn e ExceptRequestException); reflexivity. }
  unfold post, leonardo_phases.
  run_step; [|eexists; split; [reflexivity|left; reflexivity]].
  run_step.
  { repeat run_step; eexists; (split; [reflexivity|left; reflexivity]). }
  do 3 (run_step; [|eexists; split; [reflexivity|left; reflexivity]]).
  run_step; [eexists; split; [reflexivity|left; reflexivity]|].
  apply negb_false_iff in E4.
  run_step.
  2:{ eexists; split; [reflexivity|]. right. eexists _, _.
      split; [exact E4|]. split; [reflexivity|]. left. reflexivity. }
  run_step.
  { repeat run_step; eexists; (split; [reflexivity|]); right; eexists _, _;
      (split; [exact E4|]); (split; [reflexivity|]); left; reflexivity. }
  do 3 (run_step;
        [|eexists; (split; [reflexivity|]); right; eexists _, _;
          (split; [exact E4|]); (split; [reflexivity|]); left; reflexivity]).
  run_step.
  { eexists; (split; [reflexivity|]); right; eexists _, _;
      (split; [exact E4|]); (split; [reflexivity|]); left; reflexivity. }
  apply negb_false_iff in E10.
  match goal with
  | |- context [trace_of (leonardo_api_handler.poll lib ext key ?g ?n ?s1)] =>
      destruct (poll_trace lib ext key g n s1) as (k & tail & -> & Hk & Htail)
  end.
  eexists; (split; [reflexivity|]). right. eexists _, _.
  split; [exact E4|]. split; [reflexivity|]. right.
  eexists _, k, tail. split; [exact E10|]. split; [reflexivity|].
  split; [exact Hk|exact Htail].
Qed.
End LeonardoOrder.

(** X15. With a key set, every call of the Leonardo.ai adapter begins with
    the upload; the generation request follows only once the upload has
    returned an id, which it carries; status reads follow only once the
    generation request has returned a job id: at most 60 of them, each after
    a sleep of 2 seconds, and at most one download at the very end. *)
Theorem leonardo_requests_in_order :
  forall (World : Type) (lib : Lib) (ext : Ext World) (cfg : Config)
         (image_bytes : bytes) (prompt : string) (strength : float)
         (negative_prompt : string) (key : string) (s : Env World),
    key_of (LEONARDO_API_KEY cfg) = Some key ->
    leonardo_phases lib key image_bytes prompt strength negative_prompt
      (trace_of (leonardo_api_handler.transform_image lib ext cfg image_bytes prompt strength
                   negative_prompt s)).
Proof. intros. apply leonardo_phases_run. assumption. Qed.

Lemma leonardo_requests_in_order_witness :
  leonardo_phases sample_lib "leonardo-key-0123456789" [] "oil painting" 0.6%float ""
    (trace_of (leonardo_api_handler.transform_image sample_lib leonardo_pending_world
                 sample_cfg [] "oil painting" 0.6%float "" fresh_env)).
Proof.
  apply (leonardo_requests_in_order nat sample_lib leonardo_pending_world sample_cfg []
           "oil painting" 0.6%float "" "leonardo-key-0123456789" fresh_env).
  reflexivity.
Defined.

Lemma calls_in_weigh (t : list event) : calls_in t = weigh invocation_cost t.
Proof.
  unfold calls_in, invocation_cost. induction t as [|ev t IH]; [reflexivity|].
  simpl. destruct (is_invocation ev); simpl; rewrite IH; reflexivity.
Qed.

Section AppCalls.
Context {World : Type} (lib : Lib) (ext : Ext World) (cfg : Config).

Lemma emits_in_env {A} (m : M (Env World) A) Q :
  emits_only m Q -> emits_only (app.in_env m) Q.
Proof.
  intros H s. specialize (H (env s)). unfold app.in_env, trace_of in *.
  destruct (m (env s)) as [[r e] t]. exact H.
Qed.

Lemma emits_ui u Q : Q (EvUi u) -> emits_only (app.ui ext u) Q.
Proof. intros H. apply emits_in_env, emits_call_total, H. Qed.

Lemma emits_session_set g Q : emits_only (app.session_set (World:=World) g) Q.
Proof. intros s. constructor. Qed.

Lemma emits_invoke (handler : @app.Handler World) platform_name image_bytes prompt strength
    negative_prompt (Q : event -> Prop) :
  Q (EvTransformImage platform_name image_bytes prompt strength negative_prompt) ->
  (forall r, Q (EvTransformReturned r)) ->
  emits_only (handler image_bytes prompt strength negative_prompt) Q ->
  emits_only (app.invoke handler platform_name image_bytes prompt strength negative_prompt) Q.
Proof.
  intros H1 H2 Hh s. specialize (Hh (env s)). unfold app.invoke, trace_of in *.
  destruct (handler _ _ _ _ _) as [[r e] t]. simpl in *.
  constructor; [exact H1|]. apply Forall_app. split; [exact Hh|].
  constructor; [apply H2|constructor].
Qed.

Lemma emits_weaken {S A} (m : M S A) (P Q : event -> Prop) :
  emits_only m P -> (forall ev, P ev -> Q ev) -> emits_only m Q.
Proof. intros H HPQ s. eapply Forall_impl; [apply H|exact HPQ]. Qed.

Lemma variations_invoked (b : backend) platform_name image_bytes prompt strength
    negative_prompt num_variations indices acc :
  emits_only
    (app.variations lib ext (transform lib ext cfg b) platform_name image_bytes prompt
       strength negative_prompt num_variations indices acc)
    (invoked_with platform_name image_bytes prompt strength negative_prompt).
Proof.
  revert acc. induction indices as [|i rest IH]; intros acc; simpl; [apply emits_ret|].
  apply emits_bind; [apply emits_lift_res|]. intros fraction.
  apply emits_bind; [apply emits_lift_res|]. intros scaled.
  apply emits_bind; [apply emits_ui; exact I|]. intros _.
  apply emits_bind; [apply emits_in_env, emits_call_total; exact I|]. intros seed.
  apply emits_bind.
  { apply emits_invoke; [repeat split|intros; exact I|].
    eapply emits_weaken; [apply adapter_events_only|].
    intros []; simpl; intros H; first [exact I | destruct H]. }
  intros [[] result]; [apply IH|].
  apply emits_bind; [apply emits_ui; exact I|]. intros _.
  apply emits_bind; [apply emits_ui; exact I|]. intros _. apply emits_ret.
Qed.

Lemma spends_in_env {A} cost (m : M (Env World) A) n :
  spends cost m n -> spends cost (app.in_env m) n.
Proof.
  intros H s. specialize (H (env s)). unfold app.in_env, trace_of in *.
  destruct (m (env s)) as [[r e] t]. exact H.
Qed.

Lemma spends_ui cost u : cost (EvUi u) = 0%nat -> forall n, spends cost (app.ui ext u) n.
Proof.
  intros H n. eapply spends_weaken;
    [apply spends_in_env, spends_call_total|rewrite H; lia].
Qed.

Lemma invoke_once (b : backend) platform_name image_bytes prompt strength negative_prompt :
  spends invocation_cost
    (app.invoke (transform lib ext cfg b) platform_name image_bytes prompt strength
       negative_prompt) 1.
Proof.
  intros s. unfold app.invoke, trace_of.
  pose proof (adapter_events_only lib ext cfg b image_bytes prompt strength negative_prompt
                (env s)) as Hh.
  unfold trace_of in Hh. destruct (transform _ _ _ _ _ _ _ _ _) as [[r e] t]. simpl in *.
  rewrite weigh_app. simpl.
  destruct (adapter_trace_silent t Hh) as (_ & Hc & _).
  rewrite calls_in_weigh in Hc. rewrite Hc. reflexivity.
Qed.

Lemma variations_calls (b : backend) platform_name image_bytes prompt strength
    negative_prompt num_variations indices acc :
  spends invocation_cost
    (app.variations lib ext (transform lib ext cfg b) platform_name image_bytes prompt
       strength negative_prompt num_variations indices acc)
    (length indices).
Proof.
  revert acc. induction indices as [|i rest IH]; intros acc; simpl; [apply spends_ret|].
  apply spends_bind_lift. intros fraction.
  apply spends_bind_lift. intros scaled.
  apply spends_seq with (n := 0%nat) (k := S (length rest)); [apply spends_ui; reflexivity| |lia].
  intros _.
  apply spends_seq with (n := 0%nat) (k := S (length rest)); [| |lia].
  { apply spends_in_env. eapply spends_weaken; [apply spends_call_total|]. unfold invocation_cost. simpl. lia. }
  intros seed.
  apply spends_seq with (n := 1%nat) (k := length rest); [apply invoke_once| |lia].
  intros [[] result]; [apply IH|].
  apply spends_seq with (n := 0%nat) (k := length rest); [apply spends_ui; reflexivity| |lia].
  intros _.
  apply spends_seq with (n := 0%nat) (k := length rest); [apply spends_ui; reflexivity| |lia].
  intros _. apply spends_ret.
Qed.
End AppCalls.

Section Batch.
Context {World : Type} (lib : Lib) (ext : Ext World) (cfg : Config).

Lemma prompts_used_eq mode style_config custom_prompt negative_prompt :
  match str_in "Preset Style" mode, style_config with
  | true, Some st => (style_prompt st, default "" (style_negative_prompt st))
  | _, _ => (custom_prompt, negative_prompt)
  end
  = prompts_used mode style_config custom_prompt negative_prompt.
Proof.
  unfold prompts_used. destruct (str_in _ _), style_config; reflexivity.
Qed.

Lemma render_transform_invocations image platform mode strength style_config custom_prompt
    negative_prompt num_variations :
  emits_only
    (app.render_transform lib ext cfg image platform mode strength style_config
       custom_prompt negative_prompt num_variations)
    (batch_invocation lib ext cfg image platform mode strength style_config custom_prompt
       negative_prompt).
Proof.
  unfold app.render_transform.
  apply emits_bind; [apply emits_in_env, emits_call_total; exact I|]. intros [|];
    [|apply emits_ret].
  apply emits_bind; [apply emits_ui; exact I|]. intros _.
  apply emits_bind_value; [apply emits_lift_res|]. intros image_bytes (s0 & Hsave).
  change (Image_save_png lib image = Ok image_bytes) in Hsave.
  apply emits_bind; [apply emits_in_env, emits_call_total; exact I|]. intros start_time.
  apply emits_try_catch.
  2:{ intros e. apply emits_bind; [apply emits_ui; exact I|]. intros _.
      apply emits_ui. exact I. }
  apply emits_bind; [apply emits_ui; exact I|]. intros _.
  destruct (app.select_handler lib ext cfg platform) as [[handler platform_name]|] eqn:Hsel;
    [|apply emits_ui; exact I].
  destruct (select_handler_backend lib ext cfg _ _ _ Hsel) as (b & ->).
  apply emits_bind; [apply emits_ui; exact I|]. intros _.
  rewrite prompts_used_eq.
  destruct (prompts_used mode style_config custom_prompt negative_prompt)
    as [used_prompt used_negative_prompt] eqn:Hused.
  apply emits_bind.
  { eapply emits_weaken; [apply variations_invoked|].
    intros []; simpl; try (intros; exact I).
    intros (-> & -> & -> & -> & ->). split; [eauto|]. split; [exact Hsave|]. auto. }
  intros [generated_images|]; [|apply emits_ret].
  apply emits_bind; [apply emits_in_env, emits_call_total; exact I|]. intros end_time.
  apply emits_bind; [apply emits_ui; exact I|]. intros _.
  apply emits_bind; [apply emits_session_set|]. intros _.
  apply emits_bind; [apply emits_session_set|]. intros _.
  apply emits_bind; [apply emits_in_env, emits_call_total; exact I|]. intros timestamp.
  apply emits_bind; [apply emits_session_set|]. intros _.
  apply emits_ui. exact I.
Qed.

Lemma render_transform_calls image platform mode strength style_config custom_prompt
    negative_prompt num_variations :
  spends invocation_cost
    (app.render_transform lib ext cfg image platform mode strength style_config
       custom_prompt negative_prompt num_variations)
    num_variations.
Proof.
  assert (Hw : forall {A} ev (o : World -> A * World) n,
             invocation_cost ev = 0%nat ->
             spends invocation_cost (app.in_env (call_total ev o)) n).
  { intros A ev o n H. apply spends_in_env.
    eapply spends_weaken; [apply spends_call_total|]. rewrite H. lia. }
  assert (Hs : forall g n, spends invocation_cost (app.session_set (World:=World) g) n).
  { intros g n s. simpl. lia. }
  unfold app.render_transform.
  set (n := num_variations) at 2.
  apply spends_seq with (n := 0%nat) (k := n); [apply Hw; reflexivity| |lia].
  intros [|]; [|apply spends_ret].
  apply spends_seq with (n := 0%nat) (k := n); [apply spends_ui; reflexivity| |lia].
  intros _. apply spends_bind_lift. intros image_bytes.
  apply spends_seq with (n := 0%nat) (k := n); [apply Hw; reflexivity| |lia].
  intros start_time.
  apply spends_guarded.
  2:{ intros e.
      apply spends_seq with (n := 0%nat) (k := 0%nat); [apply spends_ui; reflexivity| |lia].
      intros _. apply spends_ui. reflexivity. }
  apply spends_seq with (n := 0%nat) (k := n); [apply spends_ui; reflexivity| |lia].
  intros _.
  destruct (app.select_handler lib ext cfg platform) as [[handler platform_name]|] eqn:Hsel;
    [|apply spends_ui; reflexivity].
  destruct (select_handler_backend lib ext cfg _ _ _ Hsel) as (b & ->).
  apply spends_seq with (n := 0%nat) (k := n); [apply spends_ui; reflexivity| |lia].
  intros _.
  match goal with
  | |- context [let '(_, _) := ?p in _] => destruct p as [used_prompt used_negative_prompt]
  end.
  apply spends_seq with (n := n) (k := 0%nat); [| |lia].
  { eapply spends_weaken; [apply variations_calls|]. rewrite length_seq. subst n. lia. }
  intros [generated_images|]; [|apply spends_ret].
  apply spends_seq with (n := 0%nat) (k := 0%nat); [apply Hw; reflexivity| |lia].
  intros end_time.
  apply spends_seq with (n := 0%nat) (k := 0%nat); [apply spends_ui; reflexivity| |lia].
  intros _.
  apply spends_seq with (n := 0%nat) (k := 0%nat); [apply Hs| |lia]. intros _.
  apply spends_seq with (n := 0%nat) (k := 0%nat); [apply Hs| |lia]. intros _.
  apply spends_seq with (n := 0%nat) (k := 0%nat); [apply Hw; reflexivity| |lia].
  intros timestamp.
  apply spends_seq with (n := 0%nat) (k := 0%nat); [apply Hs| |lia]. intros _.
  apply spends_ui. reflexivity.
Qed.
End Batch.

(** X16. One run of [render_transform] invokes the adapter at most
    [num_variations] times, and every invocation gets the same arguments:
    the PNG bytes of the uploaded image, the prompt and negative prompt of
    the chosen style in preset mode and the typed ones otherwise, and always
    the strength of the slider; the strength a style preset carries is never
    passed on. *)
Theorem batch_invocations_alike :
  forall (World : Type) (lib : Lib) (ext : Ext World) (cfg : Config) (image : Image)
         (platform mode : string) (strength : float) (style_config : option style)
         (custom_prompt negative_prompt : string) (num_variations : nat) (s : App World),
    let t :=
      trace_of (app.render_transform lib ext cfg image platform mode strength style_config
                  custom_prompt negative_prompt num_variations s) in
    (calls_in t <= num_variations)%nat
    /\ Forall (batch_invocation lib ext cfg image platform mode strength style_config
                 custom_prompt negative_prompt) t
    /\ forall prompt preset_strength preset_strength' negative,
         app.render_transform lib ext cfg image platform mode strength
           (Some (mkStyle prompt preset_strength negative)) custom_prompt negative_prompt
           num_variations s
         = app.render_transform lib ext cfg image platform mode strength
             (Some (mkStyle prompt preset_strength' negative)) custom_prompt negative_prompt
             num_variations s.
Proof.
  intros World lib ext cfg image platform mode strength style_config custom_prompt
    negative_prompt num_variations s t. subst t.
  split; [rewrite calls_in_weigh; apply render_transform_calls|].
  split; [apply render_transform_invocations|].
  intros prompt preset_strength preset_strength' negative. reflexivity.
Qed.

Section Stored.
Context {World : Type} (lib : Lib) (ext : Ext World) (cfg : Config).

Lemma render_transform_session image platform mode strength style_config custom_prompt
    negative_prompt num_variations ss :
  yields ss
    (app.render_transform lib ext cfg image platform mode strength style_config
       custom_prompt negative_prompt num_variations)
    (fun _ ss' _ =>
       session_after lib ext cfg platform mode strength style_config custom_prompt
         negative_prompt num_variations ss ss').
Proof.
  unfold app.render_transform, session_after.
  apply yields_world. intros [|]; [|apply yields_ret; left; reflexivity].
  apply yields_ui.
  apply yields_lift_res; [|intros e _; left; reflexivity].
  intros image_bytes _. apply yields_world. intros start_time.
  apply yields_try_catch. apply yields_ui.
  destruct (app.select_handler lib ext cfg platform) as [[handler platform_name]|] eqn:Hsel;
    [|apply yields_ui_last; left; reflexivity].
  destruct (select_handler_backend lib ext cfg _ _ _ Hsel) as (b & ->).
  apply yields_ui.
  rewrite prompts_used_eq.
  destruct (prompts_used mode style_config custom_prompt negative_prompt)
    as [used_prompt used_negative_prompt].
  apply yields_bind.
  eapply yields_weaken;
    [apply variations_yields; intros e; apply adapter_events_only|].
  intros r ss' t [-> (images & tail & _ & _ & Hcase)].
  destruct r as [[out|]|e].
  - destruct Hcase as (_ & -> & Hlen & _).
    apply yields_world. intros end_time. apply yields_ui.
    apply yields_session_set. apply yields_session_set.
    apply yields_world. intros timestamp. apply yields_session_set.
    apply yields_ui_last. right.
    eexists _, platform_name, images, _, timestamp.
    split; [reflexivity|]. split; [exact Hlen|reflexivity].
  - apply yields_ret. left. reflexivity.
  - apply yields_ui. apply yields_ui_last. left. reflexivity.
Qed.
End Stored.

(** X17. A run of [render_transform] either leaves the session as it was or
    stores a batch of exactly [num_variations] images together with the
    settings every invocation of that batch was given: the name of the
    chosen platform, the prompt and the negative prompt that were sent and
    the strength of the slider. *)
Theorem stored_settings_are_those_sent :
  forall (World : Type) (lib : Lib) (ext : Ext World) (cfg : Config) (image : Image)
         (platform mode : string) (strength : float) (style_config : option style)
         (custom_prompt negative_prompt : string) (num_variations : nat) (s : App World),
    let run :=
      app.render_transform lib ext cfg image platform mode strength style_config
        custom_prompt negative_prompt num_variations s in
    session_after lib ext cfg platform mode strength style_config custom_prompt
      negative_prompt num_variations (session_state s) (session_state (state_of run))
    /\ Forall (batch_invocation lib ext cfg image platform mode strength style_config
                 custom_prompt negative_prompt) (trace_of run).
Proof.
  intros World lib ext cfg image platform mode strength style_config custom_prompt
    negative_prompt num_variations s run. subst run.
  split; [|apply render_transform_invocations].
  apply (render_transform_session lib ext cfg image platform mode strength style_config
           custom_prompt negative_prompt num_variations (session_state s) s eq_refl).
Qed.

Section Grid.
Context (columns img_width img_height spacing : Z).

Lemma paste_cells_canvas grid idx images :
  image_processor.canvas_width (image_processor.paste_cells grid columns img_width img_height spacing idx images)
  = image_processor.canvas_width grid
  /\ image_processor.canvas_height (image_processor.paste_cells grid columns img_width img_height spacing idx images)
     = image_processor.canvas_height grid.
Proof.
  revert grid idx. induction images as [|img rest IH]; intros grid idx; simpl; [auto|].
  destruct (IH (image_processor.paste grid img
                  ((idx mod columns) * (img_width + spacing),
                   (idx / columns) * (img_height + spacing))) (idx + 1)) as [-> ->].
  auto.
Qed.

Lemma paste_cells_pasted grid idx images :
  image_processor.pasted (image_processor.paste_cells grid columns img_width img_height spacing idx images)
  = image_processor.pasted grid
    ++ imap (fun k img =>
               (img, cell_position columns img_width img_height spacing (idx + Z.of_nat k)))
            images.
Proof.
  revert grid idx. induction images as [|img rest IH]; intros grid idx; simpl.
  - rewrite app_nil_r. reflexivity.
  - rewrite IH. simpl. rewrite <- app_assoc. simpl. f_equal. f_equal.
    + unfold cell_position. rewrite Z.add_0_r. reflexivity.
    + apply imap_ext. intros k img' _. simpl. f_equal. f_equal. lia.
Qed.
End Grid.

Lemma rows_bound (n columns i : Z) :
  0 < columns -> 0 <= i < n ->
  0 <= i / columns <= (n + columns - 1) / columns - 1.
Proof.
  intros Hc Hi. split; [apply Z.div_pos; lia|].
  assert (H : (n + columns - 1) / columns = (n - 1) / columns + 1).
  { replace (n + columns - 1) with ((n - 1) + 1 * columns) by lia.
    rewrite Z.div_add by lia. reflexivity. }
  rewrite H. assert (i / columns <= (n - 1) / columns) by (apply Z.div_le_mono; lia). lia.
Qed.

Lemma cell_on_canvas (n columns w h spacing i : Z) :
  0 < columns -> 0 <= spacing -> 0 <= w -> 0 <= h -> 0 <= i < n ->
  let rows := (n + columns - 1) / columns in
  let p := cell_position columns w h spacing i in
  0 <= p.1 /\ p.1 + w <= columns * w + (columns - 1) * spacing
  /\ 0 <= p.2 /\ p.2 + h <= rows * h + (rows - 1) * spacing.
Proof.
  intros Hc Hs Hw Hh Hi rows p. subst rows p. unfold cell_position. simpl.
  pose proof (Z.mod_pos_bound i columns Hc) as Hcol.
  pose proof (rows_bound n columns i Hc Hi) as Hrow.
  set (col := i mod columns) in *. set (row := i / columns) in *.
  set (rows := (n + columns - 1) / columns) in *.
  repeat split; nia.
Qed.

Lemma cells_apart (columns w h spacing i j : Z) :
  0 < columns -> 0 <= spacing -> 0 <= w -> 0 <= h -> 0 <= i -> 0 <= j -> i <> j ->
  apart w h (cell_position columns w h spacing i) (cell_position columns w h spacing j).
Proof.
  intros Hc Hs Hw Hh Hi Hj Hne. unfold apart, cell_position. simpl.
  pose proof (Z.mod_pos_bound i columns Hc) as Hci.
  pose proof (Z.mod_pos_bound j columns Hc) as Hcj.
  pose proof (Z.div_mod i columns ltac:(lia)) as Ei.
  pose proof (Z.div_mod j columns ltac:(lia)) as Ej.
  set (ci := i mod columns) in *. set (ri := i / columns) in *.
  set (cj := j mod columns) in *. set (rj := j / columns) in *.
  destruct (Z.lt_trichotomy ci cj) as [H|[H|H]].
  - left. nia.
  - destruct (Z.lt_trichotomy ri rj) as [H'|[H'|H']].
    + right. right. left. nia.
    + exfalso. apply Hne. rewrite Ei, Ej, H, H'. reflexivity.
    + right. right. right. nia.
  - right. left. nia.
Qed.

Lemma grid_layout (images : list Image) (columns spacing w h : Z) :
  images <> [] -> 0 < columns -> 0 <= spacing -> 0 <= w -> 0 <= h -> sized w h images ->
  image_processor.create_image_grid images columns spacing
  = Ok (Some (image_processor.mkCanvas (columns * w + (columns - 1) * spacing)
                       ((Z.of_nat (length images) + columns - 1) / columns * h
                        + ((Z.of_nat (length images) + columns - 1) / columns - 1) * spacing)
                       (imap (fun k img =>
                                (img, cell_position columns w h spacing (Z.of_nat k)))
                             images))).
Proof.
  intros Hne Hc Hs Hw Hh Hsized.
  destruct images as [|first rest]; [contradiction|].
  assert (Hfirst : width first = w /\ height first = h) by (inversion Hsized; assumption).
  destruct Hfirst as [<- <-].
  unfold image_processor.create_image_grid.
  set (images := first :: rest) in *.
  destruct (columns =? 0) eqn:Ec; [lia|].
  set (n := Z.of_nat (length images)) in *.
  set (rows := (n + columns - 1) / columns) in *.
  assert (Hn : 1 <= n) by (subst n images; simpl; lia).
  assert (Hrows : 1 <= rows).
  { pose proof (rows_bound n columns 0 Hc ltac:(lia)) as H.
    rewrite Z.div_0_l in H by lia. subst rows. lia. }
  unfold image_processor.new_canvas.
  destruct ((columns * width first + (columns - 1) * spacing <? 0)
            || (rows * height first + (rows - 1) * spacing <? 0)) eqn:Eneg.
  { apply orb_true_iff in Eneg. destruct Eneg as [E|E]; apply Z.ltb_lt in E; nia. }
  f_equal. f_equal.
  pose proof (paste_cells_canvas columns (width first) (height first) spacing
                (image_processor.mkCanvas (columns * width first + (columns - 1) * spacing)
                          (rows * height first + (rows - 1) * spacing) []) 0 images)
    as [Hcw Hch].
  pose proof (paste_cells_pasted columns (width first) (height first) spacing
                (image_processor.mkCanvas (columns * width first + (columns - 1) * spacing)
                          (rows * height first + (rows - 1) * spacing) []) 0 images)
    as Hp.
  destruct (image_processor.paste_cells _ _ _ _ _ _ _) as [cw ch ps]. simpl in *. subst cw ch ps.
  reflexivity.
Qed.

(** X18. For a non-empty list of equally sized images, at least one column
    and a non-negative spacing, [create_image_grid] returns a canvas that
    holds every image once, in order, the image with index [i] in row
    [i // columns] and column [i % columns]; every cell lies on the canvas
    and no two cells overlap.  An empty list gives [None], and zero columns
    raise [ZeroDivisionError]. *)
Theorem create_image_grid_layout :
  forall (images : list Image) (columns spacing w h : Z),
    (images <> [] -> 0 < columns -> 0 <= spacing -> 0 <= w -> 0 <= h -> sized w h images ->
     exists grid,
       image_processor.create_image_grid images columns spacing = Ok (Some grid)
       /\ map fst (image_processor.pasted grid) = images
       /\ (forall i img p, image_processor.pasted grid !! i = Some (img, p) ->
             p = cell_position columns w h spacing (Z.of_nat i)
             /\ on_canvas grid w h p)
       /\ (forall i j a p b q, i <> j ->
             image_processor.pasted grid !! i = Some (a, p) -> image_processor.pasted grid !! j = Some (b, q) ->
             apart w h p q))
    /\ image_processor.create_image_grid [] columns spacing = Ok None
    /\ (images <> [] -> image_processor.create_image_grid images 0 spacing = Raise ZeroDivisionError).
Proof.
  intros images columns spacing w h. split; [|split].
  - intros Hne Hc Hs Hw Hh Hsized.
    rewrite (grid_layout images columns spacing w h Hne Hc Hs Hw Hh Hsized).
    eexists. split; [reflexivity|]. simpl.
    split.
    { rewrite fmap_imap. clear. induction images as [|x l IH] using rev_ind; [reflexivity|].
      rewrite imap_app. simpl. rewrite IH. reflexivity. }
    split.
    + intros i img p Hi. rewrite list_lookup_imap in Hi.
      destruct (images !! i) as [img'|] eqn:Hl; [|discriminate Hi].
      simpl in Hi. injection Hi as <- <-. split; [reflexivity|].
      apply lookup_lt_Some in Hl.
      apply (cell_on_canvas (Z.of_nat (length images))); lia.
    + intros i j a p b q Hne' Hi Hj. rewrite list_lookup_imap in Hi, Hj.
      destruct (images !! i) as [a'|]; [|discriminate Hi].
      destruct (images !! j) as [b'|]; [|discriminate Hj].
      simpl in Hi, Hj. injection Hi as <- <-. injection Hj as <- <-.
      apply cells_apart; lia.
  - reflexivity.
  - intros Hne. destruct images; [contradiction|reflexivity].
Qed.

Lemma create_image_grid_layout_witness :
  exists grid,
    image_processor.create_image_grid [ sample_image; sample_image; sample_image ] 2 10 = Ok (Some grid)
    /\ map fst (image_processor.pasted grid) = [ sample_image; sample_image; sample_image ]
    /\ (forall i img p, image_processor.pasted grid !! i = Some (img, p) ->
          p = cell_position 2 512 512 10 (Z.of_nat i) /\ on_canvas grid 512 512 p)
    /\ (forall i j a p b q, i <> j ->
          image_processor.pasted grid !! i = Some (a, p) -> image_processor.pasted grid !! j = Some (b, q) ->
          apart 512 512 p q).
Proof.
  apply (proj1 (create_image_grid_layout [ sample_image; sample_image; sample_image ]
                  2 10 512 512)).
  - discriminate.
  - lia.
  - lia.
  - lia.
  - lia.
  - repeat constructor.
Defined.

(** X19. Given a non-negative spacing and images of non-negative size,
    [create_side_by_side] returns a canvas as wide as both images and the
    spacing together and as high as the higher image, with the original at
    the left edge and the result [spacing] pixels to its right; both lie on
    the canvas and share no pixel. *)
Theorem create_side_by_side_layout :
  forall (lib : Lib) (original transformed left right : Image) (spacing : Z),
    Image_convert lib original "RGB" = Ok left ->
    Image_convert lib transformed "RGB" = Ok right ->
    0 <= spacing -> 0 <= width left -> 0 <= height left ->
    0 <= width right -> 0 <= height right ->
    exists combined,
      image_processor.create_side_by_side lib original transformed spacing = Ok combined
      /\ image_processor.canvas_width combined = width left + spacing + width right
      /\ image_processor.canvas_height combined = Z.max (height left) (height right)
      /\ image_processor.pasted combined = [ (left, (0, 0)); (right, (width left + spacing, 0)) ]
      /\ on_canvas combined (width left) (height left) (0, 0)
      /\ on_canvas combined (width right) (height right) (width left + spacing, 0).
Proof.
  intros lib original transformed left right spacing Hl Hr Hs Hwl Hhl Hwr Hhr.
  unfold image_processor.create_side_by_side. rewrite Hl, Hr. unfold image_processor.new_canvas.
  destruct ((width left + width right + spacing <? 0)
            || (Z.max (height left) (height right) <? 0)) eqn:Eneg.
  { apply orb_true_iff in Eneg. destruct Eneg as [E|E]; apply Z.ltb_lt in E; lia. }
  eexists. split; [reflexivity|]. unfold on_canvas. simpl.
  repeat split; lia.
Qed.

Lemma create_side_by_side_layout_witness :
  exists combined,
    image_processor.create_side_by_side sample_lib (mkImage 640 480 "RGBA" []) sample_image 20 = Ok combined
    /\ image_processor.canvas_width combined = 640 + 20 + 512
    /\ image_processor.canvas_height combined = Z.max 480 512
    /\ image_processor.pasted combined
       = [ (mkImage 640 480 "RGBA" [], (0, 0)); (sample_image, (640 + 20, 0)) ]
    /\ on_canvas combined 640 480 (0, 0)
    /\ on_canvas combined 512 512 (640 + 20, 0).
Proof.
  apply (create_side_by_side_layout sample_lib (mkImage 640 480 "RGBA" []) sample_image
           (mkImage 640 480 "RGBA" []) sample_image 20);
    first [reflexivity | simpl; lia].
Defined.

Lemma split_dot_nonempty s : image_loader.split_dot s <> [].
Proof.
  destruct s as [|c rest]; simpl; [discriminate|].
  destruct (Ascii.eqb c "."); [discriminate|].
  destruct (image_loader.split_dot rest); discriminate.
Qed.

Lemma last_of_cons x l : l <> [] -> image_loader.last_of (x :: l) = image_loader.last_of l.
Proof. unfold image_loader.last_of. destruct l; [contradiction|reflexivity]. Qed.

Lemma last_of_dotless s : has_dot s = false -> image_loader.last_of (image_loader.split_dot s) = s.
Proof.
  induction s as [|c rest IH]; simpl; [reflexivity|].
  intros H. apply orb_false_iff in H. destruct H as [Hc Hrest]. rewrite Hc.
  specialize (IH Hrest).
  assert (Hone : image_loader.split_dot rest = [ rest ]).
  { clear IH. revert Hrest. clear. induction rest as [|d r IHr]; simpl; [reflexivity|].
    intros H. apply orb_false_iff in H. destruct H as [Hd Hr]. rewrite Hd, (IHr Hr).
    reflexivity. }
  rewrite Hone. reflexivity.
Qed.

Lemma last_of_after_dot base extension :
  image_loader.last_of (image_loader.split_dot (base +:+ "." +:+ extension)) = image_loader.last_of (image_loader.split_dot extension).
Proof.
  induction base as [|c rest IH]; simpl.
  - apply last_of_cons, split_dot_nonempty.
  - destruct (Ascii.eqb c ".").
    + rewrite last_of_cons by apply split_dot_nonempty. exact IH.
    + destruct (image_loader.split_dot (rest +:+ "." +:+ extension)) as [|first others] eqn:E.
      { exfalso. exact (split_dot_nonempty _ E). }
      rewrite <- IH. unfold image_loader.last_of. destruct others; [|reflexivity].
      simpl. exfalso.
      (* a name with a dot splits into at least two parts *)
      clear IH. revert first E. induction rest as [|d r IHr]; simpl; intros first E.
      * change ("" +:+ extension) with extension in E.
        pose proof (split_dot_nonempty extension). destruct (image_loader.split_dot extension);
          [contradiction|discriminate E].
      * destruct (Ascii.eqb d ".").
        -- pose proof (split_dot_nonempty (r +:+ "." +:+ extension)).
           destruct (image_loader.split_dot (r +:+ "." +:+ extension)); [contradiction|discriminate E].
        -- destruct (image_loader.split_dot (r +:+ "." +:+ extension)) as [|f o] eqn:E';
             [exact (split_dot_nonempty _ E')|].
           injection E as _ ->. eapply IHr. reflexivity.
Qed.

(** X20. [validate_image] judges a file name by the text after its last
    dot alone, whatever comes before it, so that a name without a dot counts
    as its own extension; a file is accepted only if that text, in lower
    case, is one of the allowed extensions; without a file the verdict is
    the request to upload one.  A file of exactly 5 MiB is accepted, one
    byte more is not. *)
Theorem validate_image_reads_extension :
  forall (base extension : string) (nbytes : Z) (file : image_loader.uploaded_file),
    image_loader.validate_image (Some (image_loader.mkUpload (base +:+ "." +:+ extension) nbytes))
    = image_loader.validate_image (Some (image_loader.mkUpload extension nbytes))
    /\ ((image_loader.validate_image (Some file)).1 = true ->
        In (lower (image_loader.last_of (image_loader.split_dot (image_loader.name file)))) image_loader.ALLOWED_EXTENSIONS)
    /\ image_loader.validate_image None = (false, "Please upload an image.")
    /\ image_loader.validate_image (Some (image_loader.mkUpload (base +:+ ".PNG") (5 * 1024 * 1024)))
       = (true, "Image is valid.")
    /\ image_loader.validate_image (Some (image_loader.mkUpload (base +:+ ".PNG") (5 * 1024 * 1024 + 1)))
       = (false, "File too large. Maximum: 5MB").
Proof.
  intros base extension nbytes file.
  split.
  { unfold image_loader.validate_image. cbn [image_loader.name image_loader.size].
    rewrite last_of_after_dot. reflexivity. }
  split.
  { unfold image_loader.validate_image.
    destruct (existsb _ image_loader.ALLOWED_EXTENSIONS) eqn:E; [|discriminate].
    intros _. apply existsb_exists in E. destruct E as (x & Hin & Hx).
    apply String.eqb_eq in Hx. subst x. exact Hin. }
  split; [reflexivity|].
  assert (H : forall sz,
             image_loader.validate_image (Some (image_loader.mkUpload (base +:+ ".PNG") sz))
             = image_loader.validate_image (Some (image_loader.mkUpload "PNG" sz))).
  { intros sz. unfold image_loader.validate_image. cbn [image_loader.name image_loader.size].
    change (base +:+ ".PNG") with (base +:+ "." +:+ "PNG").
    rewrite (last_of_after_dot base "PNG"). reflexivity. }
  rewrite !H. split; vm_compute; reflexivity.
Qed.

Lemma validate_image_reads_extension_witness :
  In (lower (image_loader.last_of (image_loader.split_dot "holiday.photo.JPG"))) image_loader.ALLOWED_EXTENSIONS.
Proof.
  apply (proj1 (proj2 (validate_image_reads_extension "" "" 0
                         (image_loader.mkUpload "holiday.photo.JPG" 204800)))).
  vm_compute. reflexivity.
Defined.

Lemma set_if_missing_union (k : string) (v : pyval) (ss : gmap string pyval) :
  app.set_if_missing k v ss = ss ∪ {[ k := v ]}.
Proof.
  unfold app.set_if_missing. apply map_eq. intros i.
  rewrite lookup_union.
  destruct (ss !! k) as [x|] eqn:E.
  - destruct (decide (i = k)) as [->|Hne].
    + rewrite E, lookup_singleton_eq. reflexivity.
    + rewrite lookup_singleton_ne by congruence. destruct (ss !! i); reflexivity.
  - destruct (decide (i = k)) as [->|Hne].
    + rewrite lookup_insert_eq, E, lookup_singleton_eq. reflexivity.
    + rewrite lookup_insert_ne by congruence.
      rewrite lookup_singleton_ne by congruence. destruct (ss !! i); reflexivity.
Qed.

Lemma init_session_state_union (ss : gmap string pyval) :
  app.init_session_state ss = ss ∪ session_defaults.
Proof.
  unfold app.init_session_state. rewrite !set_if_missing_union.
  rewrite <- !(assoc_L (∪)). f_equal.
Qed.

(** X21. [init_session_state] adds the five defaults to what the session
    holds and changes nothing that is there: the result is the session,
    completed by the defaults.  All five keys are set afterwards, an entry
    that was there is kept, and running it again changes nothing. *)
Theorem init_session_state_completes :
  forall (ss : gmap string pyval) (k : string),
    app.init_session_state ss = ss ∪ session_defaults
    /\ app.init_session_state ss !! k
       = match ss !! k with
         | Some v => Some v
         | None => session_defaults !! k
         end
    /\ Forall (fun key => is_Some (app.init_session_state ss !! key))
              [ "transformed_images"; "original_image"; "transformation_done";
                "platform_settings"; "last_metadata" ]
    /\ app.init_session_state (app.init_session_state ss) = app.init_session_state ss.
Proof.
  intros ss k. rewrite !init_session_state_union.
  split; [reflexivity|]. split.
  { rewrite lookup_union. destruct (ss !! k), (session_defaults !! k); reflexivity. }
  split.
  { assert (H : forall key, is_Some (session_defaults !! key) ->
                            is_Some ((ss ∪ session_defaults) !! key)).
    { intros key [v Hv]. rewrite lookup_union, Hv. destruct (ss !! key); simpl; eauto. }
    repeat (apply List.Forall_cons; [apply H; vm_compute; eauto|]).
    apply List.Forall_nil. }
  rewrite <- (assoc_L (∪)). f_equal.
Qed.




Section Views.
Context {World : Type} (ext : Ext World).




End Views.




Section Results.
Context {World : Type} (ext : Ext World).


End Results.


Section DeepAI.
Context {World : Type} (lib : Lib) (ext : Ext World) (cfg : Config).

Lemma deepai_exchange_run image_bytes prompt strength negative_prompt key (s : Env World) :
  key_of (DEEPAI_API_KEY cfg) = Some key ->
  let run :=
    deepai_api_handler.transform_image lib ext cfg image_bytes prompt strength
      negative_prompt s in
  deepai_exchange lib key image_bytes prompt strength (trace_of run)
  /\ (forall image, result_of run = Ok (true, image) -> length (trace_of run) = 2%nat).
Proof.
  intros Hkey run. subst run. unfold deepai_api_handler.transform_image. rewrite Hkey.
  unfold deepai_exchange, try_catch, post, get, result_of, trace_of.
  repeat first
    [ run_step
    | match goal with |- context [if ?b then _ else _] => destruct b eqn:? end ];
    unfold ret, prefixed; simpl;
    repeat (match goal with
            | |- context [match exn_cls ?e with _ => _ end] => destruct (exn_cls e)
            end; simpl);
    (split;
     [ first [ left; reflexivity
             | right; eexists; split; [|reflexivity];
               match goal with H : negb (truthy _) = false |- _ =>
                 apply negb_false_iff in H; exact H end ]
     | intros image H; first [discriminate H | reflexivity] ]).
Qed.
End DeepAI.

(** X23. With a key set, a call of the DeepAI adapter posts the image with
    the prompt text exactly once, with a timeout of 60 seconds, and makes at
    most one more request: the download, with a timeout of 30 seconds, of
    the address the answer named.  A call that returns an image has made
    both. *)
Theorem deepai_posts_then_downloads :
  forall (World : Type) (lib : Lib) (ext : Ext World) (cfg : Config)
         (image_bytes : bytes) (prompt : string) (strength : float)
         (negative_prompt : string) (key : string) (s : Env World),
    key_of (DEEPAI_API_KEY cfg) = Some key ->
    let run :=
      deepai_api_handler.transform_image lib ext cfg image_bytes prompt strength
        negative_prompt s in
    deepai_exchange lib key image_bytes prompt strength (trace_of run)
    /\ req_timeout (deepai_api_handler.editor_request key image_bytes
                      (deepai_api_handler.final_prompt prompt strength)) = Some 60
    /\ (forall image, result_of run = Ok (true, image) -> length (trace_of run) = 2%nat).
Proof.
  intros World lib ext cfg image_bytes prompt strength negative_prompt key s Hkey run.
  destruct (deepai_exchange_run lib ext cfg image_bytes prompt strength negative_prompt
              key s Hkey) as [H1 H2].
  split; [exact H1|]. split; [reflexivity|exact H2].
Qed.

Lemma deepai_posts_then_downloads_witness :
  let run :=
    deepai_api_handler.transform_image sample_lib (deepai_world 1) sample_cfg []
      "oil painting" 0.6%float "" fresh_env in
  deepai_exchange sample_lib "deepai-key-0123456789" [] "oil painting" 0.6%float
    (trace_of run)
  /\ length (trace_of run) = 2%nat.
Proof.
  destruct (deepai_posts_then_downloads nat sample_lib (deepai_world 1) sample_cfg []
              "oil painting" 0.6%float "" "deepai-key-0123456789" fresh_env eq_refl)
    as (H1 & _ & H2).
  split; [exact H1|]. apply (H2 (VImage sample_image)). reflexivity.
Defined.

